(** * Backtest pipeline: signal scoring, strategy simulation, aggregation

    A shallow embedding of
      - [scripts/backtest_all_strategies_30days.py] (class [ComprehensiveBacktest])
      - [scripts/backtest_1m_scorer.py]            (class [ScoringBacktest])
    and the properties of the specification that concern them.

    Conventions of the embedding.
      - Python [float] values are read as exact rationals ([Q]); a literal
        such as [1.03] is the rational 103/100.  Equality of amounts is
        rational equality ([==]).
      - Python [int] timestamps and counts are [Z] or [nat].
      - The SQLite file is a record of four tables held as lists of rows;
        every query is a list computation over them.  [ORDER BY] is a stable
        insertion sort, [LIMIT n] is [firstn n].
      - Nullable columns that the code guards with [x or 0] are [option].
      - The labels returned next to each signal are kept as a constructor per
        branch, carrying the value the label is formatted from. *)

From Stdlib Require Import ZArith QArith Qabs List String Bool Lia Lqa.
From Stdlib Require Import Permutation Sorted.
Import ListNotations.

Local Open Scope Q_scope.

(** ** Numbers *)

Definition Qltb (x y : Q) : bool := negb (Qle_bool y x).

Notation "x <=? y" := (Qle_bool x y) (at level 70) : Q_scope.
Notation "x <? y" := (Qltb x y) (at level 70) : Q_scope.
Notation "x >=? y" := (Qle_bool y x) (at level 70) : Q_scope.
Notation "x >? y" := (Qltb y x) (at level 70) : Q_scope.

(** Python's [sum] over a list of floats. *)
Definition Qsum (l : list Q) : Q := fold_left Qplus l 0.

(** [lo <= x <= hi] on integers. *)
Definition between (lo x hi : Z) : bool := (lo <=? x)%Z && (x <=? hi)%Z.

(** [x or 0] on a nullable column. *)
Definition or0 (x : option Q) : Q := match x with Some v => v | None => 0 end.
Definition or0Z (x : option Z) : Z := match x with Some v => v | None => 0%Z end.

(** ** Sorting, as [ORDER BY] and [sorted] perform it *)

Section Sorting.
Context {A : Type}.
Variable before : A -> A -> bool.

Fixpoint insert_by (x : A) (l : list A) : list A :=
  match l with
  | [] => [x]
  | y :: l' => if before y x then y :: insert_by x l' else x :: l
  end.

Definition sort_by (l : list A) : list A :=
  fold_left (fun acc x => insert_by x acc) l [].
End Sorting.

(** ** The data store *)

Record TokenRow := {
  tok_mint : string;
  launch_block_time : Z;
  creator_wallet : string;
  initial_liquidity_sol : option Q
}.

Record TradeRow := {
  trd_mint : string;
  trader : string;
  amount_sol : Q;
  side : string;
  block_time : Z
}.

Record WindowRow := {
  win_mint : string;
  window_sec : Z;
  start_time : Z;
  close : Q;
  high : Q;
  low : Q;
  vol_sol : Q
}.

Record WalletStatsRow := {
  wallet : string;
  net_pnl_sol : option Q;
  create_count : option Z;
  profit_score : option Q;
  win_rate : option Q;
  total_trades : option Z
}.

Record Db := {
  tokens : list TokenRow;
  trades : list TradeRow;
  windows : list WindowRow;
  wallet_stats : list WalletStatsRow
}.

Definition is_buy (t : TradeRow) : bool := String.eqb (side t) "buy".

(** [set([t["trader"] for t in ...])]: the distinct traders. *)
Definition distinct (l : list string) : list string := nodup string_dec l.

(** [fetchone] of [SELECT ... FROM wallet_stats WHERE wallet = ?]. *)
Definition wallet_row (db : Db) (w : string) : option WalletStatsRow :=
  find (fun r => String.eqb (wallet r) w) (wallet_stats db).

(** ** Wallet tiers, [get_wallet_tier] *)

Inductive Tier := TierS | TierA | TierB | TierC | TierD | TierUnknown.

Definition tier_eqb (a b : Tier) : bool :=
  match a, b with
  | TierS, TierS | TierA, TierA | TierB, TierB
  | TierC, TierC | TierD, TierD | TierUnknown, TierUnknown => true
  | _, _ => false
  end.

(** [tier in [...]] *)
Definition tier_in (t : Tier) (l : list Tier) : bool := existsb (tier_eqb t) l.

(** ** Simulated positions *)

Inductive Strategy :=
| dollar_scalping | rank_based | momentum
| copy_trading | late_opportunity | mc_hunting_1m.

(** The [exit_reason] strings.  [R_time] is the default ["time"].  The two
    formatted reasons of the 1M-MC strategy, [f"target_{..}pct"] and
    [f"stop_loss_{..}pct"], carry the multiplier they are formatted from. *)
Inductive ExitReason :=
| R_time
| R_profit_3pct | R_stop_loss | R_time_20s
| R_target_30pct | R_stop_loss_20pct | R_time_30s
| R_target_50pct | R_stop_loss_15pct | R_time_120s
| R_target_20pct | R_stop_loss_10pct | R_time_15s
| R_target_25pct | R_time_300s
| R_hit_1m_mc
| R_target_pct (profit_target : Q)
| R_stop_loss_pct (stop_loss : Q)
| R_time_420s.

Definition is_default_reason (r : ExitReason) : bool :=
  match r with R_time => true | _ => false end.

(** Keys a strategy adds to the common ones of its result. *)
Inductive Extra :=
| NoExtra
| MomentumExtra (buyers : nat) (volume : Q)
| CopyExtra (copied_wallet_tier : Tier)
| HuntExtra (score : Q) (peak_mc_sol : Q) (hit_1m : bool).

Record Position := {
  strategy : Strategy;
  position_size_sol : Q;
  entry_price : Q;
  exit_price : Q;
  exit_reason : ExitReason;
  pnl_sol : Q;
  pnl_usd : Q;
  gain_pct : Q;
  extra : Extra
}.

(** [result.get("hit_1m")] *)
Definition get_hit_1m (p : Position) : bool :=
  match extra p with HuntExtra _ _ h => h | _ => false end.

(** What an exit loop leaves behind: the price, the reason, and the offset
    from launch of the window at which the loop broke ([None] when the loop
    ran off the end of [prices] and the defaults stand).  The offset is not
    stored by the code; it is kept here to speak about the exit instant. *)
Record Exit := {
  x_price : Q;
  x_reason : ExitReason;
  x_offset : option Z
}.

(** The constants of one exit loop. *)
Record ExitRule := {
  skip_upto : Z;        (* [if time_offset <= skip_upto: continue] *)
  target_gain : Q;      (* [if gain_pct >= target_gain] *)
  target_mult : Q;      (* [exit_price = entry_price * target_mult] *)
  target_reason : ExitReason;
  stop_mult : Q;        (* [if p["low"] < entry_price * stop_mult] *)
  stop_reason : ExitReason;
  time_limit : Z;       (* [if time_offset >= time_limit] *)
  time_reason : ExitReason
}.

(** * [ComprehensiveBacktest] (backtest_all_strategies_30days.py) *)

Module ComprehensiveBacktest.

Definition SOL_PRICE_USD : Q := 186.0.

(** A row of [get_tokens_last_n_days]. *)
Record TokenVolume := {
  tv_mint : string;
  tv_launch_block_time : Z;
  tv_creator_wallet : string;
  total_volume_5min : Q
}.

(** [get_tokens_last_n_days]; [cutoff_time] is [now - days] in seconds.
    [mint] is the key of [tokens], so [GROUP BY t.mint] keeps every row. *)
Definition get_tokens_last_n_days (db : Db) (cutoff_time : Z) : list TokenVolume :=
  sort_by (fun y x => (tv_launch_block_time y >=? tv_launch_block_time x)%Z)
    (map (fun t =>
            {| tv_mint := tok_mint t;
               tv_launch_block_time := launch_block_time t;
               tv_creator_wallet := creator_wallet t;
               total_volume_5min :=
                 Qsum (map vol_sol
                   (filter (fun w => String.eqb (tok_mint t) (win_mint w)
                                     && (window_sec w =? 60)%Z
                                     && between (launch_block_time t) (start_time w)
                                                (launch_block_time t + 300))
                           (windows db))) |})
         (filter (fun t => (launch_block_time t >=? cutoff_time)%Z
                           && (launch_block_time t >? 0)%Z)
                 (tokens db))).

(** [get_trades]: trades of [mint] with
    [block_time BETWEEN launch_time + start_offset AND launch_time + end_offset],
    by ascending [block_time]. *)
Definition get_trades (db : Db) (mint : string) (launch_time start_offset end_offset : Z)
  : list TradeRow :=
  sort_by (fun y x => (block_time y <=? block_time x)%Z)
    (filter (fun t => String.eqb (trd_mint t) mint
                      && between (launch_time + start_offset) (block_time t)
                                 (launch_time + end_offset))
            (trades db)).

(** [get_price_data]: the 60-second windows of [mint] starting in
    [launch_time, launch_time + max_seconds], by ascending [start_time]. *)
Definition get_price_data (db : Db) (mint : string) (launch_time max_seconds : Z)
  : list WindowRow :=
  sort_by (fun y x => (start_time y <=? start_time x)%Z)
    (filter (fun w => String.eqb (win_mint w) mint
                      && (window_sec w =? 60)%Z
                      && between launch_time (start_time w) (launch_time + max_seconds))
            (windows db)).

Definition get_creator_stats (db : Db) (creator : string) : option (Q * Z) :=
  match wallet_row db creator with
  | Some row => Some (or0 (net_pnl_sol row), or0Z (create_count row))
  | None => None
  end.

Definition get_wallet_tier (db : Db) (w : string) : Tier :=
  match wallet_row db w with
  | None => TierUnknown
  | Some row =>
    let profit_score := or0 (profit_score row) in
    let win_rate := or0 (win_rate row) in
    let total_trades := or0Z (total_trades row) in
    if (profit_score >=? 85) && (win_rate >=? 0.70) && (total_trades >=? 50)%Z then TierS
    else if (profit_score >=? 75) && (win_rate >=? 0.60) && (total_trades >=? 20)%Z then TierA
    else if (profit_score >=? 65) && (win_rate >=? 0.50) && (total_trades >=? 10)%Z then TierB
    else if (profit_score >=? 50) && (total_trades >=? 5)%Z then TierC
    else TierD
  end.

(** *** The shared shape of the strategies *)

(** Entry loop: the first window whose offset from launch lies in [lo, hi]. *)
Definition entry_window (lo hi launch_time : Z) (prices : list WindowRow)
  : option WindowRow :=
  find (fun p => between lo (start_time p - launch_time) hi) prices.

(** Exit loop of the five percentage strategies.  Windows at or before
    [skip_upto] are passed over; at every other window the target is tried
    first, then the stop, then the time limit, and the first that holds
    ends the loop. *)
Fixpoint exit_scan (rule : ExitRule) (launch_time : Z) (entry_price : Q)
         (prices : list WindowRow) : Exit :=
  match prices with
  | [] => {| x_price := entry_price; x_reason := R_time; x_offset := None |}
  | p :: rest =>
    let time_offset := (start_time p - launch_time)%Z in
    if (time_offset <=? skip_upto rule)%Z then
      exit_scan rule launch_time entry_price rest
    else
      let gain_pct := ((high p - entry_price) / entry_price) * 100 in
      if gain_pct >=? target_gain rule then
        {| x_price := entry_price * target_mult rule;
           x_reason := target_reason rule;
           x_offset := Some time_offset |}
      else if low p <? entry_price * stop_mult rule then
        {| x_price := entry_price * stop_mult rule;
           x_reason := stop_reason rule;
           x_offset := Some time_offset |}
      else if (time_offset >=? time_limit rule)%Z then
        {| x_price := close p;
           x_reason := time_reason rule;
           x_offset := Some time_offset |}
      else exit_scan rule launch_time entry_price rest
  end.

(** The result dictionary common to all strategies. *)
Definition make_position (s : Strategy) (position_size_sol entry_price : Q)
           (x : Exit) (e : Extra) : Position :=
  let pnl_sol := position_size_sol * ((x_price x - entry_price) / entry_price) in
  {| strategy := s;
     position_size_sol := position_size_sol;
     entry_price := entry_price;
     exit_price := x_price x;
     exit_reason := x_reason x;
     pnl_sol := pnl_sol;
     pnl_usd := pnl_sol * SOL_PRICE_USD;
     gain_pct := ((x_price x - entry_price) / entry_price) * 100;
     extra := e |}.

(** *** Strategy 1: $1 scalping *)

Definition scalping_rule (entry_time : Z) : ExitRule :=
  {| skip_upto := entry_time;
     target_gain := 3.0; target_mult := 1.03; target_reason := R_profit_3pct;
     stop_mult := 0.98; stop_reason := R_stop_loss;
     time_limit := entry_time + 20; time_reason := R_time_20s |}.

Definition test_dollar_scalping (mint : string) (launch_time : Z)
           (prices : list WindowRow) : option Position :=
  if (List.length prices <? 2)%nat then None else
  match entry_window 30 60 launch_time prices with
  | None => None
  | Some e =>
    let entry_price := close e in
    let entry_time := (start_time e - launch_time)%Z in
    if entry_price <=? 0 then None else
    let position_size_sol := 1.0 / SOL_PRICE_USD in
    let x := exit_scan (scalping_rule entry_time) launch_time entry_price prices in
    let pnl_sol := position_size_sol * ((x_price x - entry_price) / entry_price) in
    let pnl_usd := pnl_sol * SOL_PRICE_USD in
    if (Qabs pnl_usd <? 0.01) && is_default_reason (x_reason x) then None
    else Some
      {| strategy := dollar_scalping;
         position_size_sol := position_size_sol;
         entry_price := entry_price;
         exit_price := x_price x;
         exit_reason := x_reason x;
         pnl_sol := pnl_sol;
         pnl_usd := pnl_usd;
         gain_pct := if entry_price >? 0
                     then ((x_price x - entry_price) / entry_price) * 100
                     else 0;
         extra := NoExtra |}
  end.

(** *** Strategy 2: rank based *)

Definition rank_rule : ExitRule :=
  {| skip_upto := 60;
     target_gain := 30.0; target_mult := 1.30; target_reason := R_target_30pct;
     stop_mult := 0.80; stop_reason := R_stop_loss_20pct;
     time_limit := 60 + 30; time_reason := R_time_30s |}.

Definition test_rank_based (mint : string) (launch_time : Z)
           (prices : list WindowRow) (volume_5min : Q) : option Position :=
  if (List.length prices <? 3)%nat then None else
  if volume_5min <? 20.0 then None else
  match entry_window 60 120 launch_time prices with
  | None => None
  | Some e =>
    let entry_price := close e in
    if entry_price <=? 0 then None else
    let position_size_sol := 5.0 / SOL_PRICE_USD in
    Some (make_position rank_based position_size_sol entry_price
            (exit_scan rank_rule launch_time entry_price prices) NoExtra)
  end.

(** *** Strategy 3: momentum *)

Definition momentum_rule : ExitRule :=
  {| skip_upto := 120;
     target_gain := 50.0; target_mult := 1.50; target_reason := R_target_50pct;
     stop_mult := 0.85; stop_reason := R_stop_loss_15pct;
     time_limit := 120 + 120; time_reason := R_time_120s |}.

Definition test_momentum (db : Db) (mint : string) (launch_time : Z)
           (prices : list WindowRow) : option Position :=
  if (List.length prices <? 4)%nat then None else
  let trades_60_120 := get_trades db mint launch_time 60 120 in
  if (List.length trades_60_120 <? 5)%nat then None else
  let buyers := distinct (map trader (filter is_buy trades_60_120)) in
  let volume := Qsum (map amount_sol (filter is_buy trades_60_120)) in
  if (List.length buyers <? 3)%nat || (volume <? 4.0) then None else
  match entry_window 120 130 launch_time prices with
  | None => None
  | Some e =>
    let entry_price := close e in
    if entry_price <=? 0 then None else
    let position_size_sol := 3.0 / SOL_PRICE_USD in
    Some (make_position momentum position_size_sol entry_price
            (exit_scan momentum_rule launch_time entry_price prices)
            (MomentumExtra (List.length buyers) volume))
  end.

(** *** Strategy 4: copy trading *)

Definition copy_rule (entry_time : Z) : ExitRule :=
  {| skip_upto := entry_time;
     target_gain := 20.0; target_mult := 1.20; target_reason := R_target_20pct;
     stop_mult := 0.90; stop_reason := R_stop_loss_10pct;
     time_limit := entry_time + 15; time_reason := R_time_15s |}.

Definition test_copy_trading (db : Db) (mint : string) (launch_time : Z)
           (prices : list WindowRow) : option Position :=
  if (List.length prices <? 2)%nat then None else
  let early_trades := get_trades db mint launch_time 0 60 in
  match find (fun trade => is_buy trade
                           && (amount_sol trade >=? 0.25)
                           && tier_in (get_wallet_tier db (trader trade))
                                      [TierS; TierA; TierB; TierC])
             early_trades with
  | None => None
  | Some profitable_trade =>
    let entry_time := (block_time profitable_trade - launch_time)%Z in
    match find (fun p => (Z.abs (start_time p - launch_time - entry_time) <? 10)%Z)
               prices with
    | None => None
    | Some e =>
      let entry_price := close e in
      if entry_price <=? 0 then None else
      let position_size_sol := 2.0 / SOL_PRICE_USD in
      Some (make_position copy_trading position_size_sol entry_price
              (exit_scan (copy_rule entry_time) launch_time entry_price prices)
              (CopyExtra (get_wallet_tier db (trader profitable_trade))))
    end
  end.

(** *** Strategy 5: late opportunity *)

Definition late_rule : ExitRule :=
  {| skip_upto := 1200;
     target_gain := 25.0; target_mult := 1.25; target_reason := R_target_25pct;
     stop_mult := 0.80; stop_reason := R_stop_loss_20pct;
     time_limit := 1200 + 300; time_reason := R_time_300s |}.

Definition test_late_opportunity (db : Db) (mint : string) (launch_time : Z)
           (prices : list WindowRow) : option Position :=
  if (List.length prices <? 20)%nat then None else
  let late_trades := get_trades db mint launch_time 1200 1260 in
  match late_trades with
  | [] => None
  | _ :: _ =>
    let buyers := distinct (map trader (filter is_buy late_trades)) in
    let volume := Qsum (map amount_sol (filter is_buy late_trades)) in
    if (List.length buyers <? 10)%nat || (volume <? 10.0) then None else
    match entry_window 1200 1260 launch_time prices with
    | None => None
    | Some e =>
      let entry_price := close e in
      if entry_price <=? 0 then None else
      let position_size_sol := 1.0 / SOL_PRICE_USD in
      Some (make_position late_opportunity position_size_sol entry_price
              (exit_scan late_rule launch_time entry_price prices) NoExtra)
    end
  end.

(** *** Strategy 6: 1M+ MC hunting, and its 7-signal score *)

(** The [score] dictionary. *)
Record Score := {
  signal_1 : Q;
  signal_2 : Q;
  signal_3 : Q;
  signal_4 : Q;
  signal_5 : Q;
  signal_6 : Q;
  signal_7 : Q;
  total : Q
}.

(** Signal 1: creator reputation. *)
Definition score_signal_1 (db : Db) (creator : string) : Q :=
  match get_creator_stats db creator with
  | Some (net_pnl, create_count) =>
    if (net_pnl >=? 500) && (create_count >=? 5)%Z then 2.0
    else if (net_pnl >=? 200) && (create_count >=? 3)%Z then 1.5
    else if net_pnl >=? 50 then 1.0
    else 0.0
  | None => 0.0
  end.

(** Signal 2: buyer speed, from the distinct buyers of the first 60 seconds. *)
Definition score_signal_2 (trades_60 : list TradeRow) : Q :=
  let buyers_60 := distinct (map trader (filter is_buy trades_60)) in
  if (10 <=? List.length buyers_60)%nat then 2.0
  else if (7 <=? List.length buyers_60)%nat then 1.5
  else if (5 <=? List.length buyers_60)%nat then 1.0
  else 0.0.

(** Signal 4: the loop adds one to [proven_winners_buying] for every buy
    trade of [trades_60] whose trader is of tier S, A or B. *)
Definition proven_winners_buying (db : Db) (trades_60 : list TradeRow) : nat :=
  fold_left
    (fun n trade =>
       if negb (is_buy trade) then n
       else if tier_in (get_wallet_tier db (trader trade)) [TierS; TierA; TierB]
            then (n + 1)%nat else n)
    trades_60 0%nat.

Definition score_signal_4 (db : Db) (trades_60 : list TradeRow) : Q :=
  let n := proven_winners_buying db trades_60 in
  if (3 <=? n)%nat then 2.0
  else if (2 <=? n)%nat then 1.5
  else if (1 <=? n)%nat then 1.0
  else 0.0.

(** [trader_volumes[k] += v] on a [defaultdict(float)], kept in insertion
    order. *)
Fixpoint add_volume (k : string) (v : Q) (d : list (string * Q)) : list (string * Q) :=
  match d with
  | [] => [(k, 0.0 + v)]
  | (k', v') :: d' =>
    if String.eqb k' k then (k', v' + v) :: d' else (k', v') :: add_volume k v d'
  end.

Definition trader_volumes (buy_trades : list TradeRow) : list (string * Q) :=
  fold_left (fun d trade => add_volume (trader trade) (amount_sol trade) d)
            buy_trades [].

(** [sorted(values, reverse=True)] *)
Definition sorted_desc (l : list Q) : list Q := sort_by (fun y x => y >=? x) l.

(** Signal 5: buy concentration over the first 120 seconds. *)
Definition score_signal_5 (trades_120 : list TradeRow) : Q :=
  let buy_trades := filter is_buy trades_120 in
  match buy_trades with
  | [] => 0.0
  | _ :: _ =>
    let total_volume := fold_left (fun acc trade => acc + amount_sol trade) buy_trades 0.0 in
    if total_volume >? 0 then
      let top3 := firstn 3 (sorted_desc (map snd (trader_volumes buy_trades))) in
      let concentration := (Qsum top3 / total_volume) * 100 in
      if concentration <? 70 then 1.0
      else if concentration <? 80 then 0.5
      else 0.0
    else 0.0
  end.

(** Signal 6: volume acceleration, seconds 90-120 against 60-90. *)
Definition score_signal_6 (trades_90_120 trades_60_90 : list TradeRow) : Q :=
  let vol_recent := Qsum (map amount_sol (filter is_buy trades_90_120)) in
  let vol_baseline := Qsum (map amount_sol (filter is_buy trades_60_90)) in
  if (vol_baseline >? 0.5) && (vol_recent >? 0.5) then
    let accel := vol_recent / vol_baseline in
    if accel >=? 2.0 then 1.5
    else if accel >=? 1.5 then 1.0
    else 0.0
  else 0.0.

(** The steps of the velocity ladder of signal 7. *)
Definition velocity_steps (velocity : Q) : Q :=
  if velocity >=? 1000 then 3.0
  else if velocity >=? 500 then 2.0
  else if velocity >=? 200 then 1.0
  else 0.0.

(** Signal 7: MC velocity, from the first and the third window of the first
    300 seconds ([prices[2]] exists whenever [len(prices) >= 3]). *)
Definition score_signal_7 (prices : list WindowRow) : Q :=
  match prices with
  | p0 :: _ :: p2 :: _ =>
    let first_price := close p0 in
    let third_price := close p2 in
    if first_price >? 0 then
      let mc_change := (third_price - first_price) * 1_000_000_000 in
      let time_delta_min := 3 in
      let velocity := mc_change / time_delta_min in
      velocity_steps velocity
    else 0.0
  | _ => 0.0
  end.

Definition calculate_7_signal_score (db : Db) (mint : string) (launch_time : Z)
           (creator_wallet : string) : Score :=
  let trades_60 := get_trades db mint launch_time 0 60 in
  let s1 := score_signal_1 db creator_wallet in
  let s2 := score_signal_2 trades_60 in
  let s3 := 0.0 in
  let s4 := score_signal_4 db trades_60 in
  let s5 := score_signal_5 (get_trades db mint launch_time 0 120) in
  let s6 := score_signal_6 (get_trades db mint launch_time 90 120)
                           (get_trades db mint launch_time 60 90) in
  let s7 := score_signal_7 (get_price_data db mint launch_time 300) in
  {| signal_1 := s1; signal_2 := s2; signal_3 := s3; signal_4 := s4;
     signal_5 := s5; signal_6 := s6; signal_7 := s7;
     total := Qsum [s1; s2; s3; s4; s5; s6; s7] |}.

(** Position size, profit target and stop loss by score bracket. *)
Definition sizing (total_score : Q) : Q * Q * Q :=
  if total_score >=? 9.0 then (1.0, 1.50, 0.80)
  else if total_score >=? 8.0 then (0.75, 1.50, 0.85)
  else if total_score >=? 7.0 then (0.50, 1.30, 0.80)
  else (0.30, 1.30, 0.80).

(** Exit loop of the 1M-MC strategy; [peak_mc_sol] is threaded through and
    returned with the exit. *)
Fixpoint hunt_scan (launch_time : Z) (entry_price profit_target stop_loss : Q)
         (peak_mc_sol : Q) (prices : list WindowRow) : Exit * Q :=
  match prices with
  | [] => ({| x_price := entry_price; x_reason := R_time; x_offset := None |},
           peak_mc_sol)
  | p :: rest =>
    let time_offset := (start_time p - launch_time)%Z in
    if (time_offset <=? 120)%Z then
      hunt_scan launch_time entry_price profit_target stop_loss peak_mc_sol rest
    else
      (* [p["high"] * 1_000_000_000 / 1e9] *)
      let mc_sol := high p * 1_000_000_000 / 1_000_000_000.0 in
      let peak_mc_sol := if mc_sol >? peak_mc_sol then mc_sol else peak_mc_sol in
      if peak_mc_sol >=? 1_000_000 then
        ({| x_price := close p; x_reason := R_hit_1m_mc;
            x_offset := Some time_offset |}, peak_mc_sol)
      else if high p >=? entry_price * profit_target then
        ({| x_price := entry_price * profit_target;
            x_reason := R_target_pct profit_target;
            x_offset := Some time_offset |}, peak_mc_sol)
      else if low p <? entry_price * stop_loss then
        ({| x_price := entry_price * stop_loss;
            x_reason := R_stop_loss_pct stop_loss;
            x_offset := Some time_offset |}, peak_mc_sol)
      else if (time_offset >=? 420)%Z then
        ({| x_price := close p; x_reason := R_time_420s;
            x_offset := Some time_offset |}, peak_mc_sol)
      else hunt_scan launch_time entry_price profit_target stop_loss peak_mc_sol rest
  end.

Definition test_1m_mc_hunting (db : Db) (mint : string) (launch_time : Z)
           (creator_wallet : string) (prices : list WindowRow) : option Position :=
  if (List.length prices <? 3)%nat then None else
  let score_data := calculate_7_signal_score db mint launch_time creator_wallet in
  if total score_data <? 6.0 then None else
  match entry_window 120 130 launch_time prices with
  | None => None
  | Some e =>
    let entry_price := close e in
    if entry_price <=? 0 then None else
    let '(position_size_sol, profit_target, stop_loss) := sizing (total score_data) in
    let '(x, peak_mc_sol) :=
      hunt_scan launch_time entry_price profit_target stop_loss 0.0 prices in
    Some (make_position mc_hunting_1m position_size_sol entry_price x
            (HuntExtra (total score_data) (peak_mc_sol / 1_000_000)
                       (peak_mc_sol >=? 1_000_000)))
  end.

(** *** The runner and its results *)

(** One entry of the [results] dictionary.  Only ["1m_mc_hunting"] has the
    key ["1m_hits"]; for the other strategies the field stays [0]. *)
Record StrategyResults := {
  res_trades : list Position;
  total_pnl : Q;
  wins : nat;
  losses : nat;
  hits_1m : nat
}.

Definition empty_results : StrategyResults :=
  {| res_trades := []; total_pnl := 0.0; wins := 0; losses := 0; hits_1m := 0 |}.

(** The [results] dictionary: its six keys are fixed. *)
Definition Results := Strategy -> StrategyResults.

Definition initial_results : Results := fun _ => empty_results.

Definition strategy_eqb (a b : Strategy) : bool :=
  match a, b with
  | dollar_scalping, dollar_scalping | rank_based, rank_based
  | momentum, momentum | copy_trading, copy_trading
  | late_opportunity, late_opportunity | mc_hunting_1m, mc_hunting_1m => true
  | _, _ => false
  end.

(** The body of [if result:] for one strategy name. *)
Definition record_result (strategy_name : Strategy) (result : Position)
           (r : StrategyResults) : StrategyResults :=
  {| res_trades := res_trades r ++ [result];
     total_pnl := total_pnl r + pnl_usd result;
     wins := if pnl_sol result >? 0 then (wins r + 1)%nat else wins r;
     losses := if pnl_sol result >? 0 then losses r else (losses r + 1)%nat;
     hits_1m := if strategy_eqb strategy_name mc_hunting_1m && get_hit_1m result
                then (hits_1m r + 1)%nat else hits_1m r |}.

Definition update (results : Results) (strategy_name : Strategy)
           (f : StrategyResults -> StrategyResults) : Results :=
  fun s => if strategy_eqb strategy_name s then f (results s) else results s.

(** What calling one [test_func] does: it raises, or it returns a position
    or [None]. *)
Inductive Outcome :=
| Raised
| Returned (result : option Position).

(** One turn of [for strategy_name, test_func in strategies_to_test], with
    its [try] / [except Exception: pass]. *)
Definition try_strategy (results : Results) (st : Strategy * Outcome) : Results :=
  match snd st with
  | Raised => results
  | Returned None => results
  | Returned (Some result) => update results (fst st) (record_result (fst st) result)
  end.

Definition run_strategies (results : Results) (sts : list (Strategy * Outcome))
  : Results :=
  fold_left try_strategy sts results.

(** The six closures of [strategies_to_test] when none of them raises. *)
Definition strategies_to_test (db : Db) (token : TokenVolume)
           (prices : list WindowRow) : list (Strategy * Outcome) :=
  let mint := tv_mint token in
  let launch_time := tv_launch_block_time token in
  let creator := tv_creator_wallet token in
  let volume := total_volume_5min token in
  [ (dollar_scalping, Returned (test_dollar_scalping mint launch_time prices));
    (rank_based, Returned (test_rank_based mint launch_time prices volume));
    (momentum, Returned (test_momentum db mint launch_time prices));
    (copy_trading, Returned (test_copy_trading db mint launch_time prices));
    (late_opportunity, Returned (test_late_opportunity db mint launch_time prices));
    (mc_hunting_1m,
     Returned (test_1m_mc_hunting db mint launch_time creator prices)) ].

Section Runner.
(** [tests db token prices] stands for calling the six closures built for
    one token, in order; [strategies_to_test] is the instance without
    faults. *)
Variable tests : Db -> TokenVolume -> list WindowRow -> list (Strategy * Outcome).

(** One turn of the token loop. *)
Definition run_token (db : Db) (results : Results) (token : TokenVolume) : Results :=
  let prices := get_price_data db (tv_mint token) (tv_launch_block_time token) 1800 in
  match prices with
  | [] => results
  | _ :: _ => run_strategies results (tests db token prices)
  end.

(** [run_comprehensive_backtest], up to the call of the printer. *)
Definition run_comprehensive_backtest (db : Db) (cutoff_time : Z) : Results :=
  let tokens := get_tokens_last_n_days db cutoff_time in
  let qualified := filter (fun t => total_volume_5min t >=? 10.0) tokens in
  fold_left (run_token db) (firstn 1000 qualified) initial_results.
End Runner.

(** *** The printed report *)

Definition Qnat (n : nat) : Q := inject_Z (Z.of_nat n).

(** The figures printed for one strategy with at least one trade. *)
Record StrategyLine := {
  trades_count : nat;
  line_wins : nat;
  line_losses : nat;
  line_win_rate : Q;
  line_total_pnl : Q;
  avg_pnl : Q;
  avg_position : Q
}.

(** The figures under "COMBINED RESULTS". *)
Record Combined := {
  total_trades : nat;
  total_wins : nat;
  total_losses : nat;
  overall_win_rate : Q;
  combined_pnl : Q;
  per_day : Q;
  per_trade : Q;
  best_strategy : Strategy
}.

Record Report := {
  lines : list (Strategy * option StrategyLine);
  hits_line : option nat;
  combined : Combined
}.

Definition strategies : list Strategy :=
  [dollar_scalping; rank_based; momentum; copy_trading; late_opportunity; mc_hunting_1m].

Definition strategy_line (data : StrategyResults) : option StrategyLine :=
  let trades_count := List.length (res_trades data) in
  match trades_count with
  | O => None
  | S _ =>
    Some {| trades_count := trades_count;
            line_wins := wins data;
            line_losses := losses data;
            line_win_rate := Qnat (wins data) / Qnat trades_count * 100;
            line_total_pnl := total_pnl data;
            avg_pnl := total_pnl data / Qnat trades_count;
            avg_position :=
              Qsum (map position_size_sol (res_trades data)) / Qnat trades_count |}
  end.

(** [max(results.items(), key=...)]: the first key with the largest total. *)
Definition best_of (results : Results) : Strategy :=
  fold_left (fun best s => if total_pnl (results s) >? total_pnl (results best)
                           then s else best)
            strategies dollar_scalping.

(** [print_comprehensive_results]: the figures it prints, or [None] where a
    division by zero stops it ([days = 0], or no trade at all).  The
    averages of score and buyers and the tier tally, printed for three of
    the strategies, are left out. *)
Definition print_comprehensive_results (results : Results) (days : Z) : option Report :=
  let total_pnl :=
    fold_left (fun acc s => match res_trades (results s) with
                            | [] => acc
                            | _ :: _ => acc + total_pnl (results s)
                            end) strategies 0.0 in
  let total_trades :=
    fold_left (fun acc s => (acc + List.length (res_trades (results s)))%nat) strategies 0%nat in
  let total_wins := fold_left (fun acc s => (acc + wins (results s))%nat) strategies 0%nat in
  let total_losses := fold_left (fun acc s => (acc + losses (results s))%nat) strategies 0%nat in
  if (days =? 0)%Z || (total_trades =? 0)%nat then None
  else Some
    {| lines := map (fun s => (s, strategy_line (results s))) strategies;
       hits_line := match res_trades (results mc_hunting_1m) with
                    | [] => None
                    | _ :: _ => Some (hits_1m (results mc_hunting_1m))
                    end;
       combined :=
         {| total_trades := total_trades;
            total_wins := total_wins;
            total_losses := total_losses;
            overall_win_rate := Qnat total_wins / Qnat total_trades * 100;
            combined_pnl := total_pnl;
            per_day := total_pnl / inject_Z days;
            per_trade := total_pnl / Qnat total_trades;
            best_strategy := best_of results |} |}.

End ComprehensiveBacktest.

(** * [ScoringBacktest] (backtest_1m_scorer.py) *)

Module ScoringBacktest.

(** The label returned next to a score, one constructor per branch. *)
Inductive Detail :=
| no_creator_data | new_creator
| proven (pnl : Q) (count : Z) | good (pnl : Q) (count : Z)
| profitable (pnl : Q) | unprofitable (pnl : Q)
| no_buyers | ten_buyers (span : Z) | n_buyers (count : nat)
| no_liquidity_data | no_price_data | zero_mc
| ratio_pct (ratio : Q) | ratio_thin (ratio : Q)
| no_proven_wallets | n_winners (overlap : nat) | no_overlap
| buyers_flagged (n : nat) | no_volume
| healthy (concentration : Q) | moderate (concentration : Q)
| high_risk (concentration : Q)
| insufficient_time | no_baseline
| accel_explosive (acceleration : Q) | accel_strong (acceleration : Q)
| accel_low (acceleration : Q)
| no_current_price | no_baseline_price
| vel_explosive (velocity : Q) | vel_strong (velocity : Q)
| vel_moderate (velocity : Q) | vel_low (velocity : Q).

(** [SELECT ... FROM tokens WHERE mint = ?], first row. *)
Definition token_row (db : Db) (mint : string) : option TokenRow :=
  find (fun t => String.eqb (tok_mint t) mint) (tokens db).

(** Buy trades of [mint] with [block_time BETWEEN lo AND hi]. *)
Definition buys_between (db : Db) (mint : string) (lo hi : Z) : list TradeRow :=
  filter (fun t => String.eqb (trd_mint t) mint && is_buy t
                   && between lo (block_time t) hi)
         (trades db).

(** [SELECT close FROM windows WHERE mint = ? AND window_sec = 60 AND
    start_time <= ? ORDER BY start_time DESC LIMIT 1] *)
Definition latest_window (db : Db) (mint : string) (t : Z) : option WindowRow :=
  hd_error
    (sort_by (fun y x => (start_time y >=? start_time x)%Z)
       (filter (fun w => String.eqb (win_mint w) mint
                         && (window_sec w =? 60)%Z
                         && (start_time w <=? t)%Z)
               (windows db))).

(** [not row or not row["close"]] is true when this is [None]. *)
Definition latest_close (db : Db) (mint : string) (t : Z) : option Q :=
  match latest_window db mint t with
  | Some w => if Qeq_bool (close w) 0 then None else Some (close w)
  | None => None
  end.

Definition calculate_signal_1_creator_reputation (db : Db) (mint : string)
  : Q * Detail :=
  match token_row db mint with
  | None => (0.0, no_creator_data)
  | Some row =>
    let creator := creator_wallet row in
    match wallet_row db creator with
    | None => (0.0, new_creator)
    | Some row =>
      let pnl := or0 (net_pnl_sol row) in
      let count := or0Z (create_count row) in
      if (pnl >=? 500) && (count >=? 5)%Z then (2.0, proven pnl count)
      else if (pnl >=? 200) && (count >=? 3)%Z then (1.5, good pnl count)
      else if pnl >=? 50 then (1.0, profitable pnl)
      else (0.0, unprofitable pnl)
    end
  end.

(** [MAX(block_time) - MIN(block_time)], [NULL] over no rows. *)
Definition time_span (rows : list TradeRow) : option Z :=
  match map block_time rows with
  | [] => None
  | t :: ts => Some (fold_left Z.max ts t - fold_left Z.min ts t)%Z
  end.

Definition calculate_signal_2_buyer_speed (db : Db) (mint : string)
           (launch_time eval_time : Z) : Q * Detail :=
  let rows := buys_between db mint launch_time (launch_time + eval_time) in
  let buyer_count := List.length (distinct (map trader rows)) in
  match buyer_count with
  | O => (0.0, no_buyers)
  | S _ =>
    let count := buyer_count in
    let span := or0Z (time_span rows) in
    if (10 <=? count)%nat && (span <=? 30)%Z then (2.0, ten_buyers span)
    else if (10 <=? count)%nat && (span <=? 60)%Z then (1.5, ten_buyers span)
    else if (7 <=? count)%nat then (1.0, n_buyers count)
    else (0.0, n_buyers count)
  end.

Definition calculate_signal_3_liquidity_ratio (db : Db) (mint : string)
           (eval_time launch_time : Z) : Q * Detail :=
  match token_row db mint with
  | None => (0.0, no_liquidity_data)
  | Some row =>
    match initial_liquidity_sol row with
    | None => (0.0, no_liquidity_data)
    | Some liquidity =>
      if Qeq_bool liquidity 0 then (0.0, no_liquidity_data) else
      match latest_close db mint (launch_time + eval_time) with
      | None => (0.0, no_price_data)
      | Some price =>
        let estimated_mc := price * 1_000_000_000.0 in
        if Qeq_bool estimated_mc 0 then (0.0, zero_mc) else
        let ratio := liquidity / estimated_mc in
        if ratio <? 0.03 then (1.5, ratio_pct ratio)
        else if ratio <? 0.05 then (1.0, ratio_pct ratio)
        else (0.0, ratio_thin ratio)
      end
    end
  end.

(** [a >= b] on a nullable column, for [WHERE]: false on [NULL]. *)
Definition ge_where (a : option Q) (b : Q) : bool :=
  match a with Some v => v >=? b | None => false end.

Definition ge_whereZ (a : option Z) (b : Z) : bool :=
  match a with Some v => (v >=? b)%Z | None => false end.

(** [ORDER BY profit_score DESC]: [NULL] sorts below every value. *)
Definition score_before (y x : WalletStatsRow) : bool :=
  match profit_score y, profit_score x with
  | Some a, Some b => a >=? b
  | Some _, None => true
  | None, Some _ => false
  | None, None => true
  end.

(** The set [profitable_wallets]. *)
Definition profitable_wallets (db : Db) : list string :=
  map wallet
    (firstn 100
       (sort_by score_before
          (filter (fun r => ge_where (net_pnl_sol r) 100
                            && ge_where (win_rate r) 0.5
                            && ge_whereZ (total_trades r) 5)
                  (wallet_stats db)))).

Definition mem (x : string) (l : list string) : bool := existsb (String.eqb x) l.

Definition calculate_signal_4_wallet_overlap (db : Db) (mint : string)
           (launch_time eval_time : Z) : Q * Detail :=
  let profitable_wallets := profitable_wallets db in
  match profitable_wallets with
  | [] => (0.0, no_proven_wallets)
  | _ :: _ =>
    let buyers :=
      distinct (map trader (buys_between db mint launch_time (launch_time + eval_time))) in
    let overlap := List.length (filter (fun b => mem b profitable_wallets) buyers) in
    if (3 <=? overlap)%nat then (2.0, n_winners overlap)
    else if (overlap =? 2)%nat then (1.5, n_winners overlap)
    else if (overlap =? 1)%nat then (1.0, n_winners overlap)
    else (0.0, no_overlap)
  end.

(** [GROUP BY trader] with [SUM(amount_sol)], groups in order of first
    appearance. *)
Fixpoint add_to_group (k : string) (v : Q) (g : list (string * Q)) : list (string * Q) :=
  match g with
  | [] => [(k, v)]
  | (k', v') :: g' =>
    if String.eqb k' k then (k', v' + v) :: g' else (k', v') :: add_to_group k v g'
  end.

Definition group_by_trader (rows : list TradeRow) : list (string * Q) :=
  fold_left (fun g t => add_to_group (trader t) (amount_sol t) g) rows [].

(** The rows of the query of signal 5: per trader totals,
    [ORDER BY total_sol DESC]. *)
Definition buyer_totals (db : Db) (mint : string) (lo hi : Z) : list (string * Q) :=
  sort_by (fun y x => snd y >=? snd x) (group_by_trader (buys_between db mint lo hi)).

Definition calculate_signal_5_buy_concentration (db : Db) (mint : string)
           (launch_time eval_time : Z) : Q * Detail :=
  let trades := buyer_totals db mint launch_time (launch_time + eval_time) in
  if (List.length trades <=? 2)%nat then (0.0, buyers_flagged (List.length trades)) else
  let total_volume := Qsum (map snd trades) in
  if Qeq_bool total_volume 0 then (0.0, no_volume) else
  let top3_volume := Qsum (map snd (firstn 3 trades)) in
  let concentration := (top3_volume / total_volume) * 100 in
  if concentration <? 70 then (1.0, healthy concentration)
  else if concentration <? 80 then (0.5, moderate concentration)
  else (0.0, high_risk concentration).

(** [SUM(amount_sol)] of a range, with [or 0.0]. *)
Definition buy_volume (db : Db) (mint : string) (lo hi : Z) : Q :=
  Qsum (map amount_sol (buys_between db mint lo hi)).

Definition calculate_signal_6_volume_acceleration (db : Db) (mint : string)
           (launch_time eval_time : Z) : Q * Detail :=
  if (eval_time <? 60)%Z then (0.0, insufficient_time) else
  let recent_vol :=
    buy_volume db mint (launch_time + eval_time - 30) (launch_time + eval_time) in
  let baseline_vol :=
    buy_volume db mint (launch_time + eval_time - 60) (launch_time + eval_time - 30) in
  if baseline_vol <? 0.1 then (0.0, no_baseline) else
  let acceleration := recent_vol / baseline_vol in
  if acceleration >=? 2.0 then (1.5, accel_explosive acceleration)
  else if acceleration >=? 1.5 then (1.0, accel_strong acceleration)
  else (0.0, accel_low acceleration).

Definition calculate_signal_7_mc_velocity (db : Db) (mint : string)
           (launch_time eval_time : Z) : Q * Detail :=
  if (eval_time <? 30)%Z then (0.0, insufficient_time) else
  match latest_close db mint (launch_time + eval_time) with
  | None => (0.0, no_current_price)
  | Some current_price =>
    let current_mc := current_price * 1_000_000_000.0 in
    match latest_close db mint (launch_time + eval_time - 30) with
    | None => (0.0, no_baseline_price)
    | Some baseline_price =>
      let baseline_mc := baseline_price * 1_000_000_000.0 in
      let mc_change := current_mc - baseline_mc in
      let velocity := (mc_change / 30.0) * 60.0 in
      if velocity >=? 1000 then (3.0, vel_explosive velocity)
      else if velocity >=? 500 then (2.0, vel_strong velocity)
      else if velocity >=? 200 then (1.0, vel_moderate velocity)
      else (0.0, vel_low velocity)
    end
  end.

(** The dictionary returned by [score_token_at_time]. *)
Record TokenScore := {
  total_score : Q;
  signal_1 : Q * Detail;
  signal_2 : Q * Detail;
  signal_3 : Q * Detail;
  signal_4 : Q * Detail;
  signal_5 : Q * Detail;
  signal_6 : Q * Detail;
  signal_7 : Q * Detail
}.

Definition score_token_at_time (db : Db) (mint : string) (launch_time eval_time : Z)
  : TokenScore :=
  let s1 := calculate_signal_1_creator_reputation db mint in
  let s2 := calculate_signal_2_buyer_speed db mint launch_time eval_time in
  let s3 := calculate_signal_3_liquidity_ratio db mint eval_time launch_time in
  let s4 := calculate_signal_4_wallet_overlap db mint launch_time eval_time in
  let s5 := calculate_signal_5_buy_concentration db mint launch_time eval_time in
  let s6 := calculate_signal_6_volume_acceleration db mint launch_time eval_time in
  let s7 := calculate_signal_7_mc_velocity db mint launch_time eval_time in
  let total_score :=
    fst s1 + fst s2 + fst s3 + fst s4 + fst s5 + fst s6 + fst s7 in
  {| total_score := total_score;
     signal_1 := s1; signal_2 := s2; signal_3 := s3; signal_4 := s4;
     signal_5 := s5; signal_6 := s6; signal_7 := s7 |}.

End ScoringBacktest.

(** * Properties *)

Module CB := ComprehensiveBacktest.
Module SB := ScoringBacktest.

(** ** Comparisons *)

Lemma Qltb_lt (x y : Q) : (x <? y) = true <-> x < y.
Proof.
  unfold Qltb. rewrite negb_true_iff.
  split; intro H.
  - apply Qnot_le_lt. intro Hle. apply Qle_bool_iff in Hle. congruence.
  - destruct (Qle_bool y x) eqn:E; [|reflexivity].
    apply Qle_bool_iff in E. exfalso. exact (Qlt_not_le _ _ H E).
Qed.

Lemma Qltb_ge (x y : Q) : (x <? y) = false <-> y <= x.
Proof.
  unfold Qltb. rewrite negb_false_iff. apply Qle_bool_iff.
Qed.

Lemma Qleb_gt (x y : Q) : (x <=? y) = false <-> y < x.
Proof.
  rewrite <- Qltb_lt. unfold Qltb. now rewrite negb_true_iff.
Qed.

#[global] Instance Qltb_comp : Proper (Qeq ==> Qeq ==> eq) Qltb.
Proof.
  intros a b Hab c d Hcd. unfold Qltb. now rewrite Hab, Hcd.
Qed.

(** Turns the boolean tests of the hypotheses and of the goal into
    order facts and decides them. *)
Ltac qbool :=
  repeat match goal with
  | H : (_ <? _) = true |- _ => apply Qltb_lt in H
  | H : (_ <? _) = false |- _ => apply Qltb_ge in H
  | H : (_ <=? _) = true |- _ => apply Qle_bool_iff in H
  | H : (_ <=? _) = false |- _ => apply Qleb_gt in H
  | |- (_ <? _) = true => apply Qltb_lt
  | |- (_ <? _) = false => apply Qltb_ge
  | |- (_ <=? _) = true => apply Qle_bool_iff
  | |- (_ <=? _) = false => apply Qleb_gt
  end.

(** ** Exit priority *)

Section ExitPriority.
Variable rule : ExitRule.
Variable launch_time : Z.
Variable entry_price : Q.
Hypothesis entry_pos : 0 < entry_price.
(** The target multiplier is the target gain read as a factor. *)
Hypothesis mult_gain : target_mult rule == 1 + target_gain rule / 100.

Definition offset (p : WindowRow) : Z := (start_time p - launch_time)%Z.







End ExitPriority.

Section HuntPriority.
Variable launch_time : Z.
Variables entry_price profit_target stop_loss : Q.

(** The four exit conditions of the 1M-MC strategy at a window.  The
    market cap of a window is its high times the supply of 10^9 tokens,
    in units of 10^9. *)
Definition mc_hit (p : WindowRow) : Prop := 1_000_000 <= high p.


Lemma mc_sol_high (p : WindowRow) : high p * 1_000_000_000 / 1_000_000_000.0 == high p.
Proof. field. Qed.

(** The running peak after one more window. *)
Definition peak_after (peak : Q) (p : WindowRow) : Q :=
  if high p * 1_000_000_000 / 1_000_000_000.0 >? peak
  then high p * 1_000_000_000 / 1_000_000_000.0 else peak.


Lemma peak_after_hit (peak : Q) (p : WindowRow) :
  peak < 1_000_000 ->
  (peak_after peak p >=? 1_000_000) = true <-> mc_hit p.
Proof.
  unfold peak_after, mc_hit. intros Hp. rewrite Qle_bool_iff.
  destruct (_ >? peak) eqn:E.
  - now rewrite mc_sol_high.
  - apply Qltb_ge in E. rewrite mc_sol_high in E. split; intro H; lra.
Qed.




End HuntPriority.




(** A window that opens 80 s after launch with high 2.0 and low 0.5, against
    an entry at 1.0: both the +30% target and the -20% stop hold. *)
Definition both_hit_window : WindowRow :=
  {| win_mint := "m"; window_sec := 60; start_time := 80;
     close := 1.0; high := 2.0; low := 0.5; vol_sol := 25.0 |}.


(** ** What a position records *)

(** The position carries the entry price and the price and reason the exit
    loop left. *)
Definition records (pos : Position) (entry : Q) (x : Exit) : Prop :=
  0 < entry /\ entry_price pos = entry
  /\ exit_price pos = x_price x /\ exit_reason pos = x_reason x.

Lemma make_position_records (s : Strategy) (size entry : Q) (x : Exit) (e : Extra) :
  0 < entry -> records (CB.make_position s size entry x e) entry x.
Proof. intros H. repeat split. exact H. Qed.

(** Opens the guards of a strategy one by one; every branch that returns
    [None] is closed by [discriminate]. *)
Ltac open_guards :=
  repeat match goal with
  | H : (if ?b then _ else _) = Some _ |- _ =>
      let E := fresh "E" in destruct b eqn:E; try discriminate H
  | H : match ?o with Some _ => _ | None => _ end = Some _ |- _ =>
      let E := fresh "E" in destruct o eqn:E; try discriminate H
  | H : match ?l with [] => _ | _ :: _ => _ end = Some _ |- _ =>
      let E := fresh "E" in destruct l eqn:E; try discriminate H
  end.

Lemma scalping_records (mint : string) (launch_time : Z) (prices : list WindowRow)
      (pos : Position) :
  CB.test_dollar_scalping mint launch_time prices = Some pos ->
  exists e, CB.entry_window 30 60 launch_time prices = Some e
    /\ records pos (close e)
         (CB.exit_scan (CB.scalping_rule (offset launch_time e))
                       launch_time (close e) prices).
Proof.
  unfold CB.test_dollar_scalping. intros H. open_guards.
  injection H as <-. eexists. split; [reflexivity|].
  repeat split. now apply Qleb_gt.
Qed.

Lemma rank_records (mint : string) (launch_time : Z) (prices : list WindowRow)
      (volume_5min : Q) (pos : Position) :
  CB.test_rank_based mint launch_time prices volume_5min = Some pos ->
  exists e, CB.entry_window 60 120 launch_time prices = Some e
    /\ records pos (close e) (CB.exit_scan CB.rank_rule launch_time (close e) prices).
Proof.
  unfold CB.test_rank_based. intros H. open_guards.
  injection H as <-. eexists. split; [reflexivity|].
  apply make_position_records. now apply Qleb_gt.
Qed.

Lemma momentum_records (db : Db) (mint : string) (launch_time : Z)
      (prices : list WindowRow) (pos : Position) :
  CB.test_momentum db mint launch_time prices = Some pos ->
  exists e, CB.entry_window 120 130 launch_time prices = Some e
    /\ records pos (close e)
         (CB.exit_scan CB.momentum_rule launch_time (close e) prices).
Proof.
  unfold CB.test_momentum. cbv zeta. intros H. open_guards.
  injection H as <-. eexists. split; [reflexivity|].
  apply make_position_records. now apply Qleb_gt.
Qed.

Lemma copy_records (db : Db) (mint : string) (launch_time : Z)
      (prices : list WindowRow) (pos : Position) :
  CB.test_copy_trading db mint launch_time prices = Some pos ->
  exists (trade : TradeRow) (e : WindowRow),
    (Z.abs (offset launch_time e - (block_time trade - launch_time)) < 10)%Z
    /\ records pos (close e)
         (CB.exit_scan (CB.copy_rule (block_time trade - launch_time))
                       launch_time (close e) prices).
Proof.
  unfold CB.test_copy_trading. cbv zeta. intros H. open_guards.
  injection H as <-.
  match goal with
  | E : find _ prices = Some ?w |- _ =>
      apply find_some in E; destruct E as [_ E]; apply Z.ltb_lt in E
  end.
  eexists. eexists. split; [eassumption|].
  apply make_position_records. now apply Qleb_gt.
Qed.

Lemma late_records (db : Db) (mint : string) (launch_time : Z)
      (prices : list WindowRow) (pos : Position) :
  CB.test_late_opportunity db mint launch_time prices = Some pos ->
  exists e, CB.entry_window 1200 1260 launch_time prices = Some e
    /\ records pos (close e) (CB.exit_scan CB.late_rule launch_time (close e) prices).
Proof.
  unfold CB.test_late_opportunity. cbv zeta. intros H. open_guards.
  injection H as <-. eexists. split; [reflexivity|].
  apply make_position_records. now apply Qleb_gt.
Qed.

Lemma hunting_records (db : Db) (mint : string) (launch_time : Z)
      (creator_wallet : string) (prices : list WindowRow) (pos : Position) :
  CB.test_1m_mc_hunting db mint launch_time creator_wallet prices = Some pos ->
  exists (e : WindowRow) (size profit_target stop_loss : Q),
    CB.entry_window 120 130 launch_time prices = Some e
    /\ CB.sizing (CB.total (CB.calculate_7_signal_score db mint launch_time
                              creator_wallet))
       = (size, profit_target, stop_loss)
    /\ records pos (close e)
         (fst (CB.hunt_scan launch_time (close e) profit_target stop_loss
                            0.0 prices)).
Proof.
  unfold CB.test_1m_mc_hunting. cbv zeta. intros H. open_guards.
  destruct (CB.sizing _) as [[size profit_target] stop_loss] eqn:Es.
  destruct (CB.hunt_scan _ _ _ _ _ _) as [x peak] eqn:Eh.
  injection H as <-. exists w, size, profit_target, stop_loss.
  split; [reflexivity|]. split; [reflexivity|].
  rewrite Eh. apply make_position_records. now apply Qleb_gt.
Qed.

(** ** The default exit *)

(** The three reasons of a rule differ from the default ["time"]. *)
Definition named_reasons (rule : ExitRule) : Prop :=
  target_reason rule <> R_time /\ stop_reason rule <> R_time
  /\ time_reason rule <> R_time.

Lemma exit_scan_default (rule : ExitRule) (launch_time : Z) (entry : Q)
      (prices : list WindowRow) :
  named_reasons rule ->
  x_reason (CB.exit_scan rule launch_time entry prices) = R_time ->
  CB.exit_scan rule launch_time entry prices
  = {| x_price := entry; x_reason := R_time; x_offset := None |}.
Proof.
  intros (Ht & Hs & Hu). induction prices as [|p rest IH]; [reflexivity|].
  simpl.
  destruct (_ <=? skip_upto rule)%Z; [exact IH|].
  destruct (_ >=? target_gain rule); [simpl; congruence|].
  destruct (low p <? _); [simpl; congruence|].
  destruct (_ >=? time_limit rule)%Z; [simpl; congruence|exact IH].
Qed.

(** The exit loop never stops at a window it passes over. *)
Lemma exit_scan_offset (rule : ExitRule) (launch_time : Z) (entry : Q)
      (prices : list WindowRow) (off : Z) :
  x_offset (CB.exit_scan rule launch_time entry prices) = Some off ->
  (skip_upto rule < off)%Z.
Proof.
  induction prices as [|p rest IH]; [discriminate|].
  simpl.
  destruct (_ <=? skip_upto rule)%Z eqn:E; [exact IH|].
  apply Z.leb_gt in E.
  destruct (_ >=? target_gain rule); [simpl; intros [= <-]; exact E|].
  destruct (low p <? _); [simpl; intros [= <-]; exact E|].
  destruct (_ >=? time_limit rule)%Z; [simpl; intros [= <-]; exact E|exact IH].
Qed.

(** The P&L in USD that [test_dollar_scalping] computes for an exit. *)
Definition scalping_pnl_usd (entry : Q) (x : Exit) : Q :=
  1.0 / CB.SOL_PRICE_USD * ((x_price x - entry) / entry) * CB.SOL_PRICE_USD.

(** C9. Quick scalp: once an entry is found, a loop that ends on the default
    reason ["time"] with a P&L under one cent gives no position; under that
    reason the P&L is always zero, so this is every such run; with any
    other reason a position is returned, whatever its P&L. *)
Theorem scalping_discards_default_exit
  (mint : string) (launch_time : Z) (prices : list WindowRow) (e : WindowRow) :
  (2 <= List.length prices)%nat ->
  CB.entry_window 30 60 launch_time prices = Some e ->
  0 < close e ->
  let x := CB.exit_scan (CB.scalping_rule (offset launch_time e))
                        launch_time (close e) prices in
  (x_reason x = R_time -> Qabs (scalping_pnl_usd (close e) x) < 0.01 ->
     CB.test_dollar_scalping mint launch_time prices = None) /\
  (x_reason x = R_time -> scalping_pnl_usd (close e) x == 0) /\
  (x_reason x <> R_time ->
     exists pos, CB.test_dollar_scalping mint launch_time prices = Some pos
                 /\ exit_reason pos = x_reason x
                 /\ exit_price pos = x_price x
                 /\ pnl_usd pos = scalping_pnl_usd (close e) x).
Proof.
  intros Hlen Hentry Hpos x.
  assert (Hl : (List.length prices <? 2)%nat = false) by (apply Nat.ltb_ge; lia).
  assert (Hz : (close e <=? 0) = false) by (now apply Qleb_gt).
  unfold CB.test_dollar_scalping. rewrite Hl, Hentry, Hz.
  fold (offset launch_time e). fold x.
  change (1.0 / CB.SOL_PRICE_USD * ((x_price x - close e) / close e)
          * CB.SOL_PRICE_USD) with (scalping_pnl_usd (close e) x).
  repeat split.
  - intros Hr Hsmall. apply Qltb_lt in Hsmall. rewrite Hsmall, Hr. reflexivity.
  - intros Hr. unfold x in *.
    rewrite exit_scan_default; [| repeat split; discriminate | exact Hr].
    unfold scalping_pnl_usd. simpl.
    field. split; [|discriminate].
    intro H0. rewrite H0 in Hpos. discriminate.
  - intros Hr.
    assert (Hd : is_default_reason (x_reason x) = false)
      by (destruct (x_reason x); try reflexivity; congruence).
    rewrite Hd, andb_false_r. eexists. repeat split.
Qed.

(** Entry at 1.0 in the window opening at 30 s; the window opening at 60 s
    is flat at 1.0, so the 20 s limit closes the trade with no gain. *)
Definition flat_prices : list WindowRow :=
  [ {| win_mint := "m"; window_sec := 60; start_time := 30;
       close := 1.0; high := 1.0; low := 1.0; vol_sol := 12.0 |};
    {| win_mint := "m"; window_sec := 60; start_time := 60;
       close := 1.0; high := 1.0; low := 1.0; vol_sol := 12.0 |} ].

Lemma scalping_discards_default_exit_witness :
  exists pos, CB.test_dollar_scalping "m" 0 flat_prices = Some pos
              /\ exit_reason pos = R_time_20s
              /\ pnl_usd pos == 0.
Proof.
  destruct (scalping_discards_default_exit "m" 0 flat_prices
              {| win_mint := "m"; window_sec := 60; start_time := 30;
                 close := 1.0; high := 1.0; low := 1.0; vol_sol := 12.0 |})
    as (_ & _ & H).
  - simpl. lia.
  - reflexivity.
  - reflexivity.
  - destruct H as (pos & Hpos & Hr & _ & Hpnl); [discriminate|].
    exists pos. split; [exact Hpos|]. split; [exact Hr|].
    rewrite Hpnl. reflexivity.
Defined.

(** ** Exit instant against entry instant *)

(** In the quick scalp the loop passes over every window up to the entry
    window, so an exit it finds is strictly later than the entry. *)
Lemma scalping_exit_after_entry (launch_time : Z) (prices : list WindowRow)
      (e : WindowRow) (off : Z) :
  x_offset (CB.exit_scan (CB.scalping_rule (offset launch_time e))
                         launch_time (close e) prices) = Some off ->
  (offset launch_time e < off)%Z.
Proof.
  intros H. apply exit_scan_offset in H. exact H.
Qed.

(** Launch at 0; windows open at 20 s, 80 s and 140 s.  The window at 80 s
    peaks at 2.0 and closes at 1.0. *)
Definition rank_prices : list WindowRow :=
  [ {| win_mint := "m"; window_sec := 60; start_time := 20;
       close := 1.0; high := 1.0; low := 1.0; vol_sol := 5.0 |};
    both_hit_window;
    {| win_mint := "m"; window_sec := 60; start_time := 140;
       close := 1.0; high := 1.0; low := 1.0; vol_sol := 5.0 |} ].

(** Launch at 0; windows open at 5 s, 65 s, 125 s and 185 s.  The window at
    125 s peaks at 2.0 and closes at 1.0. *)
Definition momentum_entry : WindowRow :=
  {| win_mint := "m"; window_sec := 60; start_time := 125;
     close := 1.0; high := 2.0; low := 1.0; vol_sol := 5.0 |}.

Definition momentum_prices : list WindowRow :=
  [ {| win_mint := "m"; window_sec := 60; start_time := 5;
       close := 1.0; high := 1.0; low := 1.0; vol_sol := 5.0 |};
    {| win_mint := "m"; window_sec := 60; start_time := 65;
       close := 1.0; high := 1.0; low := 1.0; vol_sol := 5.0 |};
    momentum_entry;
    {| win_mint := "m"; window_sec := 60; start_time := 185;
       close := 1.0; high := 1.0; low := 1.0; vol_sol := 5.0 |} ].

Definition buy_at (who : string) (amount : Q) (t : Z) : TradeRow :=
  {| trd_mint := "m"; trader := who; amount_sol := amount;
     side := "buy"; block_time := t |}.

(** Five buys by three wallets between 60 s and 120 s, 5 SOL in all. *)
Definition momentum_db : Db :=
  {| tokens := [];
     trades := [ buy_at "a" 1.0 70; buy_at "b" 1.0 80; buy_at "c" 1.0 90;
                 buy_at "a" 1.0 100; buy_at "b" 1.0 110 ];
     windows := momentum_prices;
     wallet_stats := [] |}.

(** C3, at the failing inputs.  Rank based: the entry is the window at 80 s;
    the exit loop, which passes over offsets up to 60 only, stops at that
    same window on its own high, and a position with reason
    ["target_30pct"] is returned.  Momentum: the same with the window at
    125 s and ["target_50pct"]. *)
Theorem exit_fired_by_entry_window :
  (CB.entry_window 60 120 0 rank_prices = Some both_hit_window
   /\ x_offset (CB.exit_scan CB.rank_rule 0 (close both_hit_window) rank_prices)
      = Some (offset 0 both_hit_window)
   /\ option_map exit_reason (CB.test_rank_based "m" 0 rank_prices 25.0)
      = Some R_target_30pct)
  /\
  (CB.entry_window 120 130 0 momentum_prices = Some momentum_entry
   /\ x_offset (CB.exit_scan CB.momentum_rule 0 (close momentum_entry) momentum_prices)
      = Some (offset 0 momentum_entry)
   /\ option_map exit_reason (CB.test_momentum momentum_db "m" 0 momentum_prices)
      = Some R_target_50pct).
Proof.
  repeat split; vm_compute; reflexivity.
Qed.

(** ** Sums *)

Lemma fold_left_Qplus (l : list Q) (a : Q) :
  fold_left Qplus l a == a + Qsum l.
Proof.
  unfold Qsum. revert a. induction l as [|x l IH]; intros a; simpl.
  - lra.
  - rewrite (IH (a + x)), (IH (0 + x)). lra.
Qed.

Lemma Qsum_cons (x : Q) (l : list Q) : Qsum (x :: l) == x + Qsum l.
Proof.
  unfold Qsum at 1. simpl. rewrite fold_left_Qplus. lra.
Qed.

Lemma Qsum_app (l1 l2 : list Q) : Qsum (l1 ++ l2) == Qsum l1 + Qsum l2.
Proof.
  induction l1 as [|x l1 IH]; simpl.
  - unfold Qsum at 2. simpl. lra.
  - rewrite !Qsum_cons, IH. lra.
Qed.

Lemma Qsum_perm (l1 l2 : list Q) : Permutation l1 l2 -> Qsum l1 == Qsum l2.
Proof.
  induction 1 as [| x l1 l2 _ IH | x y l | l1 l2 l3 _ IH1 _ IH2].
  - reflexivity.
  - rewrite !Qsum_cons, IH. reflexivity.
  - rewrite !Qsum_cons. lra.
  - now rewrite IH1.
Qed.

(** ** Aggregation *)





Definition is_win (p : Position) : bool := pnl_sol p >? 0.

(** The positions a batch of calls hands to the aggregator for [s]. *)
Fixpoint positions_of (s : Strategy) (batch : list (Strategy * CB.Outcome))
  : list Position :=
  match batch with
  | [] => []
  | (s', CB.Returned (Some p)) :: rest =>
    if CB.strategy_eqb s' s then p :: positions_of s rest else positions_of s rest
  | _ :: rest => positions_of s rest
  end.

Definition record_all (s : Strategy) (l : list Position) (r : CB.StrategyResults)
  : CB.StrategyResults :=
  fold_left (fun acc p => CB.record_result s p acc) l r.

Lemma strategy_eqb_eq (a b : Strategy) : CB.strategy_eqb a b = true <-> a = b.
Proof.
  destruct a, b; simpl; split; intro H; try reflexivity; discriminate.
Qed.

Lemma run_strategies_at (s : Strategy) (batch : list (Strategy * CB.Outcome))
      (results : CB.Results) :
  CB.run_strategies results batch s = record_all s (positions_of s batch) (results s).
Proof.
  unfold CB.run_strategies. revert results.
  induction batch as [|[s' o] rest IH]; intros results; [reflexivity|].
  simpl. rewrite IH. unfold CB.try_strategy. simpl.
  destruct o as [|[p|]]; try reflexivity.
  unfold CB.update.
  destruct (CB.strategy_eqb s' s) eqn:E; [|reflexivity].
  apply strategy_eqb_eq in E. subst s'. reflexivity.
Qed.




Lemma filter_perm {A : Type} (f : A -> bool) (l1 l2 : list A) :
  Permutation l1 l2 -> Permutation (filter f l1) (filter f l2).
Proof.
  induction 1 as [| x l1 l2 _ IH | x y l | l1 l2 l3 _ IH1 _ IH2]; simpl.
  - constructor.
  - destruct (f x); [now constructor | assumption].
  - destruct (f x), (f y); try reflexivity. apply perm_swap.
  - now transitivity (filter f l2).
Qed.









Definition sample_position (s : Strategy) (pnl : Q) : Position :=
  {| strategy := s; position_size_sol := 5.0 / CB.SOL_PRICE_USD;
     entry_price := 1.0; exit_price := 1.0 + pnl; exit_reason := R_time_30s;
     pnl_sol := 5.0 / CB.SOL_PRICE_USD * pnl;
     pnl_usd := 5.0 / CB.SOL_PRICE_USD * pnl * CB.SOL_PRICE_USD;
     gain_pct := pnl * 100; extra := NoExtra |}.



(** ** Faults *)

Definition is_raised (st : Strategy * CB.Outcome) : bool :=
  match snd st with CB.Raised => true | CB.Returned _ => false end.

(** The number of calls of a batch that raised. *)
Definition count_faults (batch : list (Strategy * CB.Outcome)) : nat :=
  List.length (filter is_raised batch).

Lemma run_strategies_app (results : CB.Results) (a b : list (Strategy * CB.Outcome)) :
  CB.run_strategies results (a ++ b)
  = CB.run_strategies (CB.run_strategies results a) b.
Proof.
  unfold CB.run_strategies. apply fold_left_app.
Qed.

(** The same calls with every fault replaced by a return of [None]. *)
Definition without_faults (batch : list (Strategy * CB.Outcome))
  : list (Strategy * CB.Outcome) :=
  map (fun st => match snd st with
                 | CB.Raised => (fst st, CB.Returned None)
                 | CB.Returned _ => st
                 end) batch.

Lemma run_strategies_without_faults (results : CB.Results)
      (batch : list (Strategy * CB.Outcome)) :
  CB.run_strategies results (without_faults batch) = CB.run_strategies results batch.
Proof.
  unfold CB.run_strategies. revert results.
  induction batch as [|[s o] batch IH]; intros results; [reflexivity|].
  simpl. rewrite <- IH. destruct o; reflexivity.
Qed.

Lemma run_token_without_faults
      (tests : Db -> CB.TokenVolume -> list WindowRow -> list (Strategy * CB.Outcome))
      (db : Db) (results : CB.Results) (token : CB.TokenVolume) :
  CB.run_token (fun db token prices => without_faults (tests db token prices))
               db results token
  = CB.run_token tests db results token.
Proof.
  unfold CB.run_token. cbv zeta.
  destruct (CB.get_price_data _ _ _ _); [reflexivity|].
  apply run_strategies_without_faults.
Qed.

(** C8, as the code has it.  A call that raises is caught where it is made
    and leaves the results as they were: the calls after it are still
    processed, and the results, and so the report printed from them, are
    those of the batch without that call, and those of the batch in which
    the call returned [None].  Over a whole run, with whatever calls raise
    for whatever token, every token is still processed and the results are
    those of the run in which those calls returned [None]. *)
Theorem fault_is_skipped_silently
  (results : CB.Results) (pre post : list (Strategy * CB.Outcome))
  (s : Strategy) (days : Z)
  (tests : Db -> CB.TokenVolume -> list WindowRow -> list (Strategy * CB.Outcome))
  (db : Db) (cutoff_time : Z) :
  let faulty := CB.run_strategies results (pre ++ (s, CB.Raised) :: post) in
  faulty = CB.run_strategies (CB.run_strategies results pre) post
  /\ faulty = CB.run_strategies results (pre ++ post)
  /\ faulty = CB.run_strategies results (pre ++ (s, CB.Returned None) :: post)
  /\ CB.print_comprehensive_results faulty days
     = CB.print_comprehensive_results (CB.run_strategies results (pre ++ post)) days
  /\ CB.run_comprehensive_backtest tests db cutoff_time
     = CB.run_comprehensive_backtest
         (fun db token prices => without_faults (tests db token prices))
         db cutoff_time.
Proof.
  intros faulty. subst faulty.
  assert (E : CB.run_strategies results (pre ++ (s, CB.Raised) :: post)
              = CB.run_strategies results (pre ++ post))
    by (now rewrite !run_strategies_app).
  repeat split.
  - now rewrite run_strategies_app.
  - exact E.
  - now rewrite !run_strategies_app.
  - now rewrite E.
  - unfold CB.run_comprehensive_backtest. cbv zeta.
    generalize CB.initial_results.
    induction (firstn 1000 _) as [|token rest IH]; intros r; [reflexivity|].
    simpl. rewrite run_token_without_faults. apply IH.
Qed.

(** One rank-based position, and the same followed by a call that raised. *)
Definition clean_batch : list (Strategy * CB.Outcome) :=
  [ (rank_based, CB.Returned (Some (sample_position rank_based 0.3))) ].

Definition faulty_batch : list (Strategy * CB.Outcome) :=
  clean_batch ++ [ (momentum, CB.Raised) ].

(** C8, as stated, fails: the report carries no fault count.  No reading of
    the printed report gives the number of calls that raised, since
    [faulty_batch], with one fault, and [clean_batch], with none, print the
    same report. *)
Lemma fault_count_not_in_report :
  ~ exists read : option CB.Report -> nat,
      forall (batch : list (Strategy * CB.Outcome)) (days : Z),
        read (CB.print_comprehensive_results
                (CB.run_strategies CB.initial_results batch) days)
        = count_faults batch.
Proof.
  intros [read H].
  pose proof (H faulty_batch 30%Z) as H1.
  pose proof (H clean_batch 30%Z) as H0.
  change (CB.run_strategies CB.initial_results faulty_batch)
    with (CB.run_strategies CB.initial_results clean_batch) in H1.
  rewrite H0 in H1. discriminate H1.
Qed.

(** The report of [clean_batch] is printed: one trade, one win. *)
Lemma clean_batch_report :
  option_map (fun r => (CB.total_trades (CB.combined r), CB.total_wins (CB.combined r)))
    (CB.print_comprehensive_results
       (CB.run_strategies CB.initial_results clean_batch) 30)
  = Some (1%nat, 1%nat).
Proof. vm_compute. reflexivity. Qed.

(** ** Bounds of the signals *)

(** Splits on every test of a ladder of [if]s and leaves the arithmetic on
    the constants to [lra]. *)
Ltac ladder :=
  repeat match goal with
  | |- context [if ?b then _ else _] => destruct b
  | |- context [match ?x with _ => _ end] => destruct x
  end;
  simpl; split; lra.

Lemma score_signal_1_bounds (db : Db) (creator : string) :
  0 <= CB.score_signal_1 db creator <= 2.0.
Proof. unfold CB.score_signal_1. ladder. Qed.

Lemma score_signal_2_bounds (trades_60 : list TradeRow) :
  0 <= CB.score_signal_2 trades_60 <= 2.0.
Proof. unfold CB.score_signal_2. cbv zeta. ladder. Qed.

Lemma score_signal_4_bounds (db : Db) (trades_60 : list TradeRow) :
  0 <= CB.score_signal_4 db trades_60 <= 2.0.
Proof. unfold CB.score_signal_4. cbv zeta. ladder. Qed.

Lemma score_signal_5_bounds (trades_120 : list TradeRow) :
  0 <= CB.score_signal_5 trades_120 <= 1.0.
Proof.
  unfold CB.score_signal_5. cbv zeta.
  destruct (filter is_buy trades_120); [split; lra|]. ladder.
Qed.

Lemma score_signal_6_bounds (recent baseline : list TradeRow) :
  0 <= CB.score_signal_6 recent baseline <= 1.5.
Proof. unfold CB.score_signal_6. cbv zeta. ladder. Qed.

Lemma velocity_steps_bounds (velocity : Q) : 0 <= CB.velocity_steps velocity <= 3.0.
Proof. unfold CB.velocity_steps. ladder. Qed.

Lemma score_signal_7_bounds (prices : list WindowRow) :
  0 <= CB.score_signal_7 prices <= 3.0.
Proof.
  unfold CB.score_signal_7.
  destruct prices as [|p0 [|p1 [|p2 rest]]]; try (split; lra).
  cbv zeta. destruct (close p0 >? 0); [apply velocity_steps_bounds | split; lra].
Qed.

Lemma signal_1_bounds (db : Db) (mint : string) :
  0 <= fst (SB.calculate_signal_1_creator_reputation db mint) <= 2.0.
Proof. unfold SB.calculate_signal_1_creator_reputation. cbv zeta. ladder. Qed.

Lemma signal_2_bounds (db : Db) (mint : string) (launch_time eval_time : Z) :
  0 <= fst (SB.calculate_signal_2_buyer_speed db mint launch_time eval_time) <= 2.0.
Proof.
  unfold SB.calculate_signal_2_buyer_speed. cbv zeta.
  destruct (List.length _); [simpl; split; lra|]. ladder.
Qed.

Lemma signal_3_bounds (db : Db) (mint : string) (eval_time launch_time : Z) :
  0 <= fst (SB.calculate_signal_3_liquidity_ratio db mint eval_time launch_time) <= 1.5.
Proof. unfold SB.calculate_signal_3_liquidity_ratio. cbv zeta. ladder. Qed.

Lemma signal_4_bounds (db : Db) (mint : string) (launch_time eval_time : Z) :
  0 <= fst (SB.calculate_signal_4_wallet_overlap db mint launch_time eval_time) <= 2.0.
Proof.
  unfold SB.calculate_signal_4_wallet_overlap. cbv zeta.
  destruct (SB.profitable_wallets db); [simpl; split; lra|]. ladder.
Qed.

Lemma signal_5_bounds (db : Db) (mint : string) (launch_time eval_time : Z) :
  0 <= fst (SB.calculate_signal_5_buy_concentration db mint launch_time eval_time) <= 1.0.
Proof. unfold SB.calculate_signal_5_buy_concentration. cbv zeta. ladder. Qed.

Lemma signal_6_bounds (db : Db) (mint : string) (launch_time eval_time : Z) :
  0 <= fst (SB.calculate_signal_6_volume_acceleration db mint launch_time eval_time)
    <= 1.5.
Proof. unfold SB.calculate_signal_6_volume_acceleration. cbv zeta. ladder. Qed.

Lemma signal_7_bounds (db : Db) (mint : string) (launch_time eval_time : Z) :
  0 <= fst (SB.calculate_signal_7_mc_velocity db mint launch_time eval_time) <= 3.0.
Proof. unfold SB.calculate_signal_7_mc_velocity. cbv zeta. ladder. Qed.

(** C2. Both scorers: every signal lies between 0 and its maximum, the
    total is the sum of the seven signals, and it is at most the sum of the
    maxima, 13. *)
Theorem signal_bounds_and_total
  (db : Db) (mint creator_wallet : string) (launch_time eval_time : Z) :
  (let s := CB.calculate_7_signal_score db mint launch_time creator_wallet in
   0 <= CB.signal_1 s <= 2.0 /\ 0 <= CB.signal_2 s <= 2.0
   /\ 0 <= CB.signal_3 s <= 1.5 /\ 0 <= CB.signal_4 s <= 2.0
   /\ 0 <= CB.signal_5 s <= 1.0 /\ 0 <= CB.signal_6 s <= 1.5
   /\ 0 <= CB.signal_7 s <= 3.0
   /\ CB.total s == CB.signal_1 s + CB.signal_2 s + CB.signal_3 s + CB.signal_4 s
                    + CB.signal_5 s + CB.signal_6 s + CB.signal_7 s
   /\ CB.total s <= 2.0 + 2.0 + 1.5 + 2.0 + 1.0 + 1.5 + 3.0)
  /\
  (let t := SB.score_token_at_time db mint launch_time eval_time in
   0 <= fst (SB.signal_1 t) <= 2.0 /\ 0 <= fst (SB.signal_2 t) <= 2.0
   /\ 0 <= fst (SB.signal_3 t) <= 1.5 /\ 0 <= fst (SB.signal_4 t) <= 2.0
   /\ 0 <= fst (SB.signal_5 t) <= 1.0 /\ 0 <= fst (SB.signal_6 t) <= 1.5
   /\ 0 <= fst (SB.signal_7 t) <= 3.0
   /\ SB.total_score t == fst (SB.signal_1 t) + fst (SB.signal_2 t)
                          + fst (SB.signal_3 t) + fst (SB.signal_4 t)
                          + fst (SB.signal_5 t) + fst (SB.signal_6 t)
                          + fst (SB.signal_7 t)
   /\ SB.total_score t <= 2.0 + 2.0 + 1.5 + 2.0 + 1.0 + 1.5 + 3.0).
Proof.
  split.
  - unfold CB.calculate_7_signal_score. cbv zeta. simpl.
    pose proof (score_signal_1_bounds db creator_wallet) as H1.
    pose proof (score_signal_2_bounds (CB.get_trades db mint launch_time 0 60)) as H2.
    pose proof (score_signal_4_bounds db (CB.get_trades db mint launch_time 0 60)) as H4.
    pose proof (score_signal_5_bounds (CB.get_trades db mint launch_time 0 120)) as H5.
    pose proof (score_signal_6_bounds (CB.get_trades db mint launch_time 90 120)
                                      (CB.get_trades db mint launch_time 60 90)) as H6.
    pose proof (score_signal_7_bounds (CB.get_price_data db mint launch_time 300)) as H7.
    unfold Qsum. simpl.
    repeat split; lra.
  - unfold SB.score_token_at_time. cbv zeta. simpl.
    pose proof (signal_1_bounds db mint) as H1.
    pose proof (signal_2_bounds db mint launch_time eval_time) as H2.
    pose proof (signal_3_bounds db mint eval_time launch_time) as H3.
    pose proof (signal_4_bounds db mint launch_time eval_time) as H4.
    pose proof (signal_5_bounds db mint launch_time eval_time) as H5.
    pose proof (signal_6_bounds db mint launch_time eval_time) as H6.
    pose proof (signal_7_bounds db mint launch_time eval_time) as H7.
    repeat split; lra.
Qed.

(** ** Signal 7: market-cap velocity *)





Definition window_at (t : Z) (c : Q) : WindowRow :=
  {| win_mint := "m"; window_sec := 60; start_time := t;
     close := c; high := c; low := c; vol_sol := 15.0 |}.







(** ** Sorting keeps the rows *)

Lemma insert_by_perm {A : Type} (before : A -> A -> bool) (x : A) (l : list A) :
  Permutation (insert_by before x l) (x :: l).
Proof.
  induction l as [|y l IH]; simpl; [reflexivity|].
  destruct (before y x); [|reflexivity].
  rewrite IH. apply perm_swap.
Qed.

Lemma sort_by_perm {A : Type} (before : A -> A -> bool) (l : list A) :
  Permutation (sort_by before l) l.
Proof.
  unfold sort_by.
  assert (H : forall acc, Permutation
                (fold_left (fun acc x => insert_by before x acc) l acc) (acc ++ l)).
  { induction l as [|x l IH]; intros acc; simpl.
    - now rewrite app_nil_r.
    - rewrite IH, insert_by_perm. apply Permutation_middle. }
  exact (H []).
Qed.

Lemma distinct_length_perm (l1 l2 : list string) :
  Permutation l1 l2 -> List.length (distinct l1) = List.length (distinct l2).
Proof.
  intros H. apply Permutation_length. unfold distinct.
  apply NoDup_Permutation; try apply NoDup_nodup.
  intros x. rewrite !nodup_In. split; apply Permutation_in; [|symmetry]; exact H.
Qed.

Lemma filter_filter {A : Type} (f g : A -> bool) (l : list A) :
  filter f (filter g l) = filter (fun x => g x && f x) l.
Proof.
  induction l as [|x l IH]; simpl; [reflexivity|].
  destruct (g x); simpl; [destruct (f x)|]; now rewrite IH.
Qed.

(** ** Signal 2: early buyers *)

(** The buy trades of [mint] with [lo <= block_time <= hi]. *)
Definition buys_within (db : Db) (mint : string) (lo hi : Z) : list TradeRow :=
  filter (fun t => String.eqb (trd_mint t) mint && is_buy t
                   && between lo (block_time t) hi)
         (trades db).

(** The number of distinct buyers of [mint] in [lo, hi]. *)
Definition distinct_buyers (db : Db) (mint : string) (lo hi : Z) : nat :=
  List.length (distinct (map trader (buys_within db mint lo hi))).



(** Ten wallets buy once each, five seconds apart, from launch on: ten
    distinct buyers in the first 60 seconds, 45 seconds from first to
    last. *)
Definition ten_buyers_db : Db :=
  {| tokens := [];
     trades := [ buy_at "w0" 1.0 0; buy_at "w1" 1.0 5; buy_at "w2" 1.0 10;
                 buy_at "w3" 1.0 15; buy_at "w4" 1.0 20; buy_at "w5" 1.0 25;
                 buy_at "w6" 1.0 30; buy_at "w7" 1.0 35; buy_at "w8" 1.0 40;
                 buy_at "w9" 1.0 45 ];
     windows := [];
     wallet_stats := [] |}.


Lemma get_trades_buys (db : Db) (mint : string) (launch_time a b : Z) :
  Permutation (filter is_buy (CB.get_trades db mint launch_time a b))
              (buys_within db mint (launch_time + a) (launch_time + b)).
Proof.
  unfold CB.get_trades, buys_within.
  rewrite (filter_perm is_buy _ _ (sort_by_perm _ _)), filter_filter.
  erewrite filter_ext; [reflexivity|].
  intros t. cbv beta.
  destruct (String.eqb (trd_mint t) mint), (is_buy t), (between _ _ _); reflexivity.
Qed.



(** ** Signal 4: reputable buyers *)

(** A wallet of one of the top three tiers S, A, B of the five. *)
Definition reputable (db : Db) (w : string) : bool :=
  tier_in (CB.get_wallet_tier db w) [TierS; TierA; TierB].

(** The number of distinct reputable buyers of [mint] in [lo, hi]. *)
Definition reputable_buyers (db : Db) (mint : string) (lo hi : Z) : nat :=
  List.length (filter (reputable db) (distinct (map trader (buys_within db mint lo hi)))).

(** The steps of signal 4 in the words of the specification. *)
Definition signal_4_steps (buyers : nat) : Q :=
  if (3 <=? buyers)%nat then 2.0
  else if (buyers =? 2)%nat then 1.5
  else if (buyers =? 1)%nat then 1.0
  else 0.0.

(** What the loop of [calculate_7_signal_score] counts: the buy trades, not
    the buyers, of reputable wallets. *)
Lemma proven_winners_buying_counts_trades (db : Db) (trades_60 : list TradeRow) :
  CB.proven_winners_buying db trades_60
  = List.length (filter (fun t => is_buy t && reputable db (trader t)) trades_60).
Proof.
  unfold CB.proven_winners_buying.
  assert (H : forall n,
             fold_left
               (fun n trade =>
                  if negb (is_buy trade) then n
                  else if tier_in (CB.get_wallet_tier db (trader trade))
                                  [TierS; TierA; TierB]
                       then (n + 1)%nat else n) trades_60 n
             = (n + List.length (filter (fun t => is_buy t && reputable db (trader t))
                                        trades_60))%nat).
  { induction trades_60 as [|t l IH]; intros n; [simpl; lia|].
    cbn [fold_left filter]. rewrite IH.
    change (tier_in (CB.get_wallet_tier db (trader t)) [TierS; TierA; TierB])
      with (reputable db (trader t)).
    destruct (is_buy t), (reputable db (trader t));
      cbn [negb andb List.length]; lia. }
  exact (H 0%nat).
Qed.

(** One wallet of tier S, and on the list of profitable wallets of the
    other scorer, buys three times in the first minute. *)
Definition repeat_buyer_db : Db :=
  {| tokens := [];
     trades := [ buy_at "whale" 1.0 10; buy_at "whale" 1.0 20; buy_at "whale" 1.0 30 ];
     windows := [];
     wallet_stats :=
       [ {| wallet := "whale"; net_pnl_sol := Some 250.0; create_count := Some 0%Z;
            profit_score := Some 90.0; win_rate := Some 0.8;
            total_trades := Some 60%Z |} ] |}.

(** C5, at the failing input: one reputable buyer, for which the steps give
    1.0; [calculate_7_signal_score] counts the three trades and gives 2.0;
    [score_token_at_time], which counts distinct buyers, gives 1.0. *)
Theorem repeated_buys_counted_per_trade :
  reputable_buyers repeat_buyer_db "m" 0 60 = 1%nat
  /\ signal_4_steps (reputable_buyers repeat_buyer_db "m" 0 60) = 1.0
  /\ CB.signal_4 (CB.calculate_7_signal_score repeat_buyer_db "m" 0 "creator") = 2.0
  /\ fst (SB.calculate_signal_4_wallet_overlap repeat_buyer_db "m" 0 60) = 1.0.
Proof.
  repeat split; vm_compute; reflexivity.
Qed.

(** ** Grouping trades by trader *)

Lemma add_to_group_keys_in (k w : string) (v : Q) (g : list (string * Q)) :
  In w (map fst (SB.add_to_group k v g)) <-> w = k \/ In w (map fst g).
Proof.
  induction g as [|[k' v'] g IH]; simpl.
  - intuition.
  - destruct (String.eqb k' k) eqn:E; simpl.
    + apply String.eqb_eq in E. subst k'. intuition.
    + rewrite IH. intuition.
Qed.

Lemma add_to_group_keys_nodup (k : string) (v : Q) (g : list (string * Q)) :
  NoDup (map fst g) -> NoDup (map fst (SB.add_to_group k v g)).
Proof.
  induction g as [|[k' v'] g IH]; simpl; intros H.
  - repeat constructor. intros [].
  - inversion H as [|? ? Hnot Hnd]; subst.
    destruct (String.eqb k' k) eqn:E; simpl.
    + now constructor.
    + constructor; [|now apply IH].
      rewrite add_to_group_keys_in. intros [-> | Hin]; [|contradiction].
      rewrite String.eqb_refl in E. discriminate.
Qed.


Lemma group_by_trader_snoc (rows : list TradeRow) (t : TradeRow) :
  SB.group_by_trader (rows ++ [t])
  = SB.add_to_group (trader t) (amount_sol t) (SB.group_by_trader rows).
Proof.
  unfold SB.group_by_trader. now rewrite fold_left_app.
Qed.

Lemma group_by_trader_keys (rows : list TradeRow) :
  NoDup (map fst (SB.group_by_trader rows))
  /\ forall w, In w (map fst (SB.group_by_trader rows)) <-> In w (map trader rows).
Proof.
  induction rows as [|t rows [IHn IHi]] using rev_ind.
  - split; [constructor | intros w; reflexivity].
  - rewrite group_by_trader_snoc. split.
    + now apply add_to_group_keys_nodup.
    + intros w. rewrite add_to_group_keys_in, IHi, map_app, in_app_iff. simpl.
      intuition.
Qed.



(** The volume bought by one wallet. *)
Definition volume_of (w : string) (rows : list TradeRow) : Q :=
  Qsum (map amount_sol (filter (fun t => String.eqb (trader t) w) rows)).

Lemma volume_of_snoc (w : string) (rows : list TradeRow) (t : TradeRow) :
  volume_of w (rows ++ [t])
  == volume_of w rows + (if String.eqb (trader t) w then amount_sol t else 0).
Proof.
  unfold volume_of. rewrite filter_app, map_app, Qsum_app. simpl.
  destruct (String.eqb (trader t) w); simpl.
  - rewrite Qsum_cons. change (Qsum []) with 0. lra.
  - change (Qsum []) with 0. lra.
Qed.

Lemma volume_of_absent (w : string) (rows : list TradeRow) :
  ~ In w (map trader rows) -> volume_of w rows == 0.
Proof.
  unfold volume_of. induction rows as [|t rows IH]; simpl; intros H.
  - reflexivity.
  - destruct (String.eqb (trader t) w) eqn:E.
    + apply String.eqb_eq in E. exfalso. apply H. now left.
    + apply IH. intros Hin. apply H. now right.
Qed.

Lemma add_to_group_in (k w : string) (a v : Q) (g : list (string * Q)) :
  NoDup (map fst g) ->
  In (w, v) (SB.add_to_group k a g) ->
  (w = k /\ exists v0, In (k, v0) g /\ v = v0 + a)
  \/ (w = k /\ ~ In k (map fst g) /\ v = a)
  \/ (w <> k /\ In (w, v) g).
Proof.
  induction g as [|[k' v'] g IH]; simpl; intros Hnd Hin.
  - destruct Hin as [[= <- <-] | []]. right. left. intuition.
  - inversion Hnd as [|? ? Hnot Hnd']; subst.
    destruct (String.eqb k' k) eqn:E.
    + apply String.eqb_eq in E. subst k'.
      destruct Hin as [[= <- <-] | Hin].
      * left. split; [reflexivity|]. exists v'. split; [now left | reflexivity].
      * right. right. split; [|now right].
        intros ->. apply Hnot. now apply (in_map fst) in Hin.
    + apply String.eqb_neq in E.
      destruct Hin as [[= <- <-] | Hin].
      * right. right. split; [exact E | now left].
      * destruct (IH Hnd' Hin) as [(-> & v0 & Hv0 & ->) | [(-> & Hn & ->) | (Hne & Hg)]].
        -- left. split; [reflexivity|]. exists v0. split; [now right | reflexivity].
        -- right. left. repeat split. intros [Hk | Hk]; [now apply E | now apply Hn].
        -- right. right. split; [exact Hne | now right].
Qed.

(** Every group carries the volume of its wallet. *)
Lemma group_by_trader_volume (rows : list TradeRow) (w : string) (v : Q) :
  In (w, v) (SB.group_by_trader rows) -> v == volume_of w rows.
Proof.
  revert w v. induction rows as [|t rows IH] using rev_ind; intros w v Hin.
  - destruct Hin.
  - rewrite group_by_trader_snoc in Hin. rewrite volume_of_snoc.
    destruct (group_by_trader_keys rows) as [Hn Hi].
    apply (add_to_group_in _ _ _ _ _ Hn) in Hin.
    destruct Hin as [(-> & v0 & Hv0 & ->) | [(-> & Hnot & ->) | (Hne & Hg)]].
    + rewrite String.eqb_refl, (IH _ _ Hv0). reflexivity.
    + rewrite String.eqb_refl, volume_of_absent; [lra|].
      now rewrite <- Hi.
    + rewrite (IH _ _ Hg).
      destruct (String.eqb (trader t) w) eqn:E; [|lra].
      apply String.eqb_eq in E. now subst w.
Qed.

(** ** Both scorers group and sort alike *)









(** [sorted_desc] puts the largest first. *)
Lemma insert_desc_sorted (x : Q) (l : list Q) :
  Sorted (fun a b => b <= a) l ->
  Sorted (fun a b => b <= a) (insert_by (fun y x => y >=? x) x l).
Proof.
  induction l as [|y l IH]; simpl; intros H.
  - repeat constructor.
  - inversion H as [|? ? Hs Hh]; subst.
    destruct (x <=? y) eqn:E.
    + apply Qle_bool_iff in E. constructor; [now apply IH|].
      destruct l as [|z l]; simpl.
      * now repeat constructor.
      * destruct (x <=? z); constructor; [|assumption].
        now inversion Hh.
    + apply Qleb_gt in E. constructor; [assumption|].
      constructor. now apply Qlt_le_weak.
Qed.

Lemma sorted_desc_sorted (l : list Q) : Sorted (fun a b => b <= a) (CB.sorted_desc l).
Proof.
  unfold CB.sorted_desc, sort_by.
  assert (H : forall acc, Sorted (fun a b => b <= a) acc ->
            Sorted (fun a b => b <= a)
              (fold_left (fun acc x => insert_by (fun y x => y >=? x) x acc) l acc)).
  { induction l as [|x l IH]; intros acc Hacc; simpl; [assumption|].
    apply IH. now apply insert_desc_sorted. }
  apply H. constructor.
Qed.

(** ** The top three do not depend on the order of the rows *)











(** ** Signal 5: buy concentration *)

(** The total buy volume of a list of buy trades. *)
Definition total_volume (rows : list TradeRow) : Q := Qsum (map amount_sol rows).

(** The totals per buyer; by [group_by_trader_length] there is one per
    distinct buyer, by [group_by_trader_volume] each is the volume of its
    buyer. *)
Definition buyer_volumes (rows : list TradeRow) : list Q :=
  map snd (SB.group_by_trader rows).

(** The volume of the three largest buyers: by [top3_volume_dominates]
    no three buyers hold more, by [top3_volume_perm] it does not depend on
    the order of the rows. *)
Definition top3_volume (rows : list TradeRow) : Q :=
  Qsum (firstn 3 (CB.sorted_desc (buyer_volumes rows))).











(** *** No three buyers hold more than the top three *)

Lemma in_perm_cons {A : Type} (x : A) (l : list A) :
  In x l -> exists l', Permutation l (x :: l').
Proof.
  intros H. apply in_split in H. destruct H as (l1 & l2 & ->).
  exists (l1 ++ l2). symmetry. apply Permutation_middle.
Qed.

(** In a descending list the first [k] elements weigh at least as much as
    any [k] of its elements. *)
Lemma top_sum_dominates (k : nat) :
  forall s l rest : list Q,
    StronglySorted (fun a b => b <= a) s ->
    Permutation s (l ++ rest) -> List.length l = k ->
    Qsum l <= Qsum (firstn k s).
Proof.
  induction k as [|k IH]; intros s l rest Hs Hp Hl.
  - destruct l; [|discriminate]. apply Qle_refl.
  - destruct l as [|a l]; [discriminate|]. injection Hl as Hl.
    destruct s as [|x s].
    { apply Permutation_nil in Hp. discriminate. }
    inversion Hs as [|? ? Hs' Hx]; subst.
    simpl firstn. rewrite (Qsum_cons x).
    assert (Hin : In x ((a :: l) ++ rest)) by (apply (Permutation_in _ Hp); now left).
    apply in_app_or in Hin. destruct Hin as [Hin | Hin].
    + destruct (in_perm_cons _ _ Hin) as (l1 & Hl1).
      rewrite (Qsum_perm _ _ Hl1), Qsum_cons.
      assert (Hp' : Permutation s (l1 ++ rest)).
      { apply (Permutation_cons_inv (a := x)).
        rewrite Hp. now rewrite Hl1. }
      assert (Hlen : List.length l1 = List.length l).
      { apply Permutation_length in Hl1. simpl in Hl1. lia. }
      pose proof (IH s l1 rest Hs' Hp' Hlen) as Hle. lra.
    + destruct (in_perm_cons _ _ Hin) as (rest' & Hr).
      assert (Hp' : Permutation s (l ++ a :: rest')).
      { apply (Permutation_cons_inv (a := x)).
        rewrite Hp, Hr. simpl.
        rewrite <- Permutation_middle.
        rewrite (perm_swap x a). apply perm_skip.
        now rewrite <- Permutation_middle. }
      assert (Ha : a <= x).
      { rewrite Forall_forall in Hx. apply Hx.
        apply (Permutation_in _ (Permutation_sym Hp')).
        apply in_or_app. right. now left. }
      pose proof (IH s l (a :: rest') Hs' Hp' eq_refl) as Hle.
      rewrite Qsum_cons. lra.
Qed.

Lemma group_of_buyer (rows : list TradeRow) (w : string) :
  In w (map trader rows) ->
  exists v, In (w, v) (SB.group_by_trader rows) /\ v == volume_of w rows.
Proof.
  intros Hin. destruct (group_by_trader_keys rows) as [_ Hk].
  apply Hk in Hin. apply in_map_iff in Hin. destruct Hin as ([w' v] & Hw & Hin).
  simpl in Hw. subst w'. exists v. split; [exact Hin|].
  now apply group_by_trader_volume.
Qed.

(** Whatever three distinct buyers are taken, together they bought no more
    than [top3_volume]. *)
Lemma top3_volume_dominates (rows : list TradeRow) (w1 w2 w3 : string) :
  w1 <> w2 -> w1 <> w3 -> w2 <> w3 ->
  In w1 (map trader rows) -> In w2 (map trader rows) -> In w3 (map trader rows) ->
  volume_of w1 rows + volume_of w2 rows + volume_of w3 rows <= top3_volume rows.
Proof.
  intros H12 H13 H23 Hi1 Hi2 Hi3.
  destruct (group_of_buyer rows w1 Hi1) as (v1 & Hg1 & <-).
  destruct (group_of_buyer rows w2 Hi2) as (v2 & Hg2 & <-).
  destruct (group_of_buyer rows w3 Hi3) as (v3 & Hg3 & <-).
  destruct (in_perm_cons _ _ Hg1) as (g1 & Hp1).
  assert (Hg2' : In (w2, v2) g1).
  { apply (Permutation_in _ Hp1) in Hg2. destruct Hg2 as [[= E _] | Hg2];
      [now elim H12 | exact Hg2]. }
  destruct (in_perm_cons _ _ Hg2') as (g2 & Hp2).
  assert (Hg3' : In (w3, v3) g2).
  { apply (Permutation_in _ Hp1) in Hg3. destruct Hg3 as [[= E _] | Hg3];
      [now elim H13|].
    apply (Permutation_in _ Hp2) in Hg3. destruct Hg3 as [[= E _] | Hg3];
      [now elim H23 | exact Hg3]. }
  destruct (in_perm_cons _ _ Hg3') as (g3 & Hp3).
  assert (Hp : Permutation (CB.sorted_desc (buyer_volumes rows))
                           ([v1; v2; v3] ++ map snd g3)).
  { unfold CB.sorted_desc, buyer_volumes. rewrite sort_by_perm.
    rewrite (Permutation_map snd Hp1). simpl. apply perm_skip.
    rewrite (Permutation_map snd Hp2). simpl. apply perm_skip.
    rewrite (Permutation_map snd Hp3). reflexivity. }
  assert (Htr : Relations_1.Transitive (fun a b : Q => b <= a))
    by (intros a b c Hab Hbc; now apply Qle_trans with b).
  pose proof (top_sum_dominates 3 _ _ _
                (Sorted_StronglySorted Htr (sorted_desc_sorted _)) Hp eq_refl) as Hle.
  unfold top3_volume. rewrite !Qsum_cons in Hle. change (Qsum []) with 0 in Hle.
  lra.
Qed.






(** * Further properties of the two scripts *)

(** ** The queries *)

Section SortedBy.
Context {A : Type}.
Variable before : A -> A -> bool.
(** Of two rows, one goes before the other. *)
Hypothesis before_total : forall x y, before x y = false -> before y x = true.

Lemma insert_by_sorted (x : A) (l : list A) :
  Sorted (fun a b => before a b = true) l ->
  Sorted (fun a b => before a b = true) (insert_by before x l).
Proof using before_total.
  induction l as [|y l IH]; simpl; intros H.
  - repeat constructor.
  - inversion H as [|? ? Hs Hh]; subst.
    destruct (before y x) eqn:E.
    + constructor; [now apply IH|].
      destruct l as [|z l]; simpl.
      * now repeat constructor.
      * destruct (before z x); constructor; [|assumption].
        now inversion Hh.
    + constructor; [assumption|]. constructor. now apply before_total.
Qed.

Lemma sort_by_sorted (l : list A) :
  Sorted (fun a b => before a b = true) (sort_by before l).
Proof using before_total.
  unfold sort_by.
  assert (H : forall acc, Sorted (fun a b => before a b = true) acc ->
            Sorted (fun a b => before a b = true)
                   (fold_left (fun acc x => insert_by before x acc) l acc)).
  { induction l as [|x l IH]; intros acc Hacc; simpl; [assumption|].
    apply IH. now apply insert_by_sorted. }
  apply H. constructor.
Qed.
End SortedBy.

Lemma sort_by_in {A : Type} (before : A -> A -> bool) (l : list A) (x : A) :
  In x (sort_by before l) <-> In x l.
Proof.
  split; apply Permutation_in; [|symmetry]; apply sort_by_perm.
Qed.

Lemma Sorted_leb_le {A : Type} (key : A -> Z) (l : list A) :
  Sorted (fun a b => (key a <=? key b)%Z = true) l ->
  StronglySorted (fun a b => (key a <= key b)%Z) l.
Proof.
  intros H. apply Sorted_StronglySorted.
  - intros a b c Hab Hbc. lia.
  - induction H as [|a l Hs IH Hh]; constructor; [assumption|].
    destruct Hh; constructor. now apply Z.leb_le.
Qed.

Lemma Sorted_geb_ge {A : Type} (key : A -> Z) (l : list A) :
  Sorted (fun a b => (key a >=? key b)%Z = true) l ->
  StronglySorted (fun a b => (key b <= key a)%Z) l.
Proof.
  intros H. apply Sorted_StronglySorted.
  - intros a b c Hab Hbc. lia.
  - induction H as [|a l Hs IH Hh]; constructor; [assumption|].
    destruct Hh; constructor. now apply Z.geb_le.
Qed.

Lemma between_spec (lo x hi : Z) : between lo x hi = true <-> (lo <= x <= hi)%Z.
Proof.
  unfold between. rewrite andb_true_iff, !Z.leb_le. reflexivity.
Qed.

(** X1. [get_trades] returns exactly the trades of the token whose time lies
    in the range, each as often as the table has it, in ascending order of
    time. *)
Theorem get_trades_exact_and_ordered
  (db : Db) (mint : string) (launch_time start_offset end_offset : Z) :
  let rows := CB.get_trades db mint launch_time start_offset end_offset in
  StronglySorted (fun a b => (block_time a <= block_time b)%Z) rows
  /\ Permutation rows
       (filter (fun t => String.eqb (trd_mint t) mint
                         && between (launch_time + start_offset) (block_time t)
                                    (launch_time + end_offset))
               (trades db))
  /\ (forall t, In t rows <->
        In t (trades db) /\ trd_mint t = mint
        /\ (launch_time + start_offset <= block_time t <= launch_time + end_offset)%Z).
Proof.
  intros rows. subst rows. unfold CB.get_trades. repeat split.
  - apply Sorted_leb_le. apply sort_by_sorted.
    intros x y H. apply Z.leb_gt in H. apply Z.leb_le. lia.
  - apply sort_by_perm.
  - rewrite sort_by_in in H. apply filter_In in H. tauto.
  - rewrite sort_by_in in H. apply filter_In in H. destruct H as [_ H].
    apply andb_true_iff in H. destruct H as [H _]. now apply String.eqb_eq in H.
  - rewrite sort_by_in in H. apply filter_In in H. destruct H as [_ H].
    apply andb_true_iff in H. destruct H as [_ H]. apply between_spec in H. lia.
  - rewrite sort_by_in in H. apply filter_In in H. destruct H as [_ H].
    apply andb_true_iff in H. destruct H as [_ H]. apply between_spec in H. lia.
  - intros (Hin & Hm & Hr). rewrite sort_by_in. apply filter_In.
    split; [exact Hin|]. apply andb_true_iff. split.
    + now apply String.eqb_eq.
    + now apply between_spec.
Qed.

(** X2. [get_price_data] returns exactly the 60-second windows of the token
    that start in the first [max_seconds] after launch, in ascending order
    of start time; so every offset from launch a strategy computes on them
    lies between 0 and [max_seconds]. *)
Theorem get_price_data_exact_and_ordered
  (db : Db) (mint : string) (launch_time max_seconds : Z) :
  let prices := CB.get_price_data db mint launch_time max_seconds in
  StronglySorted (fun a b => (start_time a <= start_time b)%Z) prices
  /\ (forall w, In w prices <->
        In w (windows db) /\ win_mint w = mint /\ window_sec w = 60%Z
        /\ (0 <= start_time w - launch_time <= max_seconds)%Z)
  /\ List.length prices
     = List.length (filter (fun w => String.eqb (win_mint w) mint
                                     && (window_sec w =? 60)%Z
                                     && between launch_time (start_time w)
                                                (launch_time + max_seconds))
                           (windows db)).
Proof.
  intros prices. subst prices. unfold CB.get_price_data. split; [|split].
  - apply Sorted_leb_le. apply sort_by_sorted.
    intros x y H. apply Z.leb_gt in H. apply Z.leb_le. lia.
  - intros w. rewrite sort_by_in, filter_In, !andb_true_iff, between_spec,
      String.eqb_eq, Z.eqb_eq.
    split; intros H; repeat split; try tauto; lia.
  - apply Permutation_length, sort_by_perm.
Qed.

(** The rows the "latest window" query of [ScoringBacktest] ranges over. *)
Definition window_upto (mint : string) (t : Z) (w : WindowRow) : Prop :=
  win_mint w = mint /\ window_sec w = 60%Z /\ (start_time w <= t)%Z.

(** X3. The "latest window" query of signals 3 and 7 returns a 60-second
    window of the token that starts at or before the instant asked and no
    earlier than any other such window; it returns nothing exactly when
    there is no such window.  The price taken from it is never zero. *)
Theorem latest_window_is_latest (db : Db) (mint : string) (t : Z) :
  (SB.latest_window db mint t = None <->
     forall w, In w (windows db) -> ~ window_upto mint t w)
  /\ (forall w, SB.latest_window db mint t = Some w ->
        In w (windows db) /\ window_upto mint t w
        /\ forall w', In w' (windows db) -> window_upto mint t w' ->
                      (start_time w' <= start_time w)%Z)
  /\ (forall c, SB.latest_close db mint t = Some c -> ~ c == 0).
Proof.
  unfold SB.latest_close, SB.latest_window.
  set (f := fun w => String.eqb (win_mint w) mint && (window_sec w =? 60)%Z
                     && (start_time w <=? t)%Z).
  assert (Hf : forall w, f w = true <-> window_upto mint t w).
  { intros w. unfold f, window_upto.
    rewrite !andb_true_iff, String.eqb_eq, Z.eqb_eq, Z.leb_le. tauto. }
  set (sorted := sort_by (fun y x => (start_time y >=? start_time x)%Z)
                         (filter f (windows db))).
  assert (Hin : forall w, In w sorted <-> In w (windows db) /\ window_upto mint t w).
  { intros w. unfold sorted. rewrite sort_by_in, filter_In, Hf. reflexivity. }
  assert (Hs : StronglySorted (fun a b => (start_time b <= start_time a)%Z) sorted).
  { apply Sorted_geb_ge. apply sort_by_sorted.
    intros x y H. rewrite Z.geb_leb in *. apply Z.leb_gt in H. apply Z.leb_le. lia. }
  split; [split|split].
  - intros H w Hw Hu. destruct sorted as [|w0 rest] eqn:E; [|discriminate].
    apply (Hin w). now split.
  - intros H. destruct sorted as [|w0 rest] eqn:E; [reflexivity|].
    exfalso. destruct (proj1 (Hin w0) (or_introl eq_refl)) as [Hw Hu].
    exact (H w0 Hw Hu).
  - intros w H. destruct sorted as [|w0 rest] eqn:E; [discriminate|].
    injection H as <-.
    destruct (proj1 (Hin w0) (or_introl eq_refl)) as [Hw Hu].
    split; [exact Hw|]. split; [exact Hu|].
    intros w' Hw' Hu'.
    destruct (proj2 (Hin w') (conj Hw' Hu')) as [<- | Hr]; [lia|].
    inversion Hs as [|? ? _ Hall]; subst.
    rewrite Forall_forall in Hall. now apply Hall.
  - intros c. fold f. fold sorted.
    destruct (hd_error sorted) as [w|]; [|discriminate].
    destruct (Qeq_bool (close w) 0) eqn:E; [discriminate|].
    intros [= <-]. now apply Qeq_bool_neq.
Qed.

(** X4. [get_tokens_last_n_days] returns one row per token launched at or
    after the cutoff and after time 0, newest launch first; the volume it
    reports for a token is the volume of the windows [get_price_data] gives
    for the first 300 seconds. *)
Theorem get_tokens_last_n_days_rows (db : Db) (cutoff_time : Z) :
  let rows := CB.get_tokens_last_n_days db cutoff_time in
  StronglySorted
    (fun a b => (CB.tv_launch_block_time b <= CB.tv_launch_block_time a)%Z) rows
  /\ List.length rows
     = List.length (filter (fun t => (launch_block_time t >=? cutoff_time)%Z
                                     && (launch_block_time t >? 0)%Z) (tokens db))
  /\ (forall r, In r rows ->
        (exists t, In t (tokens db) /\ CB.tv_mint r = tok_mint t
                   /\ CB.tv_launch_block_time r = launch_block_time t
                   /\ CB.tv_creator_wallet r = creator_wallet t)
        /\ (cutoff_time <= CB.tv_launch_block_time r)%Z
        /\ (0 < CB.tv_launch_block_time r)%Z
        /\ CB.total_volume_5min r
           == Qsum (map vol_sol
                      (CB.get_price_data db (CB.tv_mint r)
                                         (CB.tv_launch_block_time r) 300))).
Proof.
  intros rows. subst rows. unfold CB.get_tokens_last_n_days. split; [|split].
  - apply Sorted_geb_ge. apply sort_by_sorted.
    intros x y H. rewrite Z.geb_leb in *. apply Z.leb_gt in H. apply Z.leb_le. lia.
  - rewrite (Permutation_length (sort_by_perm _ _)). apply length_map.
  - intros r Hr. rewrite sort_by_in in Hr. apply in_map_iff in Hr.
    destruct Hr as (t & <- & Ht). apply filter_In in Ht. destruct Ht as [Ht Hc].
    apply andb_true_iff in Hc. destruct Hc as [Hc H0].
    rewrite Z.geb_le in Hc. rewrite Z.gtb_lt in H0. simpl.
    split; [exists t; repeat split; assumption|].
    split; [exact Hc|]. split; [exact H0|].
    unfold CB.get_price_data.
    rewrite (Qsum_perm _ _ (Permutation_map vol_sol (sort_by_perm _ _))).
    erewrite filter_ext; [reflexivity|].
    intros w. cbv beta. now rewrite String.eqb_sym.
Qed.

(** ** Wallet tiers *)

(** X5. [get_wallet_tier] in terms of the wallet's statistics: "Unknown"
    exactly for a wallet without a row; "D" exactly when the profit score is
    under 50 or there are fewer than 5 trades, whatever the win rate; the
    tiers S, A and B all need a profit score of 65, a win rate of 0.5 and
    10 trades; S needs 85, 0.7 and 50. *)
Theorem wallet_tier_thresholds (db : Db) (w : string) :
  (CB.get_wallet_tier db w = TierUnknown <-> wallet_row db w = None)
  /\ forall row, wallet_row db w = Some row ->
       let score := or0 (profit_score row) in
       let rate := or0 (win_rate row) in
       let count := or0Z (total_trades row) in
       let tier := CB.get_wallet_tier db w in
       (tier = TierD <-> score < 50 \/ (count < 5)%Z)
       /\ (tier_in tier [TierS; TierA; TierB; TierC] = true <->
             50 <= score /\ (5 <= count)%Z)
       /\ (tier_in tier [TierS; TierA; TierB] = true ->
             65 <= score /\ 0.5 <= rate /\ (10 <= count)%Z)
       /\ (tier = TierS <-> 85 <= score /\ 0.7 <= rate /\ (50 <= count)%Z).
Proof.
  unfold CB.get_wallet_tier. split.
  - destruct (wallet_row db w) as [row|]; [|tauto].
    split; [|discriminate].
    repeat match goal with
    | |- context [if ?b then _ else _] => destruct b
    end; discriminate.
  - intros row ->. cbv zeta.
    set (score := or0 (profit_score row)).
    set (rate := or0 (win_rate row)).
    set (count := or0Z (total_trades row)).
    destruct (score >=? 85) eqn:S85; destruct (rate >=? 0.70) eqn:R70;
    destruct (count >=? 50)%Z eqn:C50;
    destruct (score >=? 75) eqn:S75; destruct (rate >=? 0.60) eqn:R60;
    destruct (count >=? 20)%Z eqn:C20;
    destruct (score >=? 65) eqn:S65; destruct (rate >=? 0.50) eqn:R50;
    destruct (count >=? 10)%Z eqn:C10;
    destruct (score >=? 50) eqn:S50; destruct (count >=? 5)%Z eqn:C5;
    cbn [andb negb tier_in existsb tier_eqb orb];
    qbool;
    repeat match goal with
    | H : (_ >=? _)%Z = true |- _ => rewrite Z.geb_le in H
    | H : (_ >=? _)%Z = false |- _ => rewrite Z.geb_leb in H; apply Z.leb_gt in H
    end;
    repeat split; intros; try discriminate; try reflexivity; try lia; try lra;
    repeat match goal with
    | H : _ /\ _ |- _ => destruct H
    | H : _ \/ _ |- _ => destruct H
    end; try lia; try lra;
    try (left; lra); try (right; lia).
Qed.

(** ** The positions the strategies return *)

(** Every way the exit loop of a percentage strategy can end. *)
Lemma exit_scan_cases (rule : ExitRule) (launch_time : Z) (entry : Q)
      (prices : list WindowRow) :
  let x := CB.exit_scan rule launch_time entry prices in
  (x = {| x_price := entry; x_reason := R_time; x_offset := None |})
  \/ (x_reason x = target_reason rule /\ x_price x = entry * target_mult rule)
  \/ (x_reason x = stop_reason rule /\ x_price x = entry * stop_mult rule)
  \/ (x_reason x = time_reason rule
      /\ exists p, In p prices /\ x_price x = close p
                   /\ (time_limit rule <= offset launch_time p)%Z).
Proof.
  induction prices as [|p rest IH]; simpl; [now left|].
  fold (offset launch_time p).
  destruct (offset launch_time p <=? skip_upto rule)%Z.
  { destruct IH as [H | [H | [H | (H & q & Hq & Hc)]]]; auto.
    right; right; right. split; [exact H|]. exists q. split; [now right | exact Hc]. }
  destruct (_ >=? target_gain rule); [right; left; now split|].
  destruct (low p <? _); [right; right; left; now split|].
  destruct (offset launch_time p >=? time_limit rule)%Z eqn:Et.
  { right; right; right. split; [reflexivity|]. exists p.
    rewrite Z.geb_le in Et. simpl. auto. }
  destruct IH as [H | [H | [H | (H & q & Hq & Hc)]]]; auto.
  right; right; right. split; [exact H|]. exists q. split; [now right | exact Hc].
Qed.

(** The rule a percentage strategy runs its exit loop with; [t] is the
    entry offset, which only scalping and copy trading use. *)
Definition rule_of (s : Strategy) (t : Z) : ExitRule :=
  match s with
  | dollar_scalping => CB.scalping_rule t
  | rank_based => CB.rank_rule
  | momentum => CB.momentum_rule
  | copy_trading => CB.copy_rule t
  | late_opportunity => CB.late_rule
  | mc_hunting_1m => CB.rank_rule
  end.

(** The position size of a percentage strategy, in USD. *)
Definition usd_size (s : Strategy) : Q :=
  match s with
  | dollar_scalping => 1.0
  | rank_based => 5.0
  | momentum => 3.0
  | copy_trading => 2.0
  | late_opportunity => 1.0
  | mc_hunting_1m => 186.0
  end.

(** [pos] is returned by the test function of the percentage strategy [s]
    on some input with the price windows [prices]. *)
Definition returned_by (s : Strategy) (launch_time : Z) (prices : list WindowRow)
           (pos : Position) : Prop :=
  match s with
  | dollar_scalping =>
      exists mint, CB.test_dollar_scalping mint launch_time prices = Some pos
  | rank_based =>
      exists mint volume_5min,
        CB.test_rank_based mint launch_time prices volume_5min = Some pos
  | momentum =>
      exists db mint, CB.test_momentum db mint launch_time prices = Some pos
  | copy_trading =>
      exists db mint, CB.test_copy_trading db mint launch_time prices = Some pos
  | late_opportunity =>
      exists db mint, CB.test_late_opportunity db mint launch_time prices = Some pos
  | mc_hunting_1m => False
  end.

(** A returned position is the result dictionary built from a positive
    entry price and the exit the loop of the strategy left. *)
Lemma returned_position_shape (s : Strategy) (launch_time : Z)
      (prices : list WindowRow) (pos : Position) :
  returned_by s launch_time prices pos ->
  exists (entry : Q) (t : Z) (e : Extra),
    0 < entry
    /\ (exists w, In w prices /\ close w = entry)
    /\ pos = CB.make_position s (usd_size s / CB.SOL_PRICE_USD) entry
               (CB.exit_scan (rule_of s t) launch_time entry prices) e.
Proof.
  destruct s; simpl.
  - intros (mint & H). unfold CB.test_dollar_scalping in H. open_guards.
    injection H as <-.
    match goal with E : (_ <=? _) = false |- _ => apply Qleb_gt in E; rename E into Hp end.
    exists (close w), (start_time w - launch_time)%Z, NoExtra.
    split; [exact Hp|]. split.
    { exists w. split; [|reflexivity].
      match goal with E : CB.entry_window _ _ _ _ = Some _ |- _ =>
        apply find_some in E; tauto end. }
    unfold CB.make_position. cbv zeta.
    apply Qltb_lt in Hp. now rewrite Hp.
  - intros (mint & v & H). unfold CB.test_rank_based in H. open_guards.
    injection H as <-.
    match goal with E : (_ <=? _) = false |- _ => apply Qleb_gt in E; rename E into Hp end.
    exists (close w), 0%Z, NoExtra. split; [exact Hp|]. split; [|reflexivity].
    exists w. split; [|reflexivity].
    match goal with E : CB.entry_window _ _ _ _ = Some _ |- _ =>
      apply find_some in E; tauto end.
  - intros (db & mint & H). unfold CB.test_momentum in H. cbv zeta in H. open_guards.
    injection H as <-.
    match goal with E : (_ <=? _) = false |- _ => apply Qleb_gt in E; rename E into Hp end.
    eexists (close w), 0%Z, _. split; [exact Hp|]. split; [|reflexivity].
    exists w. split; [|reflexivity].
    match goal with E : CB.entry_window _ _ _ _ = Some _ |- _ =>
      apply find_some in E; tauto end.
  - intros (db & mint & H). unfold CB.test_copy_trading in H. cbv zeta in H.
    open_guards. injection H as <-.
    match goal with E : (_ <=? _) = false |- _ => apply Qleb_gt in E; rename E into Hp end.
    eexists (close w), _, _. split; [exact Hp|]. split; [|reflexivity].
    exists w. split; [|reflexivity].
    match goal with E : find _ prices = Some _ |- _ =>
      apply find_some in E; tauto end.
  - intros (db & mint & H). unfold CB.test_late_opportunity in H. cbv zeta in H.
    open_guards. injection H as <-.
    match goal with E : (_ <=? _) = false |- _ => apply Qleb_gt in E; rename E into Hp end.
    exists (close w), 0%Z, NoExtra. split; [exact Hp|]. split; [|reflexivity].
    exists w. split; [|reflexivity].
    match goal with E : CB.entry_window _ _ _ _ = Some _ |- _ =>
      apply find_some in E; tauto end.
  - intros [].
Qed.

Lemma rule_of_fields (s : Strategy) (t : Z) :
  target_reason (rule_of s t) = target_reason (rule_of s 0)
  /\ stop_reason (rule_of s t) = stop_reason (rule_of s 0)
  /\ time_reason (rule_of s t) = time_reason (rule_of s 0)
  /\ target_mult (rule_of s t) = target_mult (rule_of s 0)
  /\ stop_mult (rule_of s t) = stop_mult (rule_of s 0)
  /\ target_gain (rule_of s t) = target_gain (rule_of s 0).
Proof. destruct s; repeat split. Qed.

Lemma rule_of_reasons_differ (s : Strategy) :
  let rule := rule_of s 0 in
  named_reasons rule
  /\ target_reason rule <> stop_reason rule
  /\ target_reason rule <> time_reason rule
  /\ stop_reason rule <> time_reason rule.
Proof. destruct s; repeat split; discriminate. Qed.


Lemma scalping_never_default (mint : string) (launch_time : Z)
      (prices : list WindowRow) (pos : Position) :
  CB.test_dollar_scalping mint launch_time prices = Some pos ->
  exit_reason pos <> R_time.
Proof.
  unfold CB.test_dollar_scalping. intros H. open_guards.
  injection H as <-. simpl. intros Hx.
  match goal with E : (_ && _) = false |- _ => rename E into Hand end.
  match goal with E : (_ <=? _) = false |- _ => apply Qleb_gt in E; rename E into Hpw end.
  assert (Hn : named_reasons (CB.scalping_rule (start_time w - launch_time)))
    by (repeat split; discriminate).
  rewrite (exit_scan_default _ _ _ _ Hn Hx) in Hand.
  cbn [x_price x_reason is_default_reason] in Hand.
  rewrite andb_true_r in Hand. apply Qltb_ge in Hand.
  assert (Ez : 1.0 / CB.SOL_PRICE_USD * ((close w - close w) / close w)
               * CB.SOL_PRICE_USD == 0).
  { unfold CB.SOL_PRICE_USD. field. intro H0. rewrite H0 in Hpw. discriminate. }
  rewrite Ez in Hand. revert Hand. unfold Qle. simpl. lia.
Qed.

(** X6. Every position one of the five percentage strategies returns
    carries the name and the fixed USD size of its strategy and one of the
    strategy's exit reasons.  The default reason ["time"] means that the
    loop found no exit: the exit price is then the entry price.  A time
    limit exit is at the close of one of the windows.  Quick scalp never
    returns the default reason. *)
Theorem returned_position_reasons
  (s : Strategy) (launch_time : Z) (prices : list WindowRow) (pos : Position) :
  returned_by s launch_time prices pos ->
  let rule := rule_of s 0 in
  strategy pos = s
  /\ position_size_sol pos = usd_size s / CB.SOL_PRICE_USD
  /\ 0 < entry_price pos
  /\ In (exit_reason pos)
        [R_time; target_reason rule; stop_reason rule; time_reason rule]
  /\ (exit_reason pos = R_time -> exit_price pos = entry_price pos)
  /\ (exit_reason pos = time_reason rule ->
        exists p, In p prices /\ exit_price pos = close p)
  /\ (s = dollar_scalping -> exit_reason pos <> R_time).
Proof.
  intros Hret rule.
  destruct (returned_position_shape s launch_time prices pos Hret)
    as (entry & t & e & Hp & _ & Epos).
  destruct (rule_of_fields s t) as (Et & Es & Eu & _).
  destruct (rule_of_reasons_differ s) as ((Nt & Ns & Nu) & Dts & Dtu & Dsu).
  fold rule in Nt, Ns, Nu, Dts, Dtu, Dsu.
  pose proof (exit_scan_cases (rule_of s t) launch_time entry prices) as Hc.
  cbv zeta in Hc. rewrite Et, Es, Eu in Hc. fold rule in Hc.
  rewrite Epos at 1 2 3 4 5 6 7 8.
  simpl strategy. simpl position_size_sol. simpl entry_price.
  simpl exit_reason. simpl exit_price.
  split; [reflexivity|]. split; [reflexivity|]. split; [exact Hp|].
  split; [|split; [|split]].
  - destruct Hc as [-> | [[-> _] | [[-> _] | [-> _]]]]; simpl; auto.
  - intros Hr. destruct Hc as [-> | [[H _] | [[H _] | [H _]]]];
      [reflexivity | congruence | congruence | congruence].
  - intros Hr. destruct Hc as [H | [[H _] | [[H _] | [_ (p & Hin & Hpc & _)]]]].
    + rewrite H in Hr. simpl in Hr. congruence.
    + congruence.
    + congruence.
    + exists p. split; [exact Hin|]. rewrite Epos. simpl. exact Hpc.
  - intros -> Hr. destruct Hret as (mint & H).
    exact (scalping_never_default _ _ _ _ H Hr).
Qed.

Lemma returned_position_reasons_witness :
  exists pos, CB.test_rank_based "m" 0 rank_prices 25.0 = Some pos
              /\ strategy pos = rank_based
              /\ In (exit_reason pos)
                    [R_time; R_target_30pct; R_stop_loss_20pct; R_time_30s].
Proof.
  destruct (CB.test_rank_based "m" 0 rank_prices 25.0) as [pos|] eqn:E;
    [|vm_compute in E; discriminate E].
  exists pos. split; [reflexivity|].
  destruct (returned_position_reasons rank_based 0 rank_prices pos)
    as (H1 & _ & _ & H4 & _).
  - simpl. exists "m"%string, 25.0. exact E.
  - split; assumption.
Defined.



(** ** The 1M-MC strategy *)

(** Every way the exit loop of the 1M-MC strategy can end, with the peak it
    returns. *)
Lemma hunt_scan_cases (launch_time : Z) (entry profit_target stop_loss : Q)
      (prices : list WindowRow) :
  forall peak0, peak0 < 1_000_000 ->
  let r := CB.hunt_scan launch_time entry profit_target stop_loss peak0 prices in
  (fst r = {| x_price := entry; x_reason := R_time; x_offset := None |}
   /\ snd r < 1_000_000)
  \/ (x_reason (fst r) = R_hit_1m_mc /\ 1_000_000 <= snd r
      /\ exists p, In p prices /\ x_price (fst r) = close p /\ 1_000_000 <= high p)
  \/ (x_reason (fst r) = R_target_pct profit_target /\ snd r < 1_000_000
      /\ x_price (fst r) = entry * profit_target)
  \/ (x_reason (fst r) = R_stop_loss_pct stop_loss /\ snd r < 1_000_000
      /\ x_price (fst r) = entry * stop_loss)
  \/ (x_reason (fst r) = R_time_420s /\ snd r < 1_000_000
      /\ exists p, In p prices /\ x_price (fst r) = close p).
Proof.
  induction prices as [|p rest IH]; intros peak0 Hp0; simpl.
  - left. now split.
  - fold (offset launch_time p).
    assert (Hrest : forall peak, peak < 1_000_000 ->
      let r := CB.hunt_scan launch_time entry profit_target stop_loss peak rest in
      (fst r = {| x_price := entry; x_reason := R_time; x_offset := None |}
       /\ snd r < 1_000_000)
      \/ (x_reason (fst r) = R_hit_1m_mc /\ 1_000_000 <= snd r
          /\ exists q, In q (p :: rest) /\ x_price (fst r) = close q
                       /\ 1_000_000 <= high q)
      \/ (x_reason (fst r) = R_target_pct profit_target /\ snd r < 1_000_000
          /\ x_price (fst r) = entry * profit_target)
      \/ (x_reason (fst r) = R_stop_loss_pct stop_loss /\ snd r < 1_000_000
          /\ x_price (fst r) = entry * stop_loss)
      \/ (x_reason (fst r) = R_time_420s /\ snd r < 1_000_000
          /\ exists q, In q (p :: rest) /\ x_price (fst r) = close q)).
    { intros peak Hpk.
      destruct (IH peak Hpk)
        as [H | [(H & Hk & q & Hq & Hc & Hh) | [H | [H | (H & Hk & q & Hq & Hc)]]]];
        auto.
      - right; left. split; [exact H|]. split; [exact Hk|].
        exists q. split; [now right|]. now split.
      - right; right; right; right. split; [exact H|]. split; [exact Hk|].
        exists q. split; [now right | exact Hc]. }
    destruct (offset launch_time p <=? 120)%Z; [now apply Hrest|].
    fold (peak_after peak0 p).
    destruct (peak_after peak0 p >=? 1_000_000) eqn:Em.
    { right; left. simpl. split; [reflexivity|].
      split; [now apply Qle_bool_iff|].
      exists p. split; [now left|]. split; [reflexivity|].
      now apply (peak_after_hit peak0 p Hp0). }
    assert (Hpk : peak_after peak0 p < 1_000_000) by (now apply Qleb_gt).
    destruct (high p >=? _).
    { right; right; left. simpl. auto. }
    destruct (low p <? _).
    { right; right; right; left. simpl. auto. }
    destruct (offset launch_time p >=? 420)%Z.
    { right; right; right; right. simpl. split; [reflexivity|].
      split; [exact Hpk|]. exists p. split; [now left | reflexivity]. }
    now apply Hrest.
Qed.

Lemma sizing_cases (total_score : Q) :
  In (CB.sizing total_score)
     [(1.0, 1.50, 0.80); (0.75, 1.50, 0.85); (0.50, 1.30, 0.80); (0.30, 1.30, 0.80)].
Proof.
  unfold CB.sizing.
  repeat match goal with
  | |- context [if ?b then _ else _] => destruct b
  end; simpl; auto.
Qed.

(** A position of the 1M-MC strategy is the result dictionary built from a
    score of at least 6, the sizing of that score, a positive entry price
    and the exit and peak the loop left. *)
Lemma hunting_position_shape (db : Db) (mint : string) (launch_time : Z)
      (creator_wallet : string) (prices : list WindowRow) (pos : Position) :
  CB.test_1m_mc_hunting db mint launch_time creator_wallet prices = Some pos ->
  let score := CB.total (CB.calculate_7_signal_score db mint launch_time
                                                     creator_wallet) in
  exists (entry size profit_target stop_loss : Q),
    6.0 <= score
    /\ 0 < entry
    /\ (exists w, In w prices /\ close w = entry)
    /\ CB.sizing score = (size, profit_target, stop_loss)
    /\ pos = CB.make_position mc_hunting_1m size entry
               (fst (CB.hunt_scan launch_time entry profit_target stop_loss
                                  0.0 prices))
               (HuntExtra score
                  (snd (CB.hunt_scan launch_time entry profit_target stop_loss
                                     0.0 prices) / 1_000_000)
                  (snd (CB.hunt_scan launch_time entry profit_target stop_loss
                                     0.0 prices) >=? 1_000_000)).
Proof.
  unfold CB.test_1m_mc_hunting. cbv zeta. intros H. open_guards.
  destruct (CB.sizing _) as [[size profit_target] stop_loss] eqn:Es.
  destruct (CB.hunt_scan _ _ _ _ _ _) as [x peak] eqn:Eh.
  injection H as <-. exists (close w), size, profit_target, stop_loss.
  repeat match goal with
  | E : (_ <? _) = false |- _ => apply Qltb_ge in E
  | E : (_ <=? _) = false |- _ => apply Qleb_gt in E
  end.
  split; [assumption|]. split; [assumption|]. split.
  { exists w. split; [|reflexivity].
    match goal with E : CB.entry_window _ _ _ _ = Some _ |- _ =>
      apply find_some in E; tauto end. }
  split; [reflexivity|]. rewrite Eh. reflexivity.
Qed.

(** X8. The score of [calculate_7_signal_score] is at most 11.5: signal 3
    is always 0, so the 13 (and the 15 the report prints as the scale) is
    out of reach.  The 1M-MC strategy returns a position only for a score
    of at least 6; the position carries that score, and its size follows
    the bracket of the score: 1.0 SOL from 9, 0.75 from 8, 0.5 from 7, else
    0.3, never more than 1 SOL. *)
Theorem hunting_score_and_size
  (db : Db) (mint : string) (launch_time : Z) (creator_wallet : string)
  (prices : list WindowRow) (pos : Position) :
  let score := CB.total (CB.calculate_7_signal_score db mint launch_time
                                                     creator_wallet) in
  CB.signal_3 (CB.calculate_7_signal_score db mint launch_time creator_wallet) = 0.0
  /\ score <= 11.5
  /\ (CB.test_1m_mc_hunting db mint launch_time creator_wallet prices = Some pos ->
      6.0 <= score
      /\ strategy pos = mc_hunting_1m
      /\ (exists peak hit, extra pos = HuntExtra score peak hit)
      /\ 0.30 <= position_size_sol pos <= 1.0
      /\ (9.0 <= score -> position_size_sol pos = 1.0)
      /\ (8.0 <= score -> score < 9.0 -> position_size_sol pos = 0.75)
      /\ (7.0 <= score -> score < 8.0 -> position_size_sol pos = 0.50)
      /\ (score < 7.0 -> position_size_sol pos = 0.30)).
Proof.
  intros score. split; [reflexivity|]. split.
  - subst score. unfold CB.calculate_7_signal_score. cbv zeta. simpl CB.total.
    pose proof (score_signal_1_bounds db creator_wallet) as H1.
    pose proof (score_signal_2_bounds (CB.get_trades db mint launch_time 0 60)) as H2.
    pose proof (score_signal_4_bounds db (CB.get_trades db mint launch_time 0 60)) as H4.
    pose proof (score_signal_5_bounds (CB.get_trades db mint launch_time 0 120)) as H5.
    pose proof (score_signal_6_bounds (CB.get_trades db mint launch_time 90 120)
                                      (CB.get_trades db mint launch_time 60 90)) as H6.
    pose proof (score_signal_7_bounds (CB.get_price_data db mint launch_time 300)) as H7.
    unfold Qsum. simpl. lra.
  - intros H.
    destruct (hunting_position_shape _ _ _ _ _ _ H)
      as (entry & size & pt & sl & Hs & Hp & _ & Esz & ->).
    fold score in Hs, Esz. simpl strategy. simpl position_size_sol. simpl extra.
    split; [exact Hs|]. split; [reflexivity|].
    split; [eexists; eexists; reflexivity|].
    unfold CB.sizing in Esz.
    destruct (score >=? 9.0) eqn:E9; [|destruct (score >=? 8.0) eqn:E8;
      [|destruct (score >=? 7.0) eqn:E7]];
      injection Esz as <- <- <-; qbool;
      repeat split; intros; try reflexivity; try lra;
      try (exfalso; lra).
Qed.

(** X9. In a position of the 1M-MC strategy the flag [hit_1m] is set exactly
    when the exit reason is ["hit_1m_mc"]; the exit is then at the close of
    a window whose high reached 1,000,000.  With any other reason the peak
    reported stays under 1 (million).  The reason is one of ["time"],
    ["hit_1m_mc"], the target and the stop of the bracket, and
    ["time_420s"]. *)
Theorem hunting_hit_flag
  (db : Db) (mint : string) (launch_time : Z) (creator_wallet : string)
  (prices : list WindowRow) (pos : Position) :
  CB.test_1m_mc_hunting db mint launch_time creator_wallet prices = Some pos ->
  (get_hit_1m pos = true <-> exit_reason pos = R_hit_1m_mc)
  /\ (exit_reason pos = R_hit_1m_mc ->
        exists p, In p prices /\ exit_price pos = close p /\ 1_000_000 <= high p)
  /\ (exists score peak hit,
        extra pos = HuntExtra score peak hit
        /\ (exit_reason pos <> R_hit_1m_mc -> peak < 1))
  /\ In (exit_reason pos)
        [R_time; R_hit_1m_mc; R_target_pct 1.50; R_target_pct 1.30;
         R_stop_loss_pct 0.80; R_stop_loss_pct 0.85; R_time_420s].
Proof.
  intros H.
  destruct (hunting_position_shape _ _ _ _ _ _ H)
    as (entry & size & pt & sl & Hs & Hp & _ & Esz & ->).
  pose proof (hunt_scan_cases launch_time entry pt sl prices 0.0 eq_refl) as Hc.
  cbv zeta in Hc.
  set (r := CB.hunt_scan launch_time entry pt sl 0.0 prices) in *.
  unfold get_hit_1m. simpl extra. simpl exit_reason. simpl exit_price.
  assert (Hlt : snd r < 1_000_000 -> (snd r >=? 1_000_000) = false /\ snd r / 1_000_000 < 1).
  { intros Hk. split; [now apply Qleb_gt|].
    apply Qlt_shift_div_r; [reflexivity | lra]. }
  pose proof (sizing_cases
                (CB.total (CB.calculate_7_signal_score db mint launch_time
                                                       creator_wallet))) as Hsz.
  rewrite Esz in Hsz. simpl in Hsz.
  split; [|split; [|split]].
  - destruct Hc as [[H1 Hk] | [(H1 & Hk & _) | [(H1 & Hk & _) | [(H1 & Hk & _) | (H1 & Hk & _)]]]].
    + rewrite H1. simpl. destruct (Hlt Hk) as [-> _]. split; discriminate.
    + rewrite H1. apply Qle_bool_iff in Hk. rewrite Hk. tauto.
    + rewrite H1. destruct (Hlt Hk) as [-> _]. split; discriminate.
    + rewrite H1. destruct (Hlt Hk) as [-> _]. split; discriminate.
    + rewrite H1. destruct (Hlt Hk) as [-> _]. split; discriminate.
  - intros Hr.
    destruct Hc as [[H1 Hk] | [(H1 & Hk & Hex) | [(H1 & Hk & _) | [(H1 & Hk & _) | (H1 & Hk & _)]]]];
      try (rewrite H1 in Hr; discriminate Hr); [exact Hex].
  - eexists; eexists; eexists. split; [reflexivity|]. intros Hr.
    destruct Hc as [[H1 Hk] | [(H1 & Hk & _) | [(H1 & Hk & _) | [(H1 & Hk & _) | (H1 & Hk & _)]]]];
      now apply Hlt.
  - destruct Hc as [[H1 Hk] | [(H1 & Hk & _) | [(H1 & Hk & _) | [(H1 & Hk & _) | (H1 & Hk & _)]]]];
      rewrite H1; simpl; auto;
      destruct Hsz as [E | [E | [E | [E | []]]]]; injection E as <- <- <-; auto 10.
Qed.

(** ** Wins and losses *)

Lemma make_position_win (s : Strategy) (size entry : Q) (x : Exit) (e : Extra) :
  0 < size -> 0 < entry ->
  (is_win (CB.make_position s size entry x e) = true <-> entry < x_price x).
Proof.
  intros Hs He. unfold is_win. rewrite Qltb_lt. simpl.
  assert (Hnz : ~ entry == 0) by (intro H0; rewrite H0 in He; discriminate).
  assert (Hk : 0 < size / entry) by (apply Qlt_shift_div_l; [exact He | lra]).
  assert (E : size * ((x_price x - entry) / entry)
              == size / entry * (x_price x - entry)) by (field; exact Hnz).
  rewrite E.
  assert (E0 : 0 == size / entry * 0) by ring.
  rewrite E0 at 1. rewrite (Qmult_lt_l _ _ _ Hk). split; intro H; lra.
Qed.

Lemma usd_size_pos (s : Strategy) : 0 < usd_size s / CB.SOL_PRICE_USD.
Proof. destruct s; reflexivity. Qed.

(** X10. For every position any of the six strategies returns, the runner
    counts a win exactly when the exit price is above the entry price, and
    a loss otherwise: a position that exits flat, such as every default
    ["time"] exit, is a loss. *)
Theorem win_iff_exit_above_entry
  (s : Strategy) (db : Db) (mint creator_wallet : string) (launch_time : Z)
  (prices : list WindowRow) (pos : Position) (strategy_name : Strategy)
  (r : CB.StrategyResults) :
  returned_by s launch_time prices pos
  \/ CB.test_1m_mc_hunting db mint launch_time creator_wallet prices = Some pos ->
  (CB.wins (CB.record_result strategy_name pos r) = S (CB.wins r)
   /\ CB.losses (CB.record_result strategy_name pos r) = CB.losses r
   <-> entry_price pos < exit_price pos)
  /\ (CB.wins (CB.record_result strategy_name pos r) = CB.wins r
      /\ CB.losses (CB.record_result strategy_name pos r) = S (CB.losses r)
      <-> exit_price pos <= entry_price pos).
Proof.
  intros Hret.
  assert (Hwin : is_win pos = true <-> entry_price pos < exit_price pos).
  { destruct Hret as [Hret | Hret].
    - destruct (returned_position_shape s launch_time prices pos Hret)
        as (entry & t & e & Hp & _ & ->).
      apply make_position_win; [apply usd_size_pos | exact Hp].
    - destruct (hunting_position_shape _ _ _ _ _ _ Hret)
        as (entry & size & pt & sl & _ & Hp & _ & Esz & ->).
      apply make_position_win; [|exact Hp].
      pose proof (sizing_cases
                    (CB.total (CB.calculate_7_signal_score db mint launch_time
                                                           creator_wallet))) as Hsz.
      rewrite Esz in Hsz. simpl in Hsz.
      destruct Hsz as [E | [E | [E | [E | []]]]]; injection E as <- <- <-; reflexivity. }
  unfold CB.record_result. simpl CB.wins. simpl CB.losses.
  fold (is_win pos). destruct (is_win pos) eqn:Ew.
  - assert (Hlt : entry_price pos < exit_price pos) by (now apply Hwin).
    split; split.
    + intros _. exact Hlt.
    + intros _. split; [lia | reflexivity].
    + intros [H _]. lia.
    + intros Hle. exfalso. lra.
  - assert (Hle : exit_price pos <= entry_price pos).
    { apply Qnot_lt_le. intros Hlt. apply Hwin in Hlt. discriminate. }
    split; split.
    + intros [H _]. lia.
    + intros Hlt. exfalso. lra.
    + intros _. exact Hle.
    + intros _. split; [reflexivity | lia].
Qed.

Definition reputation (w : string) (pnl : Q) (creations : Z) : WalletStatsRow :=
  {| wallet := w; net_pnl_sol := Some pnl; create_count := Some creations;
     profit_score := Some 90.0; win_rate := Some 0.8; total_trades := Some 60%Z |}.

(** A token that scores 7: a proven creator (2.0), ten early buyers (2.0),
    three of them of tier S (2.0), a spread-out buy volume (1.0).  Its
    price is flat at 1.0 until the window at 185 s, which peaks at 1.4. *)
Definition hunting_prices : list WindowRow :=
  [ window_at 0 1.0; window_at 60 1.0; window_at 125 1.0;
    {| win_mint := "m"; window_sec := 60; start_time := 185;
       close := 1.2; high := 1.4; low := 1.0; vol_sol := 15.0 |} ].

Definition hunting_db : Db :=
  {| tokens := [];
     trades := trades ten_buyers_db;
     windows := hunting_prices;
     wallet_stats := [ reputation "creator" 600.0 6; reputation "w0" 250.0 0;
                       reputation "w1" 250.0 0; reputation "w2" 250.0 0 ] |}.

Lemma hunting_hit_flag_witness :
  exists pos,
    CB.test_1m_mc_hunting hunting_db "m" 0 "creator" hunting_prices = Some pos
    /\ exit_reason pos = R_target_pct 1.30
    /\ get_hit_1m pos = false.
Proof.
  destruct (CB.test_1m_mc_hunting hunting_db "m" 0 "creator" hunting_prices)
    as [pos|] eqn:E; [|vm_compute in E; discriminate E].
  exists pos. split; [reflexivity|].
  destruct (hunting_hit_flag hunting_db "m" 0 "creator" hunting_prices pos E)
    as (Hflag & _).
  assert (Hr : exit_reason pos = R_target_pct 1.30)
    by (vm_compute in E; injection E as <-; reflexivity).
  split; [exact Hr|].
  destruct (get_hit_1m pos) eqn:Eh; [|reflexivity].
  destruct Hflag as [Hf _]. specialize (Hf eq_refl).
  rewrite Hr in Hf. discriminate Hf.
Defined.

Lemma win_iff_exit_above_entry_witness :
  exists pos,
    CB.test_1m_mc_hunting hunting_db "m" 0 "creator" hunting_prices = Some pos
    /\ CB.wins (CB.record_result mc_hunting_1m pos CB.empty_results) = 1%nat.
Proof.
  destruct (CB.test_1m_mc_hunting hunting_db "m" 0 "creator" hunting_prices)
    as [pos|] eqn:E; [|vm_compute in E; discriminate E].
  exists pos. split; [reflexivity|].
  destruct (win_iff_exit_above_entry dollar_scalping hunting_db "m" "creator" 0
              hunting_prices pos mc_hunting_1m CB.empty_results (or_intror E))
    as [[_ Hw] _].
  apply Hw. vm_compute in E. injection E as <-. reflexivity.
Defined.

Lemma hunting_score_and_size_witness :
  exists pos,
    CB.test_1m_mc_hunting hunting_db "m" 0 "creator" hunting_prices = Some pos
    /\ position_size_sol pos = 0.50.
Proof.
  destruct (CB.test_1m_mc_hunting hunting_db "m" 0 "creator" hunting_prices)
    as [pos|] eqn:E; [|vm_compute in E; discriminate E].
  exists pos. split; [reflexivity|].
  destruct (hunting_score_and_size hunting_db "m" 0 "creator" hunting_prices pos)
    as (_ & _ & H).
  destruct (H E) as (_ & _ & _ & _ & _ & _ & H7 & _).
  apply H7; vm_compute; [discriminate | reflexivity].
Defined.

(** ** Qualification *)

Lemma find_first {A : Type} (f : A -> bool) (l : list A) (x : A) :
  find f l = Some x ->
  f x = true /\ exists l1 l2, l = l1 ++ x :: l2 /\ forall y, In y l1 -> f y = false.
Proof.
  induction l as [|a l IH]; simpl; [discriminate|].
  destruct (f a) eqn:E.
  - intros [= <-]. split; [exact E|]. exists [], l. split; [reflexivity|]. intros y [].
  - intros H. destruct (IH H) as (Hx & l1 & l2 & -> & Hl1).
    split; [exact Hx|]. exists (a :: l1), l2. split; [reflexivity|].
    intros y [<- | Hy]; [exact E | now apply Hl1].
Qed.

Lemma strongly_sorted_after {A : Type} (R : A -> A -> Prop) (l1 l2 : list A) (x : A) :
  StronglySorted R (l1 ++ x :: l2) -> Forall (R x) l2.
Proof.
  induction l1 as [|a l1 IH]; simpl; intros H; inversion H; subst; auto.
Qed.

Lemma get_trades_sorted_in (db : Db) (mint : string) (launch_time a b : Z) :
  StronglySorted (fun x y => (block_time x <= block_time y)%Z)
                 (CB.get_trades db mint launch_time a b)
  /\ forall t, In t (CB.get_trades db mint launch_time a b) <->
       In t (trades db) /\ trd_mint t = mint
       /\ (launch_time + a <= block_time t <= launch_time + b)%Z.
Proof.
  unfold CB.get_trades. split.
  - apply Sorted_leb_le. apply sort_by_sorted.
    intros x y H. apply Z.leb_gt in H. apply Z.leb_le. lia.
  - intros t. rewrite sort_by_in, filter_In, andb_true_iff, String.eqb_eq,
      between_spec. tauto.
Qed.

(** A trade copy trading may copy: a buy of at least 0.25 SOL by a wallet of
    tier C or better. *)
Definition copyable (db : Db) (t : TradeRow) : Prop :=
  side t = "buy"%string /\ 0.25 <= amount_sol t
  /\ tier_in (CB.get_wallet_tier db (trader t)) [TierS; TierA; TierB; TierC] = true.

(** X11. A copy-trading position copies a trade of the token's first 60
    seconds that is a buy of at least 0.25 SOL by a wallet of tier C or
    better, and no such trade of the first 60 seconds is earlier.  The
    tier recorded is that wallet's, and the entry price is the close of a
    window that opens less than 10 seconds from the trade. *)
Theorem copy_trading_copies_first_reputable_buy
  (db : Db) (mint : string) (launch_time : Z) (prices : list WindowRow)
  (pos : Position) :
  CB.test_copy_trading db mint launch_time prices = Some pos ->
  exists (trade : TradeRow) (w : WindowRow),
    In trade (trades db) /\ trd_mint trade = mint
    /\ (0 <= block_time trade - launch_time <= 60)%Z
    /\ copyable db trade
    /\ (forall t', In t' (trades db) -> trd_mint t' = mint ->
          (0 <= block_time t' - launch_time <= 60)%Z -> copyable db t' ->
          (block_time trade <= block_time t')%Z)
    /\ extra pos = CopyExtra (CB.get_wallet_tier db (trader trade))
    /\ In w prices /\ entry_price pos = close w
    /\ (Z.abs (start_time w - block_time trade) < 10)%Z.
Proof.
  unfold CB.test_copy_trading. cbv zeta. intros H. open_guards.
  injection H as <-.
  match goal with
  | Et : find _ (CB.get_trades _ _ _ _ _) = Some ?tr,
    Ew : find _ prices = Some ?win |- _ =>
      rename tr into trade; rename win into w;
      apply find_first in Et; destruct Et as (Hq & l1 & l2 & El & Hl1);
      apply find_some in Ew; destruct Ew as [Hw Hnear]
  end.
  destruct (get_trades_sorted_in db mint launch_time 0 60) as (Hsorted & Hin).
  assert (Hcopy : forall t, (is_buy t && (amount_sol t >=? 0.25)
                   && tier_in (CB.get_wallet_tier db (trader t))
                              [TierS; TierA; TierB; TierC]) = true
                  <-> copyable db t).
  { intros t. unfold copyable, is_buy.
    rewrite !andb_true_iff, String.eqb_eq, Qle_bool_iff. tauto. }
  assert (Htr : In trade (CB.get_trades db mint launch_time 0 60))
    by (rewrite El; apply in_or_app; right; now left).
  apply Hin in Htr. destruct Htr as (Htab & Hm & Hrange).
  exists trade, w.
  split; [exact Htab|]. split; [exact Hm|]. split; [lia|].
  split; [now apply Hcopy|]. split.
  - intros t' Htab' Hm' Hr' Hc'.
    assert (Hin' : In t' (CB.get_trades db mint launch_time 0 60))
      by (apply Hin; repeat split; try assumption; lia).
    rewrite El in Hin', Hsorted. apply in_app_or in Hin'.
    destruct Hin' as [H1 | [<- | H2]].
    + apply Hl1 in H1. apply Hcopy in Hc'. congruence.
    + lia.
    + apply strongly_sorted_after in Hsorted.
      rewrite Forall_forall in Hsorted. now apply Hsorted.
  - simpl. split; [reflexivity|]. split; [exact Hw|]. split; [reflexivity|].
    apply Z.ltb_lt in Hnear. lia.
Qed.

Lemma copy_trading_copies_first_reputable_buy_witness :
  exists pos trade,
    CB.test_copy_trading hunting_db "m" 0 hunting_prices = Some pos
    /\ In trade (trades hunting_db)
    /\ extra pos = CopyExtra (CB.get_wallet_tier hunting_db (trader trade)).
Proof.
  destruct (CB.test_copy_trading hunting_db "m" 0 hunting_prices)
    as [pos|] eqn:E; [|vm_compute in E; discriminate E].
  destruct (copy_trading_copies_first_reputable_buy hunting_db "m" 0
              hunting_prices pos E) as (trade & w & Hin & _ & _ & _ & _ & Hx & _).
  exists pos, trade. split; [reflexivity|]. split; assumption.
Defined.

(** X12. Momentum and late opportunity return a position only for a token
    that qualifies.  Momentum: at least 4 price windows, at least 5 trades
    between 60 and 120 seconds, among them buys by at least 3 distinct
    wallets for at least 4 SOL; the position records that number of buyers
    and that volume.  Late opportunity: at least 20 price windows and,
    between 1200 and 1260 seconds, buys by at least 10 distinct wallets for
    at least 10 SOL. *)
Theorem momentum_and_late_qualify
  (db : Db) (mint : string) (launch_time : Z) (prices : list WindowRow)
  (pos : Position) :
  (CB.test_momentum db mint launch_time prices = Some pos ->
     (4 <= List.length prices)%nat
     /\ (5 <= List.length (CB.get_trades db mint launch_time 60 120))%nat
     /\ exists n v,
          extra pos = MomentumExtra n v
          /\ n = distinct_buyers db mint (launch_time + 60) (launch_time + 120)
          /\ v == total_volume (buys_within db mint (launch_time + 60)
                                            (launch_time + 120))
          /\ (3 <= n)%nat /\ 4.0 <= v)
  /\ (CB.test_late_opportunity db mint launch_time prices = Some pos ->
     (20 <= List.length prices)%nat
     /\ (10 <= distinct_buyers db mint (launch_time + 1200) (launch_time + 1260))%nat
     /\ 10.0 <= total_volume (buys_within db mint (launch_time + 1200)
                                          (launch_time + 1260))).
Proof.
  split.
  - unfold CB.test_momentum. cbv zeta. intros H. open_guards.
    injection H as <-.
    repeat match goal with
    | E : (_ <? _)%nat = false |- _ => apply Nat.ltb_ge in E
    | E : (_ || _) = false |- _ => apply orb_false_iff in E; destruct E
    end.
    repeat match goal with
    | E : (_ <? _)%nat = false |- _ => apply Nat.ltb_ge in E
    | E : (_ <? _) = false |- _ => apply Qltb_ge in E
    end.
    split; [assumption|]. split; [assumption|].
    eexists. eexists. split; [reflexivity|].
    pose proof (get_trades_buys db mint launch_time 60 120) as Hp.
    split; [|split; [|split]].
    + unfold distinct_buyers. now apply distinct_length_perm, Permutation_map.
    + unfold total_volume. now apply Qsum_perm, Permutation_map.
    + assumption.
    + assumption.
  - unfold CB.test_late_opportunity. cbv zeta. intros H. open_guards.
    repeat match goal with
    | E : (_ <? _)%nat = false |- _ => apply Nat.ltb_ge in E
    | E : (_ || _) = false |- _ => apply orb_false_iff in E; destruct E
    end.
    repeat match goal with
    | E : (_ <? _)%nat = false |- _ => apply Nat.ltb_ge in E
    | E : (_ <? _) = false |- _ => apply Qltb_ge in E
    end.
    pose proof (get_trades_buys db mint launch_time 1200 1260) as Hp.
    match goal with El : CB.get_trades _ _ _ 1200 1260 = _ |- _ =>
      rewrite <- El in * end.
    split; [assumption|]. split.
    + unfold distinct_buyers.
      rewrite <- (distinct_length_perm _ _ (Permutation_map trader Hp)). assumption.
    + unfold total_volume.
      rewrite <- (Qsum_perm _ _ (Permutation_map amount_sol Hp)). assumption.
Qed.

Lemma momentum_and_late_qualify_witness :
  exists pos,
    CB.test_momentum momentum_db "m" 0 momentum_prices = Some pos
    /\ extra pos = MomentumExtra 3 (total_volume (filter is_buy
                     (CB.get_trades momentum_db "m" 0 60 120))).
Proof.
  destruct (CB.test_momentum momentum_db "m" 0 momentum_prices)
    as [pos|] eqn:E; [|vm_compute in E; discriminate E].
  exists pos. split; [reflexivity|].
  destruct (momentum_and_late_qualify momentum_db "m" 0 momentum_prices pos)
    as [H _].
  destruct (H E) as (_ & _ & n & v & Hx & _).
  rewrite Hx. unfold CB.test_momentum in E. cbv zeta in E. open_guards.
  injection E as <-. simpl in Hx. injection Hx as <- <-. reflexivity.
Defined.

(** ** The tallies of the runner *)

Lemma filter_split_length {A : Type} (f : A -> bool) (l : list A) :
  (List.length (filter f l) + List.length (filter (fun x => negb (f x)) l)
   = List.length l)%nat.
Proof.
  induction l as [|x l IH]; simpl; [reflexivity|].
  destruct (f x); simpl; lia.
Qed.

(** The counters of one entry of [results] agree with its list of trades. *)
Definition tallied (s : Strategy) (r : CB.StrategyResults) : Prop :=
  CB.wins r = List.length (filter is_win (CB.res_trades r))
  /\ CB.losses r = List.length (filter (fun p => negb (is_win p)) (CB.res_trades r))
  /\ CB.total_pnl r == Qsum (map pnl_usd (CB.res_trades r))
  /\ CB.hits_1m r = if CB.strategy_eqb s mc_hunting_1m
                    then List.length (filter get_hit_1m (CB.res_trades r))
                    else 0%nat.

Lemma tallied_empty (s : Strategy) : tallied s CB.empty_results.
Proof.
  unfold tallied, Qsum. simpl. repeat split; try reflexivity.
  now destruct (CB.strategy_eqb s mc_hunting_1m).
Qed.

Lemma tallied_record (s : Strategy) (p : Position) (r : CB.StrategyResults) :
  tallied s r -> tallied s (CB.record_result s p r).
Proof.
  intros (Hw & Hl & Ht & Hh). unfold tallied. simpl.
  rewrite !filter_app, !length_app, map_app, Qsum_app. simpl.
  fold (is_win p). repeat split.
  - destruct (is_win p); simpl; lia.
  - destruct (is_win p); simpl; lia.
  - rewrite Ht. unfold Qsum. simpl. lra.
  - destruct (CB.strategy_eqb s mc_hunting_1m); simpl; [|assumption].
    destruct (get_hit_1m p); simpl; lia.
Qed.

Lemma tallied_record_all (s : Strategy) (l : list Position) (r : CB.StrategyResults) :
  tallied s r -> tallied s (record_all s l r).
Proof.
  unfold record_all. revert r.
  induction l as [|p l IH]; intros r H; simpl; [assumption|].
  now apply IH, tallied_record.
Qed.

Lemma tallied_run_strategies (results : CB.Results)
      (batch : list (Strategy * CB.Outcome)) :
  (forall s, tallied s (results s)) ->
  forall s, tallied s (CB.run_strategies results batch s).
Proof.
  intros H s. rewrite run_strategies_at. now apply tallied_record_all.
Qed.

Lemma tallied_tokens
      (tests : Db -> CB.TokenVolume -> list WindowRow -> list (Strategy * CB.Outcome))
      (db : Db) (tokens : list CB.TokenVolume) (results : CB.Results) :
  (forall s, tallied s (results s)) ->
  forall s, tallied s (fold_left (CB.run_token tests db) tokens results s).
Proof.
  revert results.
  induction tokens as [|token tokens IH]; intros results H; simpl; [assumption|].
  apply IH. unfold CB.run_token.
  destruct (CB.get_price_data _ _ _ _); [assumption|].
  now apply tallied_run_strategies.
Qed.

(** X13. The counters the runner returns agree with the trades it returns,
    whatever the six test functions do (return a position, return nothing
    or raise): for every strategy, wins plus losses is the number of
    trades, wins counts the trades with a P&L in SOL above zero, the total
    P&L is the sum of the trades' P&L in USD, and the count of 1M hits is
    zero for every strategy but the 1M hunting one, where it counts the
    trades flagged as hits and so never exceeds the number of trades. *)
Theorem runner_tallies
  (tests : Db -> CB.TokenVolume -> list WindowRow -> list (Strategy * CB.Outcome))
  (db : Db) (cutoff_time : Z) (s : Strategy) :
  let r := CB.run_comprehensive_backtest tests db cutoff_time s in
  (CB.wins r + CB.losses r = List.length (CB.res_trades r))%nat
  /\ CB.wins r = List.length (filter (fun p => pnl_sol p >? 0) (CB.res_trades r))
  /\ CB.total_pnl r == Qsum (map pnl_usd (CB.res_trades r))
  /\ (CB.hits_1m r <= List.length (CB.res_trades r))%nat
  /\ (s <> mc_hunting_1m -> CB.hits_1m r = 0%nat)
  /\ (s = mc_hunting_1m ->
      CB.hits_1m r = List.length (filter get_hit_1m (CB.res_trades r))).
Proof.
  intros r.
  assert (H : tallied s r).
  { apply tallied_tokens. intros s'. apply tallied_empty. }
  destruct H as (Hw & Hl & Ht & Hh).
  split; [|split; [|split; [|split; [|split]]]].
  - rewrite Hw, Hl. apply filter_split_length.
  - exact Hw.
  - exact Ht.
  - rewrite Hh. destruct (CB.strategy_eqb s mc_hunting_1m); [|lia].
    apply filter_length_le.
  - intros Hs. rewrite Hh.
    destruct (CB.strategy_eqb s mc_hunting_1m) eqn:E; [|reflexivity].
    apply strategy_eqb_eq in E. contradiction.
  - intros ->. exact Hh.
Qed.

Lemma res_trades_record_all (s : Strategy) (l : list Position)
      (r : CB.StrategyResults) :
  CB.res_trades (record_all s l r) = CB.res_trades r ++ l.
Proof.
  unfold record_all. revert r.
  induction l as [|p l IH]; intros r; simpl; [now rewrite app_nil_r|].
  rewrite IH. simpl. now rewrite <- app_assoc.
Qed.

Lemma returned_strategy (s : Strategy) (launch_time : Z) (prices : list WindowRow)
      (pos : Position) :
  returned_by s launch_time prices pos -> strategy pos = s.
Proof.
  intros H. apply returned_position_shape in H.
  destruct H as (entry & t & e & _ & _ & ->). reflexivity.
Qed.

(** For one token the six closures hand each strategy at most one position,
    and it carries the name of that strategy. *)
Lemma positions_of_token (db : Db) (token : CB.TokenVolume) (prices : list WindowRow)
      (s : Strategy) :
  let l := positions_of s (CB.strategies_to_test db token prices) in
  (List.length l <= 1)%nat /\ Forall (fun p => strategy p = s) l.
Proof.
  destruct s; unfold CB.strategies_to_test;
    cbn [positions_of CB.strategy_eqb].
  - destruct (CB.test_dollar_scalping _ _ _) as [p|] eqn:E.
    2: { destruct (CB.test_rank_based _ _ _ _), (CB.test_momentum _ _ _ _),
           (CB.test_copy_trading _ _ _ _), (CB.test_late_opportunity _ _ _ _),
           (CB.test_1m_mc_hunting _ _ _ _ _); simpl; split; auto. }
    destruct (CB.test_rank_based _ _ _ _), (CB.test_momentum _ _ _ _),
      (CB.test_copy_trading _ _ _ _), (CB.test_late_opportunity _ _ _ _),
      (CB.test_1m_mc_hunting _ _ _ _ _); simpl; (split; [lia|]);
      repeat constructor;
      apply (returned_strategy dollar_scalping (CB.tv_launch_block_time token) prices);
      now exists (CB.tv_mint token).
  - destruct (CB.test_rank_based _ _ _ _) as [p|] eqn:E.
    2: { destruct (CB.test_dollar_scalping _ _ _), (CB.test_momentum _ _ _ _),
           (CB.test_copy_trading _ _ _ _), (CB.test_late_opportunity _ _ _ _),
           (CB.test_1m_mc_hunting _ _ _ _ _); simpl; split; auto. }
    destruct (CB.test_dollar_scalping _ _ _), (CB.test_momentum _ _ _ _),
      (CB.test_copy_trading _ _ _ _), (CB.test_late_opportunity _ _ _ _),
      (CB.test_1m_mc_hunting _ _ _ _ _); simpl; (split; [lia|]);
      repeat constructor;
      apply (returned_strategy rank_based (CB.tv_launch_block_time token) prices);
      now exists (CB.tv_mint token), (CB.total_volume_5min token).
  - destruct (CB.test_momentum _ _ _ _) as [p|] eqn:E.
    2: { destruct (CB.test_dollar_scalping _ _ _), (CB.test_rank_based _ _ _ _),
           (CB.test_copy_trading _ _ _ _), (CB.test_late_opportunity _ _ _ _),
           (CB.test_1m_mc_hunting _ _ _ _ _); simpl; split; auto. }
    destruct (CB.test_dollar_scalping _ _ _), (CB.test_rank_based _ _ _ _),
      (CB.test_copy_trading _ _ _ _), (CB.test_late_opportunity _ _ _ _),
      (CB.test_1m_mc_hunting _ _ _ _ _); simpl; (split; [lia|]);
      repeat constructor;
      apply (returned_strategy momentum (CB.tv_launch_block_time token) prices);
      now exists db, (CB.tv_mint token).
  - destruct (CB.test_copy_trading _ _ _ _) as [p|] eqn:E.
    2: { destruct (CB.test_dollar_scalping _ _ _), (CB.test_rank_based _ _ _ _),
           (CB.test_momentum _ _ _ _), (CB.test_late_opportunity _ _ _ _),
           (CB.test_1m_mc_hunting _ _ _ _ _); simpl; split; auto. }
    destruct (CB.test_dollar_scalping _ _ _), (CB.test_rank_based _ _ _ _),
      (CB.test_momentum _ _ _ _), (CB.test_late_opportunity _ _ _ _),
      (CB.test_1m_mc_hunting _ _ _ _ _); simpl; (split; [lia|]);
      repeat constructor;
      apply (returned_strategy copy_trading (CB.tv_launch_block_time token) prices);
      now exists db, (CB.tv_mint token).
  - destruct (CB.test_late_opportunity _ _ _ _) as [p|] eqn:E.
    2: { destruct (CB.test_dollar_scalping _ _ _), (CB.test_rank_based _ _ _ _),
           (CB.test_momentum _ _ _ _), (CB.test_copy_trading _ _ _ _),
           (CB.test_1m_mc_hunting _ _ _ _ _); simpl; split; auto. }
    destruct (CB.test_dollar_scalping _ _ _), (CB.test_rank_based _ _ _ _),
      (CB.test_momentum _ _ _ _), (CB.test_copy_trading _ _ _ _),
      (CB.test_1m_mc_hunting _ _ _ _ _); simpl; (split; [lia|]);
      repeat constructor;
      apply (returned_strategy late_opportunity (CB.tv_launch_block_time token) prices);
      now exists db, (CB.tv_mint token).
  - destruct (CB.test_1m_mc_hunting _ _ _ _ _) as [p|] eqn:E.
    2: { destruct (CB.test_dollar_scalping _ _ _), (CB.test_rank_based _ _ _ _),
           (CB.test_momentum _ _ _ _), (CB.test_copy_trading _ _ _ _),
           (CB.test_late_opportunity _ _ _ _); simpl; split; auto. }
    apply hunting_position_shape in E. cbv zeta in E.
    destruct E as (entry & size & pt & sl & _ & _ & _ & _ & Ep).
    destruct (CB.test_dollar_scalping _ _ _), (CB.test_rank_based _ _ _ _),
      (CB.test_momentum _ _ _ _), (CB.test_copy_trading _ _ _ _),
      (CB.test_late_opportunity _ _ _ _); simpl; (split; [lia|]);
      repeat constructor; rewrite Ep; reflexivity.
Qed.

Lemma one_trade_per_token (db : Db) (tokens : list CB.TokenVolume)
      (results : CB.Results) (s : Strategy) :
  let r := fold_left (CB.run_token CB.strategies_to_test db) tokens results s in
  exists l, CB.res_trades r = CB.res_trades (results s) ++ l
            /\ (List.length l <= List.length tokens)%nat
            /\ Forall (fun p => strategy p = s) l.
Proof.
  revert results.
  induction tokens as [|token tokens IH]; intros results; simpl.
  - exists []. rewrite app_nil_r. repeat split; auto.
  - destruct (IH (CB.run_token CB.strategies_to_test db results token))
      as (l & El & Hl & Hs).
    rewrite El. unfold CB.run_token.
    destruct (CB.get_price_data _ _ _ _) as [|w prices] eqn:Ep.
    + exists l. repeat split; auto.
    + rewrite run_strategies_at, res_trades_record_all, <- app_assoc.
      destruct (positions_of_token db token (w :: prices) s) as [H1 Hall].
      eexists. split; [reflexivity|]. split.
      * rewrite length_app. lia.
      * apply Forall_app. split; assumption.
Qed.

(** X14. A run with the six test functions of the script records, for every
    strategy, at most one trade per qualified token (a token with at least
    10 SOL of volume in its first five minutes), hence at most 1000 trades,
    and every trade filed under a strategy carries the name of that
    strategy. *)
Theorem one_trade_per_qualified_token (db : Db) (cutoff_time : Z) (s : Strategy) :
  let r := CB.run_comprehensive_backtest CB.strategies_to_test db cutoff_time s in
  let qualified := filter (fun t => CB.total_volume_5min t >=? 10.0)
                          (CB.get_tokens_last_n_days db cutoff_time) in
  (List.length (CB.res_trades r) <= List.length qualified)%nat
  /\ (List.length (CB.res_trades r) <= 1000)%nat
  /\ Forall (fun p => strategy p = s) (CB.res_trades r).
Proof.
  intros r qualified. unfold r, CB.run_comprehensive_backtest. cbv zeta.
  fold qualified.
  destruct (one_trade_per_token db (firstn 1000 qualified) CB.initial_results s)
    as (l & El & Hl & Hs).
  cbv zeta in El. rewrite El. simpl.
  pose proof (firstn_le_length 1000 qualified).
  rewrite length_firstn in Hl.
  repeat split; try lia. exact Hs.
Qed.

(** ** The report *)

(** The whole of [run_comprehensive_backtest]: the percentage of qualified
    tokens it prints divides by the number of tokens, and the results are
    returned only after [print_comprehensive_results] has come back, so a
    division by zero at either place ends the run without a result. *)
Definition run_and_report
  (tests : Db -> CB.TokenVolume -> list WindowRow -> list (Strategy * CB.Outcome))
  (db : Db) (cutoff_time days : Z) : option (CB.Results * CB.Report) :=
  match CB.get_tokens_last_n_days db cutoff_time with
  | [] => None
  | _ :: _ =>
    let results := CB.run_comprehensive_backtest tests db cutoff_time in
    match CB.print_comprehensive_results results days with
    | None => None
    | Some report => Some (results, report)
    end
  end.

(** All trades of a result, strategy after strategy. *)
Definition all_trades (results : CB.Results) : list Position :=
  List.concat (map (fun s => CB.res_trades (results s)) CB.strategies).

Lemma Qnat_pos (n : nat) : (0 < n)%nat -> 0 < CB.Qnat n.
Proof.
  intros H. unfold CB.Qnat. change 0 with (inject_Z 0). rewrite <- Zlt_Qlt. lia.
Qed.

Lemma Qnat_le (a b : nat) : (a <= b)%nat -> CB.Qnat a <= CB.Qnat b.
Proof. intros H. unfold CB.Qnat. rewrite <- Zle_Qle. lia. Qed.

Lemma rate_bounds (w t : nat) :
  (w <= t)%nat -> (0 < t)%nat -> 0 <= CB.Qnat w / CB.Qnat t * 100 <= 100.
Proof.
  intros Hwt Ht.
  pose proof (Qnat_pos t Ht) as Hp.
  pose proof (Qnat_le w t Hwt) as Hle.
  pose proof (Qnat_le 0 w (Nat.le_0_l w)) as H0. change (CB.Qnat 0) with 0 in H0.
  assert (Ha : 0 <= CB.Qnat w / CB.Qnat t)
    by (apply Qle_shift_div_l; [exact Hp | lra]).
  assert (Hb : CB.Qnat w / CB.Qnat t <= 1)
    by (apply Qle_shift_div_r; [exact Hp | lra]).
  lra.
Qed.

Lemma tallied_counts (s : Strategy) (r : CB.StrategyResults) :
  tallied s r -> (CB.wins r + CB.losses r = List.length (CB.res_trades r))%nat.
Proof. intros (Hw & Hl & _). rewrite Hw, Hl. apply filter_split_length. Qed.

Lemma combined_pnl_sum (results : CB.Results) (l : list Strategy) (acc : Q) :
  (forall s, tallied s (results s)) ->
  fold_left (fun acc s => match CB.res_trades (results s) with
                          | [] => acc
                          | _ :: _ => acc + CB.total_pnl (results s)
                          end) l acc
  == acc + Qsum (map pnl_usd (List.concat (map (fun s => CB.res_trades (results s)) l))).
Proof.
  intros Ht. revert acc.
  induction l as [|s l IH]; intros acc; simpl.
  - unfold Qsum. simpl. lra.
  - rewrite IH, map_app, Qsum_app.
    destruct (Ht s) as (_ & _ & Hp & _).
    destruct (CB.res_trades (results s)) eqn:E.
    + unfold Qsum at 2. simpl. lra.
    + rewrite Hp. lra.
Qed.

Lemma count_sum (f : Strategy -> nat) (l : list Strategy) (acc : nat) :
  fold_left (fun acc s => (acc + f s)%nat) l acc = (acc + list_sum (map f l))%nat.
Proof.
  revert acc. induction l as [|s l IH]; intros acc; simpl; [lia|].
  rewrite IH. lia.
Qed.

Lemma all_trades_length (results : CB.Results) (l : list Strategy) :
  List.length (List.concat (map (fun s => CB.res_trades (results s)) l))
  = list_sum (map (fun s => List.length (CB.res_trades (results s))) l).
Proof.
  induction l as [|s l IH]; simpl; [reflexivity|].
  now rewrite length_app, IH.
Qed.

Lemma wins_losses_sum (results : CB.Results) (l : list Strategy) :
  (forall s, tallied s (results s)) ->
  (list_sum (map (fun s => CB.wins (results s)) l)
   + list_sum (map (fun s => CB.losses (results s)) l)
   = list_sum (map (fun s => List.length (CB.res_trades (results s))) l))%nat.
Proof.
  intros Ht. induction l as [|s l IH]; simpl; [reflexivity|].
  pose proof (tallied_counts s _ (Ht s)). lia.
Qed.

(** [max] over the six entries: no entry has a larger total than the one
    chosen, and an entry with the same total does not come before it. *)
Definition rank (s : Strategy) : nat :=
  match s with
  | dollar_scalping => 0 | rank_based => 1 | momentum => 2
  | copy_trading => 3 | late_opportunity => 4 | mc_hunting_1m => 5
  end.

Lemma best_of_first_largest (results : CB.Results) (s : Strategy) :
  CB.total_pnl (results s) <= CB.total_pnl (results (CB.best_of results))
  /\ (CB.total_pnl (results s) == CB.total_pnl (results (CB.best_of results)) ->
      (rank (CB.best_of results) <= rank s)%nat).
Proof.
  unfold CB.best_of, CB.strategies. cbn [fold_left].
  repeat match goal with
  | |- context [Qltb ?b ?a] =>
      lazymatch b with
      | context [if _ then _ else _] => fail
      | _ =>
        lazymatch a with
        | context [if _ then _ else _] => fail
        | _ =>
          let E := fresh "E" in
          destruct (Qltb b a) eqn:E;
          [apply Qltb_lt in E | apply Qltb_ge in E]; cbv iota
        end
      end
  end;
  destruct s; cbn [rank]; (split; [lra | intros He; try lia; exfalso; lra]).
Qed.

Lemma report_of_tallied (results : CB.Results) (days : Z) (report : CB.Report) :
  (forall s, tallied s (results s)) ->
  CB.print_comprehensive_results results days = Some report ->
  let c := CB.combined report in
  days <> 0%Z
  /\ (0 < CB.total_trades c)%nat
  /\ CB.total_trades c = List.length (all_trades results)
  /\ (CB.total_wins c + CB.total_losses c = CB.total_trades c)%nat
  /\ 0 <= CB.overall_win_rate c <= 100
  /\ CB.combined_pnl c == Qsum (map pnl_usd (all_trades results))
  /\ CB.per_day c * inject_Z days == CB.combined_pnl c
  /\ CB.per_trade c * CB.Qnat (CB.total_trades c) == CB.combined_pnl c
  /\ forall s, CB.total_pnl (results s)
               <= CB.total_pnl (results (CB.best_strategy c)).
Proof.
  intros Ht H. unfold CB.print_comprehensive_results in H. cbv zeta in H.
  rewrite !count_sum, !Nat.add_0_l in H.
  pose proof (wins_losses_sum results CB.strategies Ht) as Hwl.
  pose proof (all_trades_length results CB.strategies) as Hlen.
  fold (all_trades results) in Hlen.
  pose proof (combined_pnl_sum results CB.strategies 0.0 Ht) as Hsum.
  fold (all_trades results) in Hsum.
  set (n := list_sum (map (fun s => List.length (CB.res_trades (results s)))
                          CB.strategies)) in *.
  set (w := list_sum (map (fun s => CB.wins (results s)) CB.strategies)) in *.
  set (l := list_sum (map (fun s => CB.losses (results s)) CB.strategies)) in *.
  set (total := fold_left _ CB.strategies 0.0) in *.
  clearbody n w l total.
  destruct (_ || _) eqn:Eg in H; [discriminate H|].
  apply orb_false_iff in Eg. destruct Eg as [Ed En].
  apply Z.eqb_neq in Ed. apply Nat.eqb_neq in En.
  injection H as <-.
  cbn [CB.combined CB.total_trades CB.total_wins CB.total_losses
       CB.overall_win_rate CB.combined_pnl CB.per_day CB.per_trade
       CB.best_strategy].
  assert (Hn : (0 < n)%nat) by lia.
  pose proof (Qnat_pos n Hn) as Hq.
  split; [exact Ed|]. split; [exact Hn|]. split; [now symmetry|].
  split; [exact Hwl|]. split; [apply rate_bounds; lia|]. split.
  { rewrite Hsum. lra. }
  split.
  { field. change 0 with (inject_Z 0). rewrite inject_Z_injective. exact Ed. }
  split.
  { field. intros H0. rewrite H0 in Hq. discriminate Hq. }
  intros s. apply best_of_first_largest.
Qed.

(** X15. When a run ends without a result.  [run_comprehensive_backtest]
    comes back with results and a report unless no token was launched
    since the cutoff, or [days] is 0, or no strategy recorded a trade: in
    each of these cases, and in no other, a division by zero ends it. *)
Theorem run_without_result
  (tests : Db -> CB.TokenVolume -> list WindowRow -> list (Strategy * CB.Outcome))
  (db : Db) (cutoff_time days : Z) :
  run_and_report tests db cutoff_time days = None
  <-> CB.get_tokens_last_n_days db cutoff_time = []
      \/ days = 0%Z
      \/ forall s, CB.res_trades
                     (CB.run_comprehensive_backtest tests db cutoff_time s) = [].
Proof.
  unfold run_and_report. cbv zeta.
  set (results := CB.run_comprehensive_backtest tests db cutoff_time).
  destruct (CB.get_tokens_last_n_days db cutoff_time) as [|t ts] eqn:Et.
  { split; auto. }
  unfold CB.print_comprehensive_results. cbv zeta.
  rewrite !count_sum, !Nat.add_0_l.
  unfold CB.strategies. cbn [map list_sum].
  destruct (_ || _) eqn:Eg.
  - split; [intros _ | reflexivity]. right.
    apply orb_true_iff in Eg. destruct Eg as [Ed | En].
    + left. now apply Z.eqb_eq.
    + right. apply Nat.eqb_eq in En. intros s.
      apply length_zero_iff_nil. cbn [list_sum fold_right] in En.
      destruct s; lia.
  - apply orb_false_iff in Eg. destruct Eg as [Ed En].
    apply Z.eqb_neq in Ed. apply Nat.eqb_neq in En.
    split; [discriminate|]. intros [H | [H | H]]; [discriminate H | contradiction |].
    exfalso. apply En. fold results in H. rewrite !H. reflexivity.
Qed.

(** X16. The combined figures of a report.  When a run comes back, its
    results are those of the token loop, and in the report: the number of
    trades is positive and is the number of trades in the results; wins
    plus losses is the number of trades; the overall win rate lies between
    0 and 100; the combined P&L is the sum of the P&L in USD of all trades;
    per day times [days] and per trade times the number of trades both give
    the combined P&L; and no strategy has a larger total than the one
    named best. *)
Theorem report_combined_figures
  (tests : Db -> CB.TokenVolume -> list WindowRow -> list (Strategy * CB.Outcome))
  (db : Db) (cutoff_time days : Z) (results : CB.Results) (report : CB.Report) :
  run_and_report tests db cutoff_time days = Some (results, report) ->
  let c := CB.combined report in
  results = CB.run_comprehensive_backtest tests db cutoff_time
  /\ days <> 0%Z
  /\ (0 < CB.total_trades c)%nat
  /\ CB.total_trades c = List.length (all_trades results)
  /\ (CB.total_wins c + CB.total_losses c = CB.total_trades c)%nat
  /\ 0 <= CB.overall_win_rate c <= 100
  /\ CB.combined_pnl c == Qsum (map pnl_usd (all_trades results))
  /\ CB.per_day c * inject_Z days == CB.combined_pnl c
  /\ CB.per_trade c * CB.Qnat (CB.total_trades c) == CB.combined_pnl c
  /\ forall s, CB.total_pnl (results s)
               <= CB.total_pnl (results (CB.best_strategy c)).
Proof.
  unfold run_and_report. cbv zeta. intros H.
  destruct (CB.get_tokens_last_n_days db cutoff_time); [discriminate H|].
  destruct (CB.print_comprehensive_results _ days) as [rep|] eqn:Ep;
    [|discriminate H].
  injection H as <- <-. split; [reflexivity|].
  apply (report_of_tallied _ days rep); [|exact Ep].
  intros s. apply tallied_tokens. intros s'. apply tallied_empty.
Qed.

(** The token of [hunting_db], launched at 1000 and stored with its
    trades and windows. *)
Definition launched_db : Db :=
  {| tokens := [ {| tok_mint := "m"; launch_block_time := 1000;
                    creator_wallet := "creator";
                    initial_liquidity_sol := Some 30.0 |} ];
     trades := map (fun t => {| trd_mint := trd_mint t; trader := trader t;
                                amount_sol := amount_sol t; side := side t;
                                block_time := block_time t + 1000 |})
                   (trades hunting_db);
     windows := map (fun w => {| win_mint := win_mint w; window_sec := window_sec w;
                                 start_time := start_time w + 1000;
                                 close := close w; high := high w; low := low w;
                                 vol_sol := vol_sol w |})
                    (windows hunting_db);
     wallet_stats := wallet_stats hunting_db |}.

Lemma report_combined_figures_witness :
  exists results report,
    run_and_report CB.strategies_to_test launched_db 0 30 = Some (results, report)
    /\ (CB.total_wins (CB.combined report) + CB.total_losses (CB.combined report)
        = CB.total_trades (CB.combined report))%nat.
Proof.
  destruct (run_and_report CB.strategies_to_test launched_db 0 30)
    as [[results report]|] eqn:E; [|vm_compute in E; discriminate E].
  exists results, report. split; [reflexivity|].
  apply (report_combined_figures CB.strategies_to_test launched_db 0 30
           results report E).
Defined.

(** X17. The strategy named best.  [max] over the six entries of the
    results picks an entry whose total P&L no other entry exceeds, and
    among entries with that total the one that comes first in the order of
    the dictionary. *)
Theorem best_strategy_is_first_largest (results : CB.Results) (s : Strategy) :
  CB.total_pnl (results s) <= CB.total_pnl (results (CB.best_of results))
  /\ (CB.total_pnl (results s) == CB.total_pnl (results (CB.best_of results)) ->
      (rank (CB.best_of results) <= rank s)%nat)
  /\ (CB.total_pnl (results (CB.best_of results)) <= CB.total_pnl (results s) ->
      (rank s < rank (CB.best_of results))%nat -> False).
Proof.
  destruct (best_of_first_largest results s) as [Hle Hfirst].
  split; [exact Hle|]. split; [exact Hfirst|].
  intros Hge Hlt.
  assert (He : CB.total_pnl (results s)
               == CB.total_pnl (results (CB.best_of results))) by lra.
  apply Hfirst in He. lia.
Qed.

Lemma strategy_line_none (r : CB.StrategyResults) :
  CB.strategy_line r = None <-> CB.res_trades r = [].
Proof.
  unfold CB.strategy_line. cbv zeta.
  destruct (CB.res_trades r); simpl; split; intro H; try reflexivity; discriminate.
Qed.

Lemma strategy_line_tallied (s : Strategy) (r : CB.StrategyResults)
      (line : CB.StrategyLine) :
  tallied s r -> CB.strategy_line r = Some line ->
  CB.trades_count line = List.length (CB.res_trades r)
  /\ (0 < CB.trades_count line)%nat
  /\ (CB.line_wins line + CB.line_losses line = CB.trades_count line)%nat
  /\ 0 <= CB.line_win_rate line <= 100
  /\ CB.line_total_pnl line == Qsum (map pnl_usd (CB.res_trades r))
  /\ CB.avg_pnl line * CB.Qnat (CB.trades_count line) == CB.line_total_pnl line
  /\ CB.avg_position line * CB.Qnat (CB.trades_count line)
     == Qsum (map position_size_sol (CB.res_trades r)).
Proof.
  intros Ht H. pose proof (tallied_counts s r Ht) as Hc.
  destruct Ht as (_ & _ & Hp & _).
  unfold CB.strategy_line in H. cbv zeta in H.
  set (n := List.length (CB.res_trades r)) in *.
  destruct n as [|m] eqn:En; [discriminate H|].
  injection H as <-.
  cbn [CB.trades_count CB.line_wins CB.line_losses CB.line_win_rate
       CB.line_total_pnl CB.avg_pnl CB.avg_position].
  assert (Hq : 0 < CB.Qnat (S m)) by (apply Qnat_pos; lia).
  assert (Hq0 : ~ CB.Qnat (S m) == 0)
    by (intros H0; rewrite H0 in Hq; discriminate Hq).
  split; [reflexivity|]. split; [lia|]. split; [exact Hc|].
  split; [apply rate_bounds; lia|]. split; [exact Hp|].
  split; field; exact Hq0.
Qed.

Lemma in_strategies (s : Strategy) : In s CB.strategies.
Proof. destruct s; simpl; tauto. Qed.

(** X18. The lines of a report.  When a run comes back, the report has one
    line per strategy, in the order of the script; a strategy has no
    figures exactly when it has no trade; the figures of a strategy are
    the number of its trades (positive), wins and losses adding up to it,
    a win rate between 0 and 100, the sum of its trades' P&L in USD, and
    averages that give back that sum and the sum of the position sizes
    when multiplied by the number of trades.  The number of 1M hits is
    printed exactly when the hunting strategy has a trade, and is at most
    the number of its trades. *)
Theorem report_strategy_lines
  (tests : Db -> CB.TokenVolume -> list WindowRow -> list (Strategy * CB.Outcome))
  (db : Db) (cutoff_time days : Z) (results : CB.Results) (report : CB.Report) :
  run_and_report tests db cutoff_time days = Some (results, report) ->
  map fst (CB.lines report) = CB.strategies
  /\ (forall s, In (s, None) (CB.lines report) <-> CB.res_trades (results s) = [])
  /\ (forall s line, In (s, Some line) (CB.lines report) ->
        CB.trades_count line = List.length (CB.res_trades (results s))
        /\ (0 < CB.trades_count line)%nat
        /\ (CB.line_wins line + CB.line_losses line = CB.trades_count line)%nat
        /\ 0 <= CB.line_win_rate line <= 100
        /\ CB.line_total_pnl line == Qsum (map pnl_usd (CB.res_trades (results s)))
        /\ CB.avg_pnl line * CB.Qnat (CB.trades_count line)
           == CB.line_total_pnl line
        /\ CB.avg_position line * CB.Qnat (CB.trades_count line)
           == Qsum (map position_size_sol (CB.res_trades (results s))))
  /\ (CB.hits_line report = None <-> CB.res_trades (results mc_hunting_1m) = [])
  /\ (forall h, CB.hits_line report = Some h ->
        (h <= List.length (CB.res_trades (results mc_hunting_1m)))%nat).
Proof.
  unfold run_and_report. cbv zeta. intros H.
  destruct (CB.get_tokens_last_n_days db cutoff_time); [discriminate H|].
  destruct (CB.print_comprehensive_results _ days) as [rep|] eqn:Ep;
    [|discriminate H].
  injection H as <- <-.
  set (results := CB.run_comprehensive_backtest tests db cutoff_time) in *.
  assert (Ht : forall s, tallied s (results s)).
  { intros s. apply tallied_tokens. intros s'. apply tallied_empty. }
  unfold CB.print_comprehensive_results in Ep. cbv zeta in Ep.
  destruct (_ || _) in Ep; [discriminate Ep|].
  remember (map (fun s => (s, CB.strategy_line (results s))) CB.strategies)
    as ls eqn:Els in Ep.
  injection Ep as <-. cbn [CB.lines CB.hits_line].
  split; [now rewrite Els|]. split; [|split; [|split]].
  - intros s. rewrite Els. split.
    + intros Hin. apply in_map_iff in Hin. destruct Hin as (s' & Es & _).
      injection Es as -> Es. now apply strategy_line_none.
    + intros Hn. apply strategy_line_none in Hn. rewrite <- Hn.
      apply (in_map (fun s => (s, CB.strategy_line (results s)))), in_strategies.
  - intros s line Hin. rewrite Els in Hin.
    apply in_map_iff in Hin. destruct Hin as (s' & Es & _).
    injection Es as -> Es. now apply (strategy_line_tallied s).
  - destruct (CB.res_trades (results mc_hunting_1m)); split; intro H;
      try reflexivity; discriminate H.
  - intros h Hh. destruct (Ht mc_hunting_1m) as (_ & _ & _ & Hhits).
    simpl in Hhits.
    destruct (CB.res_trades (results mc_hunting_1m)) eqn:E; [discriminate Hh|].
    injection Hh as <-. rewrite Hhits. apply filter_length_le.
Qed.

Lemma report_strategy_lines_witness :
  exists results report,
    run_and_report CB.strategies_to_test launched_db 0 30 = Some (results, report)
    /\ map fst (CB.lines report) = CB.strategies.
Proof.
  destruct (run_and_report CB.strategies_to_test launched_db 0 30)
    as [[results report]|] eqn:E; [|vm_compute in E; discriminate E].
  exists results, report. split; [reflexivity|].
  apply (report_strategy_lines CB.strategies_to_test launched_db 0 30
           results report E).
Defined.

(** ** The two scorers side by side *)

(** X19. Signal 1 is the same in the two scripts.  For a token found in
    [tokens], the creator reputation that [score_token_at_time] computes
    from the mint is the one [calculate_7_signal_score] computes from the
    creator wallet of that token; for a mint that is not in [tokens] the
    former is 0 with the label ["no_creator_data"]. *)
Theorem signal_1_scorers_agree (db : Db) (mint : string) (launch_time : Z) :
  match SB.token_row db mint with
  | Some row =>
      fst (SB.calculate_signal_1_creator_reputation db mint)
      = CB.signal_1 (CB.calculate_7_signal_score db mint launch_time
                                                 (creator_wallet row))
  | None =>
      SB.calculate_signal_1_creator_reputation db mint = (0.0, SB.no_creator_data)
  end.
Proof.
  unfold SB.calculate_signal_1_creator_reputation, CB.calculate_7_signal_score.
  cbv zeta. cbn [CB.signal_1].
  destruct (SB.token_row db mint) as [row|]; [|reflexivity].
  unfold CB.score_signal_1, CB.get_creator_stats.
  destruct (wallet_row db (creator_wallet row)) as [r|]; [|reflexivity].
  destruct (_ && _); [reflexivity|].
  destruct (_ && _); [reflexivity|].
  destruct (_ >=? _); reflexivity.
Qed.



Lemma firstn_in {A : Type} (n : nat) (l : list A) (x : A) :
  In x (firstn n l) -> In x l.
Proof.
  revert l. induction n as [|n IH]; intros [|y l] H; simpl in H; try contradiction.
  destruct H as [-> | H]; [now left | right; now apply IH].
Qed.

(** [db] with one more row in [trades]. *)
Definition with_trade (t : TradeRow) (db : Db) : Db :=
  {| tokens := tokens db; trades := t :: trades db;
     windows := windows db; wallet_stats := wallet_stats db |}.

Lemma mem_in (x : string) (l : list string) : SB.mem x l = true <-> In x l.
Proof.
  unfold SB.mem. rewrite existsb_exists. split.
  - intros (y & Hy & E). apply String.eqb_eq in E. now subst y.
  - intros H. exists x. split; [exact H | apply String.eqb_refl].
Qed.

(** X21. Signal 4 of [score_token_at_time] counts wallets, not trades.
    The proven wallets are at most 100 wallets of [wallet_stats] with a net
    P&L of at least 100 SOL, a win rate of at least 0.5 and at least 5
    trades (a [NULL] in any of the three keeps a row out).  The signal is
    2.0, 1.5, 1.0 or 0 for three or more, two, one or none of the distinct
    buyers up to the evaluation instant among the proven wallets; and one
    more buy by a wallet that has already bought in that time leaves the
    signal unchanged. *)
Theorem wallet_overlap_counts_wallets
  (db : Db) (mint : string) (launch_time eval_time : Z) :
  let proven := SB.profitable_wallets db in
  let buyers :=
    distinct (map trader (buys_within db mint launch_time (launch_time + eval_time))) in
  let overlap := List.length (filter (fun b => SB.mem b proven) buyers) in
  let s4 db := fst (SB.calculate_signal_4_wallet_overlap db mint launch_time
                                                         eval_time) in
  (List.length proven <= 100)%nat
  /\ (forall w, In w proven ->
        exists r pnl rate count,
          In r (wallet_stats db) /\ wallet r = w
          /\ net_pnl_sol r = Some pnl /\ 100 <= pnl
          /\ win_rate r = Some rate /\ 0.5 <= rate
          /\ total_trades r = Some count /\ (5 <= count)%Z)
  /\ NoDup buyers
  /\ (s4 db = 2.0 <-> (3 <= overlap)%nat)
  /\ (s4 db = 1.5 <-> overlap = 2%nat)
  /\ (s4 db = 1.0 <-> overlap = 1%nat)
  /\ (s4 db = 0.0 <-> overlap = 0%nat)
  /\ (forall t, In t (buys_within db mint launch_time (launch_time + eval_time)) ->
        forall t', trd_mint t' = mint -> is_buy t' = true ->
                   (launch_time <= block_time t' <= launch_time + eval_time)%Z ->
                   trader t' = trader t ->
                   s4 (with_trade t' db) = s4 db).
Proof.
  intros proven buyers overlap s4.
  split; [|split; [|split]].
  - unfold proven, SB.profitable_wallets. rewrite length_map, length_firstn. lia.
  - intros w Hw. unfold proven, SB.profitable_wallets in Hw.
    apply in_map_iff in Hw. destruct Hw as (r & Ew & Hr).
    apply firstn_in, sort_by_in, filter_In in Hr.
    destruct Hr as [Hin Hc].
    apply andb_true_iff in Hc. destruct Hc as [Hc H3].
    apply andb_true_iff in Hc. destruct Hc as [H1 H2].
    unfold SB.ge_where in H1, H2. unfold SB.ge_whereZ in H3.
    destruct (net_pnl_sol r) as [pnl|] eqn:E1; [|discriminate H1].
    destruct (win_rate r) as [rate|] eqn:E2; [|discriminate H2].
    destruct (total_trades r) as [count|] eqn:E3; [|discriminate H3].
    exists r, pnl, rate, count.
    apply Qle_bool_iff in H1. apply Qle_bool_iff in H2.
    apply Z.geb_le in H3. repeat split; assumption.
  - apply NoDup_nodup.
  - assert (Hs : s4 db = if (3 <=? overlap)%nat then 2.0
                         else if (overlap =? 2)%nat then 1.5
                         else if (overlap =? 1)%nat then 1.0 else 0.0).
    { unfold s4, SB.calculate_signal_4_wallet_overlap, overlap, buyers, proven.
      cbv zeta.
      change (buys_within db mint launch_time (launch_time + eval_time))
        with (SB.buys_between db mint launch_time (launch_time + eval_time)).
      destruct (SB.profitable_wallets db) as [|p ps].
      - generalize (distinct (map trader (SB.buys_between db mint launch_time
                                            (launch_time + eval_time)))).
        intros l. induction l; simpl; auto.
      - set (n := List.length _).
        destruct (3 <=? n)%nat; [reflexivity|].
        destruct (n =? 2)%nat; [reflexivity|].
        destruct (n =? 1)%nat; reflexivity. }
    split; [|split; [|split; [|split]]].
    + rewrite Hs.
      destruct (Nat.leb_spec 3 overlap); [tauto|].
      destruct (Nat.eqb_spec overlap 2); [split; [discriminate | lia]|].
      destruct (Nat.eqb_spec overlap 1); split; try discriminate; lia.
    + rewrite Hs.
      destruct (Nat.leb_spec 3 overlap); [split; [discriminate | lia]|].
      destruct (Nat.eqb_spec overlap 2); [tauto|].
      destruct (Nat.eqb_spec overlap 1); split; try discriminate; lia.
    + rewrite Hs.
      destruct (Nat.leb_spec 3 overlap); [split; [discriminate | lia]|].
      destruct (Nat.eqb_spec overlap 2); [split; [discriminate | lia]|].
      destruct (Nat.eqb_spec overlap 1); [tauto|]. split; [discriminate | lia].
    + rewrite Hs.
      destruct (Nat.leb_spec 3 overlap); [split; [discriminate | lia]|].
      destruct (Nat.eqb_spec overlap 2); [split; [discriminate | lia]|].
      destruct (Nat.eqb_spec overlap 1); [split; [discriminate | lia]|].
      split; [lia | reflexivity].
    + intros t Ht t' Hm Hb Hr Htr.
      unfold s4, SB.calculate_signal_4_wallet_overlap. cbv zeta.
      change (SB.profitable_wallets (with_trade t' db))
        with (SB.profitable_wallets db).
      assert (Eb : SB.buys_between (with_trade t' db) mint launch_time
                                   (launch_time + eval_time)
                   = t' :: SB.buys_between db mint launch_time
                                           (launch_time + eval_time)).
      { unfold SB.buys_between, with_trade. cbn [trades filter].
        rewrite Hm, String.eqb_refl, Hb.
        assert (Hbt : between launch_time (block_time t')
                              (launch_time + eval_time) = true)
          by now apply between_spec.
        now rewrite Hbt. }
      assert (Ed : distinct (map trader
                     (t' :: SB.buys_between db mint launch_time
                                            (launch_time + eval_time)))
                   = distinct (map trader
                       (SB.buys_between db mint launch_time
                                        (launch_time + eval_time)))).
      { unfold distinct. cbn [map nodup].
        destruct (in_dec string_dec (trader t') _) as [Hin | Hout];
          [reflexivity|].
        exfalso. apply Hout. rewrite Htr. now apply in_map. }
      now rewrite Eb, Ed.
Qed.

(** * [ScoringBacktest], the run (backtest_1m_scorer.py) *)

Module ScoringRun.

(** A row of [get_tokens_with_high_volume]: mint, total volume and launch
    time. *)
Record VolumeRow := {
  vr_mint : string;
  total_vol : Q;
  vr_launch_block_time : Z
}.

(** The windows joined to a token that pass the [WHERE]: its 60-second
    windows that start at most 300 seconds after launch.  There is no bound
    on the early side. *)
Definition joined_windows (db : Db) (t : TokenRow) : list WindowRow :=
  filter (fun w => String.eqb (win_mint w) (tok_mint t)
                   && (window_sec w =? 60)%Z
                   && (start_time w - launch_block_time t <=? 300)%Z)
         (windows db).

(** [get_tokens_with_high_volume].  [mint] is the key of [tokens], so a
    group of [GROUP BY w.mint] is the windows joined to one token, and a
    token without such a window has no group. *)
Definition get_tokens_with_high_volume (db : Db) (min_vol_sol : Q) (limit : nat)
  : list VolumeRow :=
  firstn limit
    (sort_by (fun y x => total_vol y >=? total_vol x)
       (filter (fun r => total_vol r >=? min_vol_sol)
          (map (fun t => {| vr_mint := tok_mint t;
                            total_vol := Qsum (map vol_sol (joined_windows db t));
                            vr_launch_block_time := launch_block_time t |})
             (filter (fun t => (launch_block_time t >? 0)%Z
                               && match joined_windows db t with
                                  | [] => false
                                  | _ :: _ => true
                                  end)
                     (tokens db))))).

(** The rows [get_peak_market_cap] ranges over. *)
Definition peak_windows (db : Db) (mint : string) (launch_time : Z)
  : list WindowRow :=
  filter (fun w => String.eqb (win_mint w) mint
                   && (window_sec w =? 60)%Z
                   && (start_time w - launch_time <=? 1800)%Z)
         (windows db).

(** [SELECT MAX(high), start_time]: the bare column comes from a row that
    holds the maximum; of several such rows the first of the table is taken
    here. *)
Fixpoint max_high (rows : list WindowRow) : option WindowRow :=
  match rows with
  | [] => None
  | w :: rest =>
    match max_high rest with
    | None => Some w
    | Some m => if high m >? high w then Some m else Some w
    end
  end.

Definition get_peak_market_cap (db : Db) (mint : string) (launch_time : Z) : Q * Z :=
  match max_high (peak_windows db mint launch_time) with
  | Some row =>
    if Qeq_bool (high row) 0 then (0.0, 0%Z)
    else (high row * 1_000_000_000.0, (start_time row - launch_time)%Z)
  | None => (0.0, 0%Z)
  end.

Definition eval_times : list Z := [30; 60; 120; 300]%Z.

(** One entry of [results["by_eval_time"]]; [signal_contributions] is keyed
    by the number of the signal. *)
Record EvalData := {
  detected : nat;
  scores : list Q;
  signal_contributions : nat -> list Q
}.

Record TokenResult := {
  tr_mint : string;
  tr_volume : Q;
  tr_peak_mc : Q;
  tr_peak_time : Z;
  tr_reached_1m : bool;
  tr_scores : list (Z * Q)
}.

Record BacktestResults := {
  tokens_analyzed : nat;
  reached_1m : nat;
  by_eval_time : Z -> EvalData;
  peak_mc_distribution : list Q;
  token_details : list TokenResult
}.

Definition empty_eval_data : EvalData :=
  {| detected := 0; scores := []; signal_contributions := fun _ => [] |}.

Definition initial_results (tokens : list VolumeRow) : BacktestResults :=
  {| tokens_analyzed := List.length tokens;
     reached_1m := 0;
     by_eval_time := fun _ => empty_eval_data;
     peak_mc_distribution := [];
     token_details := [] |}.

(** [score_data[f"signal_{sig_num}"]["score"]] *)
Definition signal_score (score_data : SB.TokenScore) (sig_num : nat) : Q :=
  match sig_num with
  | 1%nat => fst (SB.signal_1 score_data)
  | 2%nat => fst (SB.signal_2 score_data)
  | 3%nat => fst (SB.signal_3 score_data)
  | 4%nat => fst (SB.signal_4 score_data)
  | 5%nat => fst (SB.signal_5 score_data)
  | 6%nat => fst (SB.signal_6 score_data)
  | 7%nat => fst (SB.signal_7 score_data)
  | _ => 0
  end.

(** The body of the loop over [eval_times], on the entry of one time. *)
Definition record_score (score_data : SB.TokenScore) (data : EvalData) : EvalData :=
  let total_score := SB.total_score score_data in
  {| detected := if total_score >=? 6.0 then (detected data + 1)%nat
                 else detected data;
     scores := scores data ++ [total_score];
     signal_contributions :=
       fun sig_num =>
         if ((1 <=? sig_num) && (sig_num <=? 7))%nat
         then signal_contributions data sig_num ++ [signal_score score_data sig_num]
         else signal_contributions data sig_num |}.

Definition update_eval (by_eval : Z -> EvalData) (eval_time : Z)
           (f : EvalData -> EvalData) : Z -> EvalData :=
  fun t => if (eval_time =? t)%Z then f (by_eval t) else by_eval t.

(** One turn of the token loop. *)
Definition analyze_token (db : Db) (results : BacktestResults) (token : VolumeRow)
  : BacktestResults :=
  let mint := vr_mint token in
  let volume := total_vol token in
  let launch_time := vr_launch_block_time token in
  let peak := get_peak_market_cap db mint launch_time in
  let peak_mc := fst peak in
  let peak_time := snd peak in
  let reached := peak_mc >=? 1_000_000 in
  {| tokens_analyzed := tokens_analyzed results;
     reached_1m := if reached then (reached_1m results + 1)%nat
                   else reached_1m results;
     by_eval_time :=
       fold_left
         (fun by_eval eval_time =>
            update_eval by_eval eval_time
              (record_score (SB.score_token_at_time db mint launch_time eval_time)))
         eval_times (by_eval_time results);
     peak_mc_distribution := peak_mc_distribution results ++ [peak_mc];
     token_details :=
       token_details results
       ++ [ {| tr_mint := substring 0 8 mint;
               tr_volume := volume;
               tr_peak_mc := peak_mc;
               tr_peak_time := peak_time;
               tr_reached_1m := reached;
               tr_scores :=
                 map (fun eval_time =>
                        (eval_time,
                         SB.total_score
                           (SB.score_token_at_time db mint launch_time eval_time)))
                     eval_times |} ] |}.

(** [run_backtest]: [None] when no token has the volume asked for. *)
Definition run_backtest (db : Db) (min_volume : Q) (sample_size : nat)
  : option BacktestResults :=
  match get_tokens_with_high_volume db min_volume sample_size with
  | [] => None
  | tokens => Some (fold_left (analyze_token db) tokens (initial_results tokens))
  end.

(** The dictionary [score_ranges] of [print_backtest_results]. *)
Definition score_ranges (scores : list Q) : list (string * nat) :=
  let count f := List.length (filter f scores) in
  [ ("9.0+"%string, count (fun s => s >=? 9.0));
    ("8.0-8.9"%string, count (fun s => (8.0 <=? s) && (s <? 9.0)));
    ("7.0-7.9"%string, count (fun s => (7.0 <=? s) && (s <? 8.0)));
    ("6.0-6.9"%string, count (fun s => (6.0 <=? s) && (s <? 7.0)));
    ("<6.0"%string, count (fun s => s <? 6.0)) ].

(** [main]: the number it prints after the run; [None] where the subscript
    of the [None] that [run_backtest] returned raises. *)
Definition main (db : Db) : option nat :=
  match run_backtest db 50 100 with
  | Some results => Some (tokens_analyzed results)
  | None => None
  end.

End ScoringRun.

Module SR := ScoringRun.

(** ** The token queries of the scoring run *)

Lemma max_high_spec (rows : list WindowRow) :
  match SR.max_high rows with
  | None => rows = []
  | Some m => In m rows /\ forall w, In w rows -> high w <= high m
  end.
Proof.
  induction rows as [|w rest IH]; simpl; [reflexivity|].
  destruct (SR.max_high rest) as [m|].
  - destruct IH as [Hin Hmax]. destruct (high m >? high w) eqn:E.
    + apply Qltb_lt in E. split; [now right|].
      intros w' [<- | H]; [lra | now apply Hmax].
    + apply Qltb_ge in E. split; [now left|].
      intros w' [<- | H]; [lra|]. specialize (Hmax w' H). lra.
  - subst rest. split; [now left|]. intros w' [<- | []]. lra.
Qed.

Lemma peak_windows_in (db : Db) (mint : string) (launch_time : Z) (w : WindowRow) :
  In w (SR.peak_windows db mint launch_time)
  <-> In w (windows db) /\ win_mint w = mint /\ window_sec w = 60%Z
      /\ (start_time w - launch_time <= 1800)%Z.
Proof.
  unfold SR.peak_windows.
  rewrite filter_In, !andb_true_iff, String.eqb_eq, Z.eqb_eq, Z.leb_le. tauto.
Qed.

(** X22. [get_peak_market_cap].  The rows it looks at are the 60-second
    windows of the token that start at most 1800 seconds after launch,
    windows before the launch included.  The market cap it returns is at
    least the high of every such window times 10^9; it is that of one of
    them, returned with the offset of that window, unless there is no such
    window or the largest high is 0, when it returns 0 and 0.  So the
    1M mark is reached exactly when some such window has a high of at
    least 0.001. *)
Theorem peak_market_cap_is_highest_high
  (db : Db) (mint : string) (launch_time : Z) :
  let rows := SR.peak_windows db mint launch_time in
  let peak_mc := fst (SR.get_peak_market_cap db mint launch_time) in
  let peak_time := snd (SR.get_peak_market_cap db mint launch_time) in
  (forall w, In w rows <->
     In w (windows db) /\ win_mint w = mint /\ window_sec w = 60%Z
     /\ (start_time w - launch_time <= 1800)%Z)
  /\ (forall w, In w rows -> high w * 1_000_000_000.0 <= peak_mc)
  /\ ((peak_mc = 0.0 /\ peak_time = 0%Z)
      \/ exists w, In w rows /\ peak_mc = high w * 1_000_000_000.0
                   /\ peak_time = (start_time w - launch_time)%Z)
  /\ (peak_time <= 1800)%Z
  /\ (1_000_000 <= peak_mc <-> exists w, In w rows /\ 0.001 <= high w).
Proof.
  intros rows peak_mc peak_time.
  assert (Hrows : forall w, In w rows <->
            In w (windows db) /\ win_mint w = mint /\ window_sec w = 60%Z
            /\ (start_time w - launch_time <= 1800)%Z)
    by (intros w; apply peak_windows_in).
  assert (Hmax : forall w, In w rows -> high w * 1_000_000_000.0 <= peak_mc).
  { intros w Hw. unfold peak_mc, SR.get_peak_market_cap. fold rows.
    pose proof (max_high_spec rows) as Hs.
    destruct (SR.max_high rows) as [m|]; [|subst rows; rewrite Hs in Hw; contradiction].
    destruct Hs as [_ Hs]. specialize (Hs w Hw).
    destruct (Qeq_bool (high m) 0) eqn:E; cbn [fst].
    - apply Qeq_bool_iff in E. lra.
    - lra. }
  assert (Hcase : (peak_mc = 0.0 /\ peak_time = 0%Z)
      \/ exists w, In w rows /\ peak_mc = high w * 1_000_000_000.0
                   /\ peak_time = (start_time w - launch_time)%Z).
  { unfold peak_mc, peak_time, SR.get_peak_market_cap. fold rows.
    pose proof (max_high_spec rows) as Hs.
    destruct (SR.max_high rows) as [m|]; [|now left].
    destruct (Qeq_bool (high m) 0); [now left|].
    right. exists m. destruct Hs as [Hin _]. now repeat split. }
  split; [exact Hrows|]. split; [exact Hmax|]. split; [exact Hcase|]. split.
  - destruct Hcase as [[_ ->] | (w & Hw & _ & ->)]; [lia|].
    apply Hrows in Hw. tauto.
  - split.
    + intros Hp. destruct Hcase as [[E _] | (w & Hw & E & _)].
      * rewrite E in Hp. exfalso. lra.
      * exists w. split; [exact Hw|]. rewrite E in Hp. lra.
    + intros (w & Hw & Hh). specialize (Hmax w Hw). lra.
Qed.

Lemma strongly_sorted_firstn {A : Type} (R : A -> A -> Prop) (n : nat) (l : list A) :
  StronglySorted R l -> StronglySorted R (firstn n l).
Proof.
  revert l. induction n as [|n IH]; intros l H; [constructor|].
  destruct l as [|x l]; [constructor|].
  inversion H as [|? ? Hs Hall]; subst. simpl. constructor; [now apply IH|].
  rewrite Forall_forall in *. intros y Hy. apply Hall. now apply firstn_in in Hy.
Qed.

Lemma sorted_by_total_vol (l : list SR.VolumeRow) :
  StronglySorted (fun a b => SR.total_vol b <= SR.total_vol a)
    (sort_by (fun y x => SR.total_vol y >=? SR.total_vol x) l).
Proof.
  apply Sorted_StronglySorted.
  - intros a b c Hab Hbc. lra.
  - assert (H : Sorted (fun a b => (SR.total_vol a >=? SR.total_vol b) = true)
                  (sort_by (fun y x => SR.total_vol y >=? SR.total_vol x) l)).
    { apply sort_by_sorted. intros x y H. apply Qleb_gt in H.
      apply Qle_bool_iff. lra. }
    induction H as [|a l' Hs IH Hh]; constructor; [assumption|].
    destruct Hh; constructor. now apply Qle_bool_iff.
Qed.

(** What makes a token a row of [get_tokens_with_high_volume]. *)
Definition high_volume (db : Db) (min_vol_sol : Q) (t : TokenRow) : Prop :=
  (0 < launch_block_time t)%Z
  /\ SR.joined_windows db t <> []
  /\ min_vol_sol <= Qsum (map vol_sol (SR.joined_windows db t)).

Lemma high_volume_rows (db : Db) (min_vol_sol : Q) (r : SR.VolumeRow) :
  In r (sort_by (fun y x => SR.total_vol y >=? SR.total_vol x)
       (filter (fun r => SR.total_vol r >=? min_vol_sol)
          (map (fun t => {| SR.vr_mint := tok_mint t;
                            SR.total_vol := Qsum (map vol_sol (SR.joined_windows db t));
                            SR.vr_launch_block_time := launch_block_time t |})
             (filter (fun t => (launch_block_time t >? 0)%Z
                               && match SR.joined_windows db t with
                                  | [] => false
                                  | _ :: _ => true
                                  end)
                     (tokens db)))))
  <-> exists t, In t (tokens db) /\ high_volume db min_vol_sol t
                /\ r = {| SR.vr_mint := tok_mint t;
                          SR.total_vol := Qsum (map vol_sol (SR.joined_windows db t));
                          SR.vr_launch_block_time := launch_block_time t |}.
Proof.
  rewrite sort_by_in, filter_In, in_map_iff. unfold high_volume. split.
  - intros [(t & <- & Ht) Hv]. apply filter_In in Ht. destruct Ht as [Hin Hc].
    apply andb_true_iff in Hc. destruct Hc as [Hl Hj].
    exists t. split; [exact Hin|]. split; [|reflexivity].
    split; [apply Z.gtb_lt in Hl; lia|]. split.
    + destruct (SR.joined_windows db t); [discriminate Hj | discriminate].
    + now apply Qle_bool_iff in Hv.
  - intros (t & Hin & (Hl & Hj & Hv) & ->). split.
    + exists t. split; [reflexivity|]. apply filter_In. split; [exact Hin|].
      apply andb_true_iff. split; [apply Z.gtb_lt; lia|].
      destruct (SR.joined_windows db t); [contradiction | reflexivity].
    + now apply Qle_bool_iff.
Qed.

(** X23. [get_tokens_with_high_volume] returns at most [limit] rows, by
    descending volume.  Each row is a token of [tokens] with a positive
    launch time and at least one 60-second window starting no later than
    300 seconds after launch, with the summed volume of those windows,
    which is at least [min_vol_sol]; windows from before the launch count
    in that sum.  When fewer than [limit] rows come back, every such token
    is among them. *)
Theorem high_volume_tokens (db : Db) (min_vol_sol : Q) (limit : nat) :
  let rows := SR.get_tokens_with_high_volume db min_vol_sol limit in
  (List.length rows <= limit)%nat
  /\ StronglySorted (fun a b => SR.total_vol b <= SR.total_vol a) rows
  /\ (forall r, In r rows ->
        exists t, In t (tokens db) /\ high_volume db min_vol_sol t
                  /\ SR.vr_mint r = tok_mint t
                  /\ SR.vr_launch_block_time r = launch_block_time t
                  /\ SR.total_vol r = Qsum (map vol_sol (SR.joined_windows db t)))
  /\ (forall t w, In w (SR.joined_windows db t) <->
        In w (windows db) /\ win_mint w = tok_mint t /\ window_sec w = 60%Z
        /\ (start_time w - launch_block_time t <= 300)%Z)
  /\ ((List.length rows < limit)%nat ->
      forall t, In t (tokens db) -> high_volume db min_vol_sol t ->
                exists r, In r rows /\ SR.vr_mint r = tok_mint t
                          /\ SR.vr_launch_block_time r = launch_block_time t).
Proof.
  intros rows. unfold rows, SR.get_tokens_with_high_volume.
  split; [|split; [|split; [|split]]].
  - rewrite length_firstn. lia.
  - apply strongly_sorted_firstn, sorted_by_total_vol.
  - intros r Hr. apply firstn_in, high_volume_rows in Hr.
    destruct Hr as (t & Hin & Hv & ->). exists t.
    split; [exact Hin|]. split; [exact Hv|]. repeat split.
  - intros t w. unfold SR.joined_windows.
    rewrite filter_In, !andb_true_iff, String.eqb_eq, Z.eqb_eq, Z.leb_le. tauto.
  - intros Hlen t Hin Hv.
    rewrite length_firstn in Hlen.
    rewrite firstn_all2 by lia.
    eexists. split.
    { apply high_volume_rows. exists t.
      split; [exact Hin|]. split; [exact Hv | reflexivity]. }
    split; reflexivity.
Qed.

(** ** The tallies of the scoring run *)

(** The score dictionary of one token at one evaluation time. *)
Definition score_at (db : Db) (eval_time : Z) (token : SR.VolumeRow) : SB.TokenScore :=
  SB.score_token_at_time db (SR.vr_mint token) (SR.vr_launch_block_time token)
                         eval_time.

Definition peak_of (db : Db) (token : SR.VolumeRow) : Q :=
  fst (SR.get_peak_market_cap db (SR.vr_mint token) (SR.vr_launch_block_time token)).

Lemma analyze_token_at (db : Db) (results : SR.BacktestResults)
      (token : SR.VolumeRow) (eval_time : Z) :
  In eval_time SR.eval_times ->
  SR.by_eval_time (SR.analyze_token db results token) eval_time
  = SR.record_score (score_at db eval_time token)
                    (SR.by_eval_time results eval_time).
Proof.
  unfold SR.analyze_token, SR.eval_times, score_at. cbv zeta.
  cbn [SR.by_eval_time fold_left]. unfold SR.update_eval.
  intros [<- | [<- | [<- | [<- | []]]]]; reflexivity.
Qed.

Lemma filter_map_length {A B : Type} (f : B -> bool) (g : A -> B) (l : list A) :
  List.length (filter f (map g l)) = List.length (filter (fun x => f (g x)) l).
Proof.
  induction l as [|x l IH]; simpl; [reflexivity|].
  destruct (f (g x)); simpl; now rewrite IH.
Qed.

Lemma analyze_tokens (db : Db) (tokens : list SR.VolumeRow)
      (results : SR.BacktestResults) :
  let r := fold_left (SR.analyze_token db) tokens results in
  SR.tokens_analyzed r = SR.tokens_analyzed results
  /\ SR.peak_mc_distribution r
     = SR.peak_mc_distribution results ++ map (peak_of db) tokens
  /\ SR.reached_1m r
     = (SR.reached_1m results
        + List.length (filter (fun mc => mc >=? 1_000_000)
                              (map (peak_of db) tokens)))%nat
  /\ List.length (SR.token_details r)
     = (List.length (SR.token_details results) + List.length tokens)%nat
  /\ forall eval_time, In eval_time SR.eval_times ->
       let data := SR.by_eval_time r eval_time in
       let data0 := SR.by_eval_time results eval_time in
       let totals := map (fun t => SB.total_score (score_at db eval_time t)) tokens in
       SR.scores data = SR.scores data0 ++ totals
       /\ SR.detected data
          = (SR.detected data0
             + List.length (filter (fun s => s >=? 6.0) totals))%nat
       /\ forall sig_num, (1 <= sig_num <= 7)%nat ->
            SR.signal_contributions data sig_num
            = SR.signal_contributions data0 sig_num
              ++ map (fun t => SR.signal_score (score_at db eval_time t) sig_num)
                     tokens.
Proof.
  revert results.
  induction tokens as [|token tokens IH]; intros results; cbv zeta.
  - cbn [fold_left map filter List.length].
    split; [reflexivity|]. split; [now rewrite app_nil_r|].
    split; [lia|]. split; [lia|].
    intros eval_time _. split; [now rewrite app_nil_r|]. split; [lia|].
    intros sig_num _. now rewrite app_nil_r.
  - cbn [fold_left].
    destruct (IH (SR.analyze_token db results token)) as (H1 & H2 & H3 & H4 & H5).
    split; [rewrite H1; reflexivity|].
    split; [rewrite H2; cbn [SR.analyze_token SR.peak_mc_distribution map];
            now rewrite <- app_assoc|].
    split.
    { rewrite H3. cbn [map filter]. fold (peak_of db token).
      unfold SR.analyze_token at 1. cbv zeta. cbn [SR.reached_1m].
      fold (peak_of db token).
      destruct (peak_of db token >=? 1_000_000); simpl; lia. }
    split.
    { rewrite H4. unfold SR.analyze_token at 1. cbv zeta. cbn [SR.token_details].
      rewrite length_app. simpl. lia. }
    intros eval_time He. cbv zeta.
    destruct (H5 eval_time He) as (Hs & Hd & Hc).
    rewrite (analyze_token_at db results token eval_time He) in Hs, Hd, Hc.
    split; [|split].
    + rewrite Hs. cbn [SR.record_score SR.scores map]. cbv zeta.
      now rewrite <- app_assoc.
    + rewrite Hd. cbn [map filter].
      unfold SR.record_score at 1. cbv zeta. cbn [SR.detected].
      destruct (SB.total_score (score_at db eval_time token) >=? 6.0);
        simpl; lia.
    + intros sig_num Hk. rewrite (Hc sig_num Hk).
      unfold SR.record_score at 1. cbv zeta. cbn [SR.signal_contributions].
      assert (E : ((1 <=? sig_num) && (sig_num <=? 7))%nat = true).
      { apply andb_true_iff. split; apply Nat.leb_le; lia. }
      rewrite E. cbn [map]. now rewrite <- app_assoc.
Qed.

Lemma total_is_sum_of_signals (db : Db) (eval_time : Z) (tokens : list SR.VolumeRow) :
  Qsum (map (fun t => SB.total_score (score_at db eval_time t)) tokens)
  == Qsum (map (fun t => SR.signal_score (score_at db eval_time t) 1) tokens)
     + Qsum (map (fun t => SR.signal_score (score_at db eval_time t) 2) tokens)
     + Qsum (map (fun t => SR.signal_score (score_at db eval_time t) 3) tokens)
     + Qsum (map (fun t => SR.signal_score (score_at db eval_time t) 4) tokens)
     + Qsum (map (fun t => SR.signal_score (score_at db eval_time t) 5) tokens)
     + Qsum (map (fun t => SR.signal_score (score_at db eval_time t) 6) tokens)
     + Qsum (map (fun t => SR.signal_score (score_at db eval_time t) 7) tokens).
Proof.
  induction tokens as [|t tokens IH]; cbn [map].
  - unfold Qsum. simpl. lra.
  - rewrite !Qsum_cons, IH.
    assert (E : SB.total_score (score_at db eval_time t)
                = SR.signal_score (score_at db eval_time t) 1
                  + SR.signal_score (score_at db eval_time t) 2
                  + SR.signal_score (score_at db eval_time t) 3
                  + SR.signal_score (score_at db eval_time t) 4
                  + SR.signal_score (score_at db eval_time t) 5
                  + SR.signal_score (score_at db eval_time t) 6
                  + SR.signal_score (score_at db eval_time t) 7)
      by reflexivity.
    rewrite E. generalize (score_at db eval_time t). intros sd.
    repeat match goal with
    | |- context [Qsum ?l] => generalize (Qsum l); intro
    end.
    repeat match goal with
    | |- context [SR.signal_score sd ?k] => generalize (SR.signal_score sd k); intro
    end.
    lra.
Qed.

(** What [run_backtest] returns for a non-empty list of tokens. *)
Lemma run_backtest_shape (db : Db) (min_volume : Q) (sample_size : nat)
      (results : SR.BacktestResults) :
  SR.run_backtest db min_volume sample_size = Some results ->
  let tokens := SR.get_tokens_with_high_volume db min_volume sample_size in
  tokens <> []
  /\ SR.tokens_analyzed results = List.length tokens
  /\ SR.peak_mc_distribution results = map (peak_of db) tokens
  /\ SR.reached_1m results
     = List.length (filter (fun mc => mc >=? 1_000_000)
                           (SR.peak_mc_distribution results))
  /\ List.length (SR.token_details results) = List.length tokens
  /\ forall eval_time, In eval_time SR.eval_times ->
       let data := SR.by_eval_time results eval_time in
       SR.scores data
       = map (fun t => SB.total_score (score_at db eval_time t)) tokens
       /\ SR.detected data
          = List.length (filter (fun s => s >=? 6.0) (SR.scores data))
       /\ forall sig_num, (1 <= sig_num <= 7)%nat ->
            SR.signal_contributions data sig_num
            = map (fun t => SR.signal_score (score_at db eval_time t) sig_num)
                  tokens.
Proof.
  intros H tokens. unfold SR.run_backtest in H. fold tokens in H.
  destruct tokens as [|t ts] eqn:Et; [discriminate H|].
  rewrite <- Et in *. injection H as <-.
  destruct (analyze_tokens db tokens (SR.initial_results tokens))
    as (H1 & H2 & H3 & H4 & H5).
  split; [rewrite Et; discriminate|].
  split; [rewrite H1; reflexivity|].
  split; [rewrite H2; reflexivity|].
  split; [rewrite H3, H2; reflexivity|].
  split; [rewrite H4; reflexivity|].
  intros eval_time He. cbv zeta.
  destruct (H5 eval_time He) as (Hs & Hd & Hc).
  split; [rewrite Hs; reflexivity|].
  split; [rewrite Hd, Hs; reflexivity|].
  intros sig_num Hk. rewrite (Hc sig_num Hk). reflexivity.
Qed.

(** X24. The tallies of [run_backtest].  When it returns results, some
    token had the volume asked for; the number of tokens analysed is the
    number of rows of [get_tokens_with_high_volume], at least 1 and at most
    [sample_size]; there is one peak market cap and one detail record per
    token; the count of tokens that reached 1M is the number of peaks of at
    least 1,000,000.  At each of the four evaluation times there is one
    score per token, in the order of the tokens; the detected count is the
    number of scores of at least 6, so at most the number of tokens; each
    of the seven signals has one contribution per token; and the scores
    add up to the sum of the seven signals' contributions. *)
Theorem run_backtest_tallies
  (db : Db) (min_volume : Q) (sample_size : nat) (results : SR.BacktestResults) :
  SR.run_backtest db min_volume sample_size = Some results ->
  let tokens := SR.get_tokens_with_high_volume db min_volume sample_size in
  let n := SR.tokens_analyzed results in
  n = List.length tokens
  /\ (1 <= n <= sample_size)%nat
  /\ List.length (SR.peak_mc_distribution results) = n
  /\ List.length (SR.token_details results) = n
  /\ SR.reached_1m results
     = List.length (filter (fun t => peak_of db t >=? 1_000_000) tokens)
  /\ (SR.reached_1m results <= n)%nat
  /\ forall eval_time, In eval_time SR.eval_times ->
       let data := SR.by_eval_time results eval_time in
       SR.scores data
       = map (fun t => SB.total_score (score_at db eval_time t)) tokens
       /\ SR.detected data
          = List.length (filter (fun s => s >=? 6.0) (SR.scores data))
       /\ (SR.detected data <= n)%nat
       /\ (forall sig_num, (1 <= sig_num <= 7)%nat ->
             List.length (SR.signal_contributions data sig_num) = n)
       /\ Qsum (SR.scores data)
          == Qsum (SR.signal_contributions data 1)
             + Qsum (SR.signal_contributions data 2)
             + Qsum (SR.signal_contributions data 3)
             + Qsum (SR.signal_contributions data 4)
             + Qsum (SR.signal_contributions data 5)
             + Qsum (SR.signal_contributions data 6)
             + Qsum (SR.signal_contributions data 7).
Proof.
  intros H tokens n.
  destruct (run_backtest_shape db min_volume sample_size results H)
    as (Hne & Hn & Hp & Hr & Hd & He).
  fold tokens in Hne, Hn, Hp, Hd, He. fold n in Hn.
  assert (Hlim : (List.length tokens <= sample_size)%nat).
  { unfold tokens, SR.get_tokens_with_high_volume. rewrite length_firstn. lia. }
  assert (Hpos : (1 <= List.length tokens)%nat).
  { destruct tokens; [contradiction | simpl; lia]. }
  split; [exact Hn|]. split; [lia|].
  split; [rewrite Hp, length_map; lia|].
  split; [lia|].
  assert (Hr' : SR.reached_1m results
                = List.length (filter (fun t => peak_of db t >=? 1_000_000) tokens))
    by (rewrite Hr, Hp; apply filter_map_length).
  split; [exact Hr'|].
  split; [rewrite Hr', Hn; apply filter_length_le|].
  intros eval_time Hin. cbv zeta.
  destruct (He eval_time Hin) as (Hs & Hdet & Hc).
  split; [exact Hs|]. split; [exact Hdet|]. split; [|split].
  - rewrite Hdet, Hn.
    etransitivity; [apply filter_length_le|]. rewrite Hs, length_map. lia.
  - intros sig_num Hk. rewrite (Hc sig_num Hk), length_map. lia.
  - rewrite Hs, !Hc by lia. apply total_is_sum_of_signals.
Qed.

Lemma run_backtest_tallies_witness :
  exists results,
    SR.run_backtest launched_db 50 100 = Some results
    /\ SR.tokens_analyzed results = 1%nat.
Proof.
  destruct (SR.run_backtest launched_db 50 100) as [results|] eqn:E;
    [|vm_compute in E; discriminate E].
  exists results. split; [reflexivity|].
  destruct (run_backtest_tallies launched_db 50 100 results E) as (Hn & _).
  rewrite Hn. reflexivity.
Defined.

Lemma score_ranges_counts (scores : list Q) :
  let count f := List.length (filter f scores) in
  let r9 := count (fun s => s >=? 9.0) in
  let r8 := count (fun s => (8.0 <=? s) && (s <? 9.0)) in
  let r7 := count (fun s => (7.0 <=? s) && (s <? 8.0)) in
  let r6 := count (fun s => (6.0 <=? s) && (s <? 7.0)) in
  let below := count (fun s => s <? 6.0) in
  let above := count (fun s => s >=? 6.0) in
  (r9 + r8 + r7 + r6 = above)%nat /\ (above + below = List.length scores)%nat.
Proof.
  cbv zeta. induction scores as [|s l [IH1 IH2]]; [split; reflexivity|].
  cbn [filter].
  destruct (s >=? 9.0) eqn:E9, (8.0 <=? s) eqn:E8, (s <? 9.0) eqn:E9',
    (7.0 <=? s) eqn:E7, (s <? 8.0) eqn:E8', (6.0 <=? s) eqn:E6,
    (s <? 7.0) eqn:E7', (s <? 6.0) eqn:E6';
    qbool; try (exfalso; lra); cbn [andb List.length]; split; lia.
Qed.

(** X25. The score distribution printed for an evaluation time.  The five
    ranges ["9.0+"], ["8.0-8.9"], ["7.0-7.9"], ["6.0-6.9"] and ["<6.0"]
    are printed in this order; every score falls in exactly one of them,
    so the five counts add up to the number of tokens analysed; and the
    first four add up to the detected count of that time. *)
Theorem score_distribution_of_run
  (db : Db) (min_volume : Q) (sample_size : nat) (results : SR.BacktestResults)
  (eval_time : Z) :
  SR.run_backtest db min_volume sample_size = Some results ->
  In eval_time SR.eval_times ->
  let data := SR.by_eval_time results eval_time in
  let ranges := SR.score_ranges (SR.scores data) in
  map fst ranges = ["9.0+"; "8.0-8.9"; "7.0-7.9"; "6.0-6.9"; "<6.0"]%string
  /\ list_sum (map snd ranges) = SR.tokens_analyzed results
  /\ list_sum (map snd (firstn 4 ranges)) = SR.detected data.
Proof.
  intros H Hin data ranges.
  destruct (run_backtest_shape db min_volume sample_size results H)
    as (_ & Hn & _ & _ & _ & He).
  destruct (He eval_time Hin) as (Hs & Hdet & _). fold data in Hs, Hdet.
  destruct (score_ranges_counts (SR.scores data)) as [H4 H5]. cbv zeta in H4, H5.
  split; [reflexivity|].
  unfold ranges, SR.score_ranges. cbv zeta. cbn [map snd firstn list_sum fold_right].
  assert (Hlen : List.length (SR.scores data)
                 = List.length (SR.get_tokens_with_high_volume db min_volume
                                                               sample_size))
    by (rewrite Hs; apply length_map).
  split.
  - rewrite Hn. lia.
  - rewrite Hdet. lia.
Qed.

Lemma score_distribution_of_run_witness :
  exists results,
    SR.run_backtest launched_db 50 100 = Some results
    /\ list_sum (map snd (SR.score_ranges (SR.scores (SR.by_eval_time results 120))))
       = SR.tokens_analyzed results.
Proof.
  destruct (SR.run_backtest launched_db 50 100) as [results|] eqn:E;
    [|vm_compute in E; discriminate E].
  exists results. split; [reflexivity|].
  apply (score_distribution_of_run launched_db 50 100 results 120 E).
  simpl. tauto.
Defined.

(** X26. When the scoring run has nothing to return.  [run_backtest]
    returns [None] exactly when [sample_size] is 0 or no token of [tokens]
    has a positive launch time, a 60-second window starting no later than
    300 seconds after launch and a summed volume of at least [min_volume];
    [main], which subscripts what [run_backtest] returned, then raises, and
    otherwise prints a number of tokens between 1 and 100. *)
Theorem scoring_run_without_tokens (db : Db) (min_volume : Q) (sample_size : nat) :
  (SR.run_backtest db min_volume sample_size = None
   <-> sample_size = 0%nat
       \/ forall t, In t (tokens db) -> ~ high_volume db min_volume t)
  /\ (SR.main db = None
      <-> forall t, In t (tokens db) -> ~ high_volume db 50 t)
  /\ (forall n, SR.main db = Some n -> (1 <= n <= 100)%nat).
Proof.
  assert (Hnone : forall mv k,
            SR.run_backtest db mv k = None
            <-> k = 0%nat \/ forall t, In t (tokens db) -> ~ high_volume db mv t).
  { intros mv k. unfold SR.run_backtest, SR.get_tokens_with_high_volume.
    set (l := sort_by _ _).
    assert (Hl : forall r, In r l <-> exists t, In t (tokens db)
                   /\ high_volume db mv t
                   /\ r = {| SR.vr_mint := tok_mint t;
                             SR.total_vol :=
                               Qsum (map vol_sol (SR.joined_windows db t));
                             SR.vr_launch_block_time := launch_block_time t |})
      by (intros r; apply high_volume_rows).
    clearbody l. destruct k as [|k].
    - simpl. split; auto.
    - destruct l as [|r l]; simpl.
      + split; [intros _ | reflexivity]. right. intros t Hin Hv.
        eapply (proj2 (Hl _)). exists t. split; [exact Hin|].
        split; [exact Hv | reflexivity].
      + split; [discriminate|]. intros [H | H]; [discriminate H|].
        exfalso. destruct (proj1 (Hl r) (or_introl eq_refl)) as (t & Hin & Hv & _).
        exact (H t Hin Hv). }
  split; [apply Hnone|]. split.
  - unfold SR.main. specialize (Hnone 50 100%nat).
    destruct (SR.run_backtest db 50 100) as [r|].
    + split; [discriminate|]. intros H.
      assert (Hx : Some r = None) by (apply Hnone; now right). discriminate Hx.
    + split; [intros _ | reflexivity].
      destruct (proj1 Hnone eq_refl) as [H | H]; [discriminate H | exact H].
  - intros n Hm. unfold SR.main in Hm.
    destruct (SR.run_backtest db 50 100) as [r|] eqn:E; [|discriminate Hm].
    injection Hm as <-.
    destruct (run_backtest_shape db 50 100 r E) as (Hne & Hn & _).
    rewrite Hn.
    assert (Hlim : (List.length (SR.get_tokens_with_high_volume db 50 100) <= 100)%nat).
    { unfold SR.get_tokens_with_high_volume. rewrite length_firstn. lia. }
    destruct (SR.get_tokens_with_high_volume db 50 100);
      [contradiction | simpl in *; lia].
Qed.

(** ** The entry of a position *)

(** The offsets from launch, in seconds, between which a strategy looks
    for its entry window. *)
Definition entry_range (s : Strategy) : Z * Z :=
  match s with
  | dollar_scalping => (30, 60)
  | rank_based => (60, 120)
  | momentum => (120, 130)
  | copy_trading => (0, 60)
  | late_opportunity => (1200, 1260)
  | mc_hunting_1m => (120, 130)
  end%Z.

(** The number of price windows below which a strategy does not trade. *)
Definition min_windows (s : Strategy) : nat :=
  match s with
  | dollar_scalping => 2
  | rank_based => 3
  | momentum => 4
  | copy_trading => 2
  | late_opportunity => 20
  | mc_hunting_1m => 3
  end.

(** [w] is the first window of [prices] whose offset lies in the entry
    range of [s]. *)
Definition first_in_range (s : Strategy) (launch_time : Z) (prices : list WindowRow)
           (w : WindowRow) : Prop :=
  exists before after,
    prices = before ++ w :: after
    /\ (fst (entry_range s) <= start_time w - launch_time <= snd (entry_range s))%Z
    /\ forall p, In p before ->
         ~ (fst (entry_range s) <= start_time p - launch_time
            <= snd (entry_range s))%Z.

Lemma entry_window_first (s : Strategy) (launch_time : Z) (prices : list WindowRow)
      (w : WindowRow) :
  CB.entry_window (fst (entry_range s)) (snd (entry_range s)) launch_time prices
  = Some w ->
  first_in_range s launch_time prices w.
Proof.
  unfold CB.entry_window. intros H. apply find_first in H.
  destruct H as (Hw & l1 & l2 & -> & Hl1).
  exists l1, l2. split; [reflexivity|]. split; [now apply between_spec|].
  intros p Hp Hr. apply between_spec in Hr. rewrite (Hl1 p Hp) in Hr. discriminate Hr.
Qed.

(** X27. Where a position enters.  Scalping, rank based, momentum, late
    opportunity and 1M hunting return a position only when there are at
    least 2, 3, 4, 20 and 3 price windows, and enter at the close, which is
    positive, of the first window whose offset from launch lies in 30 to
    60, 60 to 120, 120 to 130, 1200 to 1260 and 120 to 130 seconds; rank
    based moreover asks for a five-minute volume of at least 20 SOL. *)
Theorem entry_at_first_window_in_range
  (s : Strategy) (db : Db) (mint creator_wallet : string) (volume_5min : Q)
  (launch_time : Z) (prices : list WindowRow) (pos : Position) :
  match s with
  | dollar_scalping => CB.test_dollar_scalping mint launch_time prices
  | rank_based => CB.test_rank_based mint launch_time prices volume_5min
  | momentum => CB.test_momentum db mint launch_time prices
  | copy_trading => None
  | late_opportunity => CB.test_late_opportunity db mint launch_time prices
  | mc_hunting_1m =>
      CB.test_1m_mc_hunting db mint launch_time creator_wallet prices
  end = Some pos ->
  (min_windows s <= List.length prices)%nat
  /\ (s = rank_based -> 20.0 <= volume_5min)
  /\ exists w, first_in_range s launch_time prices w
               /\ entry_price pos = close w /\ 0 < close w.
Proof.
  destruct s; intros H; try discriminate H.
  - unfold CB.test_dollar_scalping in H. open_guards. injection H as <-.
    repeat match goal with
    | E : (_ <? _)%nat = false |- _ => apply Nat.ltb_ge in E
    | E : (_ <=? _) = false |- _ => apply Qleb_gt in E
    end.
    split; [assumption|]. split; [discriminate|].
    exists w. split; [now apply (entry_window_first dollar_scalping)|].
    split; [reflexivity | assumption].
  - unfold CB.test_rank_based in H. open_guards. injection H as <-.
    repeat match goal with
    | E : (_ <? _)%nat = false |- _ => apply Nat.ltb_ge in E
    | E : (_ <? _) = false |- _ => apply Qltb_ge in E
    | E : (_ <=? _) = false |- _ => apply Qleb_gt in E
    end.
    split; [assumption|]. split; [intros _; assumption|].
    exists w. split; [now apply (entry_window_first rank_based)|].
    split; [reflexivity | assumption].
  - unfold CB.test_momentum in H. cbv zeta in H. open_guards. injection H as <-.
    repeat match goal with
    | E : (_ <? _)%nat = false |- _ => apply Nat.ltb_ge in E
    | E : (_ <=? _) = false |- _ => apply Qleb_gt in E
    end.
    split; [assumption|]. split; [discriminate|].
    exists w. split; [now apply (entry_window_first momentum)|].
    split; [reflexivity | assumption].
  - unfold CB.test_late_opportunity in H. cbv zeta in H. open_guards.
    injection H as <-.
    repeat match goal with
    | E : (_ <? _)%nat = false |- _ => apply Nat.ltb_ge in E
    | E : (_ <=? _) = false |- _ => apply Qleb_gt in E
    end.
    split; [assumption|]. split; [discriminate|].
    exists w. split; [now apply (entry_window_first late_opportunity)|].
    split; [reflexivity | assumption].
  - pose proof H as Hshape. apply hunting_position_shape in Hshape.
    cbv zeta in Hshape.
    destruct Hshape as (entry & size & pt & sl & _ & _ & _ & _ & Epos).
    unfold CB.test_1m_mc_hunting in H. cbv zeta in H. open_guards.
    repeat match goal with
    | E : (_ <? _)%nat = false |- _ => apply Nat.ltb_ge in E
    | E : (_ <=? _) = false |- _ => apply Qleb_gt in E
    end.
    split; [assumption|]. split; [discriminate|].
    exists w. split; [now apply (entry_window_first mc_hunting_1m)|].
    destruct (CB.sizing _) as [[a b] c].
    destruct (CB.hunt_scan _ _ _ _ _ _) as [x peak].
    injection H as <-. split; [reflexivity | assumption].
Qed.

Lemma entry_at_first_window_in_range_witness :
  exists pos,
    CB.test_1m_mc_hunting hunting_db "m" 0 "creator" hunting_prices = Some pos
    /\ (3 <= List.length hunting_prices)%nat.
Proof.
  destruct (CB.test_1m_mc_hunting hunting_db "m" 0 "creator" hunting_prices)
    as [pos|] eqn:E; [|vm_compute in E; discriminate E].
  exists pos. split; [reflexivity|].
  apply (entry_at_first_window_in_range mc_hunting_1m hunting_db "m" "creator" 0
           0 hunting_prices pos E).
Defined.
